(** * Project-Management-Portal: the request handlers of [server.js]

    A shallow embedding of the Express handlers of [src/server.js] over an
    in-memory model of the relational store, and the properties of the
    persistence-and-sync contract proved (or refuted) on it.

    Scope of the model.
    - The store is the development engine of [server.js] (the [sqlite3]
      driver, the [else] branch of the database setup): [this.lastID] is the
      rowid of the inserted row, and an exception thrown inside a driver
      callback is caught by nobody.
    - A statement either fails with an error chosen by the environment (the
      [fault] argument of every handler, which stands for any failure of the
      engine) or is carried out on the tables.  UNIQUE columns are checked by
      the model itself.
    - JSON numbers are integers ([Z]); a string is the sequence of its
      UTF-8 bytes.
    - A cell holds what the column's affinity makes of the value bound to
      it: a number bound to a TEXT column is stored as text, text that reads
      as a number bound to an INTEGER column as that number.  The store has
      no REAL: where the engine would store one, or an integer that it finds
      by rounding one, the model is outside its domain, and [exact] says for
      which bound values it is inside.  The [:id] path segment is given as
      the integer that the comparison with the INTEGER column [id] converts
      it to. *)

From stdpp Require Import gmap strings list sorting.
From Stdlib Require Import ZArith DecimalString.

#[local] Open Scope Z_scope.
#[local] Set Warnings "-register-all".

(** ** JavaScript values *)

Module Js.

(** A request body is parsed JSON; a field that is not there reads as
    [undefined]. *)
Inductive value :=
| JUndefined
| JNull
| JBool (b : bool)
| JNum (n : Z)
| JStr (s : string)
| JArr (l : list value)
| JObj (o : gmap string value).

Abbreviation object := (gmap string value).

Inductive exception := SyntaxError | TypeError.

(** [req.body.k], as read by the destructuring [const { k } = req.body]. *)
Definition field (o : object) (k : string) : value :=
  default JUndefined (o !! k).

(** ToBoolean: what [!v], [v ? a : b], [v || w] and [Boolean(v)] test. *)
Definition truthy (v : value) : bool :=
  match v with
  | JUndefined | JNull => false
  | JBool b => b
  | JNum n => negb (n =? 0)
  | JStr s => negb (String.eqb s "")
  | JArr _ | JObj _ => true
  end.

(** [a || b] *)
Definition or_else (a b : value) : value := if truthy a then a else b.

(** [Boolean(v)] *)
Definition Boolean (v : value) : value := JBool (truthy v).

(** [c ? 1 : 0] *)
Definition flag (c : value) : value := JNum (if truthy c then 1 else 0).

(** The UTF-16 code units that a byte of UTF-8 text stands for: one for the
    first byte of a character, none for a continuation byte, two for the
    first byte of a four-byte character (a surrogate pair). *)
Definition utf16_units (a : Ascii.ascii) : nat :=
  let n := Ascii.nat_of_ascii a in
  if (n <? 128)%nat then 1%nat
  else if (n <? 192)%nat then 0%nat
  else if (n <? 240)%nat then 1%nat
  else 2%nat.

(** [s.length] of a string: the number of its UTF-16 code units. *)
Fixpoint utf16_length (s : string) : nat :=
  match s with
  | EmptyString => 0%nat
  | String a rest => (utf16_units a + utf16_length rest)%nat
  end.

(** [v.length] for a truthy [v]: the length of a string or an array, the
    property of that name of an object, [undefined] for a number or [true]. *)
Definition length_of (v : value) : value :=
  match v with
  | JStr s => JNum (Z.of_nat (utf16_length s))
  | JArr l => JNum (Z.of_nat (length l))
  | JObj o => field o "length"
  | _ => JUndefined
  end.

(** [s.includes(needle)] *)
Definition includes (needle s : string) : bool :=
  match String.index 0 needle s with Some _ => true | None => false end.

Definition is_undefined (v : value) : bool :=
  match v with JUndefined => true | _ => false end.

(** An object literal as [res.json] sends it: JSON has no [undefined], a
    property holding it is left out of the body. *)
Definition literal (props : list (string * value)) : value :=
  JObj (list_to_map (filter (fun kv => is_undefined kv.2 = false) props)).

(** [body.k] of a JSON body that is an object. *)
Definition prop (body : value) (k : string) : option value :=
  match body with JObj o => o !! k | _ => None end.

End Js.

Export Js.

(** ** The relational store *)

Module Sql.

(** Storage classes of a cell: NULL, INTEGER and TEXT.  (No BLOB is ever
    bound; for REAL see [numeric_text] and [exact].) *)
Inductive sqlval := SNull | SInt (n : Z) | SText (s : string).

#[export] Instance sqlval_eq_dec : EqDecision sqlval.
Proof. solve_decision. Defined.

Abbreviation row := (gmap string sqlval).

(** A table with AUTOINCREMENT: its rows in rowid order and the largest rowid
    ever handed out ([sqlite_sequence]). *)
Record table := { rows : list row; seq : Z }.

Inductive tbl :=
| Users | Projects | Ideas | Notes | CareerGoals | FutureWork | Deadlines
| CalendarEvents | Profiles.

#[export] Instance tbl_eq_dec : EqDecision tbl.
Proof. solve_decision. Defined.

Abbreviation database := (tbl -> table).

(** The error object a failed statement hands to the callback. *)
Record db_error := { message : string; code : string }.

(** How the driver binds a JavaScript parameter: [undefined] leaves the
    placeholder unbound, which SQL reads as NULL; a boolean is bound as the
    integer 1 or 0; an array or object as the text of its string tag. *)
Definition bindParam (v : value) : sqlval :=
  match v with
  | JUndefined | JNull => SNull
  | JBool b => SInt (if b then 1 else 0)
  | JNum n => SInt n
  | JStr s => SText s
  | JArr _ | JObj _ => SText "[object Object]"
  end.

(** A cell as the driver returns it in a row object. *)
Definition of_sql (c : sqlval) : value :=
  match c with
  | SNull => JNull
  | SInt n => JNum n
  | SText s => JStr s
  end.

(** [row.c] of a row object returned by [db.get] / [db.all]. *)
Definition col (r : row) (c : string) : value :=
  match r !! c with Some x => of_sql x | None => JUndefined end.

(** The row object as [res.json(rows)] sends it. *)
Definition row_json (r : row) : value := JObj (of_sql <$> r).

(** *** Column affinity *)

(** The declared type of a column decides its affinity; every column of
    the CREATE TABLE and ALTER TABLE statements is declared TEXT or
    INTEGER. *)
Inductive affinity := TEXT | INTEGER.

(** The decimal text of an integer, as the engine renders an INTEGER that
    goes into a TEXT column. *)
Definition decimal (n : Z) : string := NilZero.string_of_int (Z.to_int n).

(** White space as the engine's number reader sees it: space, tab, line
    feed, vertical tab, form feed, carriage return. *)
Definition is_space (a : Ascii.ascii) : bool :=
  let n := Ascii.nat_of_ascii a in
  (n =? 32)%nat || ((9 <=? n)%nat && (n <=? 13)%nat).

Fixpoint skip_spaces (l : list Ascii.ascii) : list Ascii.ascii :=
  match l with
  | a :: l' => if is_space a then skip_spaces l' else l
  | [] => []
  end.

Definition digit_of (a : Ascii.ascii) : option Z :=
  let n := Z.of_nat (Ascii.nat_of_ascii a) in
  if (48 <=? n) && (n <=? 57) then Some (n - 48) else None.

(** The digits at the head of [l], read on to the number [acc]: the number,
    how many digits were read, and what follows them. *)
Fixpoint read_digits (l : list Ascii.ascii) (acc : Z) (count : nat)
    : Z * nat * list Ascii.ascii :=
  match l with
  | a :: l' =>
      match digit_of a with
      | Some d => read_digits l' (10 * acc + d) (S count)
      | None => (acc, count, l)
      end
  | [] => (acc, count, [])
  end.

(** An optional sign: is it [-], and what follows. *)
Definition read_sign (l : list Ascii.ascii) : bool * list Ascii.ascii :=
  match l with
  | a :: l' =>
      if Ascii.eqb a (Ascii.ascii_of_nat 45) then (true, l')
      else if Ascii.eqb a (Ascii.ascii_of_nat 43) then (false, l')
      else (false, l)
  | [] => (false, [])
  end.

(** What the engine makes of a text that goes into an INTEGER column.
    - [NotNumeric]: the text is not a number (white space, sign, digits,
      a point and more digits, an exponent, white space); it stays text.
    - [Whole n]: the text is the integer [n], written in digits alone and
      within 64 bits, or with a point or an exponent, at most 15 digits
      long and without a fraction; the cell holds the integer.
    - [OtherNumber]: any other number.  The engine stores a REAL, or the
      integer that the nearest double is; the model has neither. *)
Inductive numeric := NotNumeric | Whole (n : Z) | OtherNumber.

Definition numeric_text (s : string) : numeric :=
  let l0 := skip_spaces (String.list_ascii_of_string s) in
  let '(negative, l1) := read_sign l0 in
  let '(int_part, int_digits, l2) := read_digits l1 0 0 in
  let '(mantissa, frac_digits, l3, point) :=
    match l2 with
    | a :: l' =>
        if Ascii.eqb a (Ascii.ascii_of_nat 46) then
          let '(m, n, rest) := read_digits l' int_part 0 in (m, n, rest, true)
        else (int_part, 0%nat, l2, false)
    | [] => (int_part, 0%nat, l2, false)
    end in
  let '(exponent, exp_ok, l4, has_exp) :=
    match l3 with
    | a :: l' =>
        if Ascii.eqb a (Ascii.ascii_of_nat 101) || Ascii.eqb a (Ascii.ascii_of_nat 69)
        then
          let '(exp_negative, l'') := read_sign l' in
          let '(e, n, rest) := read_digits l'' 0 0 in
          (if exp_negative then - e else e, negb (n =? 0)%nat, rest, true)
        else (0, true, l3, false)
    | [] => (0, true, l3, false)
    end in
  let signed (n : Z) := if negative then - n else n in
  if ((int_digits + frac_digits =? 0)%nat || negb exp_ok
      || match skip_spaces l4 with [] => false | _ => true end)
  then NotNumeric
  else if negb point && negb has_exp then
    if (- 2 ^ 63 <=? signed mantissa) && (signed mantissa <? 2 ^ 63)
    then Whole (signed mantissa) else OtherNumber
  else if mantissa =? 0 then Whole 0
  else
    let shift := exponent - Z.of_nat frac_digits in
    if (10 ^ 15 <=? mantissa) || (shift <? -15) || (15 <? shift) then OtherNumber
    else if 0 <=? shift then
      if mantissa * 10 ^ shift <? 10 ^ 15
      then Whole (signed (mantissa * 10 ^ shift)) else OtherNumber
    else if mantissa mod 10 ^ (- shift) =? 0
      then Whole (signed (mantissa / 10 ^ (- shift))) else OtherNumber.

(** What a column of affinity [a] stores when [x] is bound to it: a TEXT
    column turns a number into its text, an INTEGER column turns text that
    reads as a number into the number; NULL stays NULL. *)
Definition store_as (a : affinity) (x : sqlval) : sqlval :=
  match a, x with
  | TEXT, SInt n => SText (decimal n)
  | INTEGER, SText s =>
      match numeric_text s with
      | Whole n => SInt n
      | NotNumeric | OtherNumber => SText s
      end
  | _, _ => x
  end.

(** The bound values on which [store_as] is what the engine does.
    - A number in a TEXT column: the driver binds a number as an integer
      when it fits 32 bits and as a double otherwise, and the text of a
      double is not its decimal digits ([3000000000.0]).
    - A number in an INTEGER column: within 64 bits; a larger one stays
      the double it was bound as.
    - Text in an INTEGER column: not [OtherNumber]. *)
Definition exact (a : affinity) (x : sqlval) : bool :=
  match a, x with
  | TEXT, SInt n => (- 2 ^ 31 <=? n) && (n <? 2 ^ 31)
  | INTEGER, SInt n => (- 2 ^ 63 <? n) && (n <? 2 ^ 63 - 1)
  | INTEGER, SText s =>
      match numeric_text s with OtherNumber => false | _ => true end
  | _, _ => true
  end.

(** [a = b] in a WHERE clause: never true of NULL. *)
Definition sql_eq (a b : sqlval) : bool :=
  match a with
  | SNull => false
  | _ => bool_decide (a = b)
  end.

(** [WHERE c = ?], the parameter given as the comparison sees it, that is,
    with the affinity of column [c] applied to it: text for a TEXT column
    (a path segment is text already), an integer for [id]. *)
Definition where_eq (c : string) (p : sqlval) (r : row) : bool :=
  match r !! c with Some x => sql_eq x p | None => false end.

(** The order of ORDER BY: NULL first, then integers, then text in byte
    order. *)
Definition sql_leb (a b : sqlval) : bool :=
  match a, b with
  | SNull, _ => true
  | _, SNull => false
  | SInt n, SInt m => n <=? m
  | SInt _, SText _ => true
  | SText _, SInt _ => false
  | SText s, SText t =>
      match String.compare s t with Gt => false | _ => true end
  end.

Definition cell (r : row) (c : string) : sqlval := default SNull (r !! c).

Inductive direction := ASC | DESC.

(** [ORDER BY k1 dir1, k2 dir2, ...]: is [r1] allowed before [r2]? *)
Fixpoint order_leb (keys : list (string * direction)) (r1 r2 : row) : bool :=
  match keys with
  | [] => true
  | (c, dir) :: keys' =>
      let (a, b) := match dir with
                    | ASC => (cell r1 c, cell r2 c)
                    | DESC => (cell r2 c, cell r1 c)
                    end in
      if bool_decide (a = b) then order_leb keys' r1 r2 else sql_leb a b
  end.

(** The place of a row among rows already in order: before the first row
    it is allowed before. *)
Fixpoint insert_row (keys : list (string * direction)) (r : row) (l : list row)
    : list row :=
  match l with
  | [] => [r]
  | r' :: l' =>
      if order_leb keys r r' then r :: r' :: l' else r' :: insert_row keys r l'
  end.

(** The rows in the order asked for; rows that the keys do not tell apart
    stay in the order they are stored in (with no key, all of them). *)
Definition order_by (keys : list (string * direction)) (l : list row) : list row :=
  foldr (insert_row keys) [] l.

(** The columns of each table with their DEFAULT, from the CREATE TABLE
    statements and the ALTER TABLE ... ADD COLUMN statements that follow
    them. *)
Definition schema (t : tbl) : list (string * sqlval) :=
  match t with
  | Users => [("id", SNull); ("email", SNull); ("password", SNull)]
  | Projects =>
      [("id", SNull); ("name", SNull); ("owner_email", SNull);
       ("colleagues", SText "[]"); ("progress", SInt 0);
       ("project_title", SNull); ("notes", SNull); ("colleague_name", SNull);
       ("colleague_phone", SNull); ("colleague_email", SNull);
       ("colleague_address1", SNull); ("colleague_address2", SNull);
       ("colleague_address3", SNull); ("your_name", SNull);
       ("your_phone", SNull); ("your_email", SNull); ("your_address1", SNull);
       ("your_address2", SNull); ("your_address3", SNull);
       ("objectives", SNull); ("timeline", SNull);
       ("primary_audience", SNull); ("secondary_audience", SNull);
       ("call_action", SNull); ("competition", SNull); ("graphics", SNull);
       ("photography", SNull); ("multimedia", SNull); ("other_info", SNull);
       ("client_name", SNull); ("client_comments", SNull);
       ("approval_date", SNull); ("approval_signature", SNull);
       ("idea", SNull); ("career_goals", SNull); ("future_work", SNull);
       ("deadlines", SNull)]
  | Ideas =>
      [("id", SNull); ("user_email", SNull); ("title", SNull);
       ("content", SNull); ("category", SText "general");
       ("created_date", SNull)]
  | Notes =>
      [("id", SNull); ("user_email", SNull); ("title", SNull);
       ("content", SNull); ("created_date", SNull)]
  | CareerGoals =>
      [("id", SNull); ("user_email", SNull); ("title", SNull);
       ("description", SNull); ("progress", SInt 0);
       ("goal_type", SText "general"); ("target_date", SNull);
       ("created_date", SNull); ("total_stages", SInt 5);
       ("current_stage", SInt 0); ("start_date", SNull);
       ("stage_description", SNull)]
  | FutureWork =>
      [("id", SNull); ("user_email", SNull); ("title", SNull);
       ("description", SNull); ("priority", SText "medium");
       ("timeline", SNull); ("created_date", SNull)]
  | Deadlines =>
      [("id", SNull); ("user_email", SNull); ("title", SNull);
       ("description", SNull); ("due_date", SNull);
       ("priority", SText "medium"); ("status", SText "pending");
       ("created_date", SNull)]
  | CalendarEvents =>
      [("id", SNull); ("user_email", SNull); ("title", SNull);
       ("description", SNull); ("event_date", SNull); ("start_time", SNull);
       ("end_time", SNull); ("location", SNull); ("category", SText "Work");
       ("attendees", SNull); ("reminder", SInt 15); ("is_all_day", SInt 0);
       ("recurrence", SText "none"); ("recurrence_end", SNull);
       ("show_as", SText "busy"); ("priority", SText "normal");
       ("is_online", SInt 0); ("meeting_link", SNull);
       ("attachments", SNull); ("repeat_weekly", SInt 0);
       ("created_date", SNull); ("modified_date", SNull)]
  | Profiles =>
      [("id", SNull); ("user_email", SNull); ("full_name", SNull);
       ("designation", SNull); ("department", SNull); ("institution", SNull);
       ("office_address", SNull); ("official_email", SNull);
       ("alternate_email", SNull); ("phone", SNull); ("website", SNull);
       ("degrees", SNull); ("employment", SNull);
       ("research_keywords", SNull); ("research_description", SNull);
       ("scholar_link", SNull); ("courses", SNull); ("grants", SNull);
       ("professional_activities", SNull); ("awards", SNull);
       ("skills", SNull); ("outreach_service", SNull);
       ("created_date", SNull); ("modified_date", SNull)]
  end.

(** The columns declared INTEGER; every other column is declared TEXT. *)
Definition integer_columns (t : tbl) : list string :=
  match t with
  | Projects => ["id"; "progress"]
  | CareerGoals => ["id"; "progress"; "total_stages"; "current_stage"]
  | CalendarEvents =>
      ["id"; "reminder"; "is_all_day"; "is_online"; "repeat_weekly"]
  | Users | Ideas | Notes | FutureWork | Deadlines | Profiles => ["id"]
  end.

Definition column_affinity (t : tbl) (c : string) : affinity :=
  if existsb (String.eqb c) (integer_columns t) then INTEGER else TEXT.

(** The cell of column [c] of table [t] after the JavaScript value [v] was
    bound to it; also what the comparison [c = ?] makes of [v]. *)
Definition stored (t : tbl) (c : string) (v : value) : sqlval :=
  store_as (column_affinity t c) (bindParam v).

(** [stored] is what the engine stores: [v] is in the domain of the model
    for this column. *)
Definition stored_exactly (t : tbl) (c : string) (v : value) : Prop :=
  exact (column_affinity t c) (bindParam v) = true.

(** The column declared UNIQUE, where a table has one. *)
Definition unique_col (t : tbl) : option string :=
  match t with
  | Users => Some "email"
  | Profiles => Some "user_email"
  | _ => None
  end.

Definition table_name (t : tbl) : string :=
  match t with
  | Users => "users" | Projects => "projects" | Ideas => "ideas"
  | Notes => "notes" | CareerGoals => "career_goals"
  | FutureWork => "future_work" | Deadlines => "deadlines"
  | CalendarEvents => "calendar_events" | Profiles => "profiles"
  end.

(** The error of the engine on a duplicate in a UNIQUE column. *)
Definition unique_error (t : tbl) (c : string) : db_error :=
  {| message := "SQLITE_CONSTRAINT: UNIQUE constraint failed: "
                +:+ table_name t +:+ "." +:+ c;
     code := "SQLITE_CONSTRAINT" |}.

Definition rowid (r : row) : Z :=
  match r !! "id" with Some (SInt n) => n | _ => 0 end.

Definition max_rowid (l : list row) : Z := foldr (fun r m => Z.max (rowid r) m) 0 l.

(** AUTOINCREMENT: one more than the largest rowid the table ever had. *)
Definition next_id (t : table) : Z := Z.max (seq t) (max_rowid (rows t)) + 1.

(** The row of [INSERT INTO t (cols) VALUES (?, ...)]: the bound parameters,
    each as its column stores it, the DEFAULT of every column not named, and
    the generated id. *)
Definition new_row (t : tbl) (id : Z) (cols : list string) (params : list value) : row :=
  <["id" := SInt id]>
    (list_to_map (zip cols (zip_with (stored t) cols params))
     ∪ list_to_map (schema t)).

Definition duplicate (t : tbl) (r : row) (l : list row) : option string :=
  match unique_col t with
  | Some c => if existsb (where_eq c (cell r c)) l then Some c else None
  | None => None
  end.

(** The store with table [t] replaced. *)
Definition set_table (t : tbl) (x : table) (d : database) : database :=
  fun t' => if decide (t' = t) then x else d t'.

(** [db.run("INSERT ...", params, callback)]: the new store, and for the
    callback either [err] or [this.lastID]. *)
Definition db_insert (fault : option db_error) (t : tbl) (cols : list string)
    (params : list value) (d : database) : database * (db_error + Z) :=
  match fault with
  | Some e => (d, inl e)
  | None =>
      let id := next_id (d t) in
      let r := new_row t id cols params in
      match duplicate t r (rows (d t)) with
      | Some c => (d, inl (unique_error t c))
      | None =>
          (set_table t {| rows := rows (d t) ++ [r]; seq := id |} d, inr id)
      end
  end.

(** The row after [UPDATE t SET c1 = ?, ... ]: each parameter as its column
    stores it. *)
Definition assign (t : tbl) (sets : list (string * value)) (r : row) : row :=
  list_to_map ((fun cv => (cv.1, stored t cv.1 cv.2)) <$> sets) ∪ r.

(** [db.run("UPDATE t SET ... WHERE ...", params, callback)]: the new store,
    and for the callback either [err] or [this.changes]. *)
Definition db_update (fault : option db_error) (t : tbl)
    (sets : list (string * value)) (where_ : row -> bool) (d : database)
    : database * (db_error + Z) :=
  match fault with
  | Some e => (d, inl e)
  | None =>
      (set_table t
         {| rows := (fun r => if where_ r then assign t sets r else r) <$> rows (d t);
            seq := seq (d t) |} d,
       inr (Z.of_nat (length (filter (fun r => where_ r = true) (rows (d t))))))
  end.

(** [db.get("SELECT ... WHERE ...", params, callback)]: [err] or the first
    matching row, if any. *)
Definition db_get (fault : option db_error) (t : tbl) (where_ : row -> bool)
    (d : database) : db_error + option row :=
  match fault with
  | Some e => inl e
  | None => inr (head (filter (fun r => where_ r = true) (rows (d t))))
  end.

(** [db.all("SELECT ... WHERE ... ORDER BY ...", params, callback)] *)
Definition db_all (fault : option db_error) (t : tbl) (where_ : row -> bool)
    (keys : list (string * direction)) (d : database) : db_error + list row :=
  match fault with
  | Some e => inl e
  | None => inr (order_by keys (filter (fun r => where_ r = true) (rows (d t))))
  end.

(** The store before any request: the tables created, nothing in them. *)
Definition empty_db : database := fun _ => {| rows := []; seq := 0 |}.

End Sql.

Export Sql.

(** ** The handlers *)

Module Server.

(** What a request ends in: a response sent with [res.status(s).json(body)]
    ([res.json] alone sends 200), or an exception that nothing catches, in
    which case no response is sent. *)
Inductive outcome :=
| Respond (status : Z) (body : value)
| Uncaught (e : exception).

Definition status_of (o : outcome) : option Z :=
  match o with Respond s _ => Some s | Uncaught _ => None end.

Definition body_of (o : outcome) : option value :=
  match o with Respond _ b => Some b | Uncaught _ => None end.

Definition error_body (msg : string) : value := literal [("error", JStr msg)].

(** *** Projects *)

(** [app.post("/projects")] *)
Definition post_projects (fault : option db_error) (body : object) (d : database)
    : database * outcome :=
  let name := field body "name" in
  let owner_email := field body "owner_email" in
  let colleagues := field body "colleagues" in
  let progress := field body "progress" in
  if negb (truthy name) || negb (truthy owner_email) then
    (d, Respond 400 (error_body "Project name and owner email are required."))
  else
    match db_insert fault Projects
            ["name"; "owner_email"; "colleagues"; "progress"]
            [name; owner_email; or_else colleagues (JStr "[]");
             or_else progress (JNum 0)] d with
    | (d', inl _) => (d', Respond 500 (error_body "Error creating project."))
    | (d', inr lastID) =>
        (d', Respond 200
               (literal [("id", JNum lastID); ("name", name);
                         ("owner_email", owner_email);
                         ("colleagues", colleagues);
                         ("progress", or_else progress (JNum 0))]))
    end.

(** [app.get("/projects/:email")] *)
Definition get_projects (fault : option db_error) (email : string) (d : database)
    : outcome :=
  match db_all fault Projects (where_eq "owner_email" (bindParam (JStr email))) [] d with
  | inl _ => Respond 500 (error_body "Error fetching projects.")
  | inr rs => Respond 200 (JArr (row_json <$> rs))
  end.

(** [app.put("/projects/:id")] *)
Definition put_projects (fault : option db_error) (id : Z) (body : object)
    (d : database) : database * outcome :=
  let name := field body "name" in
  let colleagues := field body "colleagues" in
  let progress := field body "progress" in
  match db_update fault Projects
          [("name", name); ("colleagues", colleagues);
           ("progress", if is_undefined progress then JNum 0 else progress)]
          (where_eq "id" (SInt id)) d with
  | (d', inl _) => (d', Respond 500 (error_body "Error updating project."))
  | (d', inr changes) => (d', Respond 200 (literal [("updated", JNum changes)]))
  end.

(** [app.put("/projects/:id/description")] *)
Definition put_projects_description (fault : option db_error) (id : Z)
    (body : object) (d : database) : database * outcome :=
  let projectTitle := field body "projectTitle" in
  let notes := field body "notes" in
  let colleagueName := field body "colleagueName" in
  let colleaguePhone := field body "colleaguePhone" in
  let colleagueEmail := field body "colleagueEmail" in
  let colleagueAddress1 := field body "colleagueAddress1" in
  let colleagueAddress2 := field body "colleagueAddress2" in
  let colleagueAddress3 := field body "colleagueAddress3" in
  let yourName := field body "yourName" in
  let yourPhone := field body "yourPhone" in
  let yourEmail := field body "yourEmail" in
  let yourAddress1 := field body "yourAddress1" in
  let yourAddress2 := field body "yourAddress2" in
  let yourAddress3 := field body "yourAddress3" in
  let objectives := field body "objectives" in
  let timeline := field body "timeline" in
  let primaryAudience := field body "primaryAudience" in
  let secondaryAudience := field body "secondaryAudience" in
  let callAction := field body "callAction" in
  let competition := field body "competition" in
  let graphics := field body "graphics" in
  let photography := field body "photography" in
  let multimedia := field body "multimedia" in
  let otherInfo := field body "otherInfo" in
  let clientName := field body "clientName" in
  let clientComments := field body "clientComments" in
  let approvalDate := field body "approvalDate" in
  let approvalSignature := field body "approvalSignature" in
  match db_update fault Projects
          [("project_title", projectTitle);
           ("notes", notes);
           ("colleague_name", colleagueName);
           ("colleague_phone", colleaguePhone);
           ("colleague_email", colleagueEmail);
           ("colleague_address1", colleagueAddress1);
           ("colleague_address2", colleagueAddress2);
           ("colleague_address3", colleagueAddress3);
           ("your_name", yourName);
           ("your_phone", yourPhone);
           ("your_email", yourEmail);
           ("your_address1", yourAddress1);
           ("your_address2", yourAddress2);
           ("your_address3", yourAddress3);
           ("objectives", objectives);
           ("timeline", timeline);
           ("primary_audience", primaryAudience);
           ("secondary_audience", secondaryAudience);
           ("call_action", callAction);
           ("competition", competition);
           ("graphics", graphics);
           ("photography", photography);
           ("multimedia", multimedia);
           ("other_info", otherInfo);
           ("client_name", clientName);
           ("client_comments", clientComments);
           ("approval_date", approvalDate);
           ("approval_signature", approvalSignature)]
          (where_eq "id" (SInt id)) d with
  | (d', inl _) => (d', Respond 500 (error_body "Error updating description."))
  | (d', inr changes) => (d', Respond 200 (literal [("updated", JNum changes)]))
  end.

(** *** Ideas *)

(** [app.post("/ideas")] *)
Definition post_ideas (now : string) (fault : option db_error) (body : object)
    (d : database) : database * outcome :=
  let user_email := field body "user_email" in
  let title := field body "title" in
  let content := field body "content" in
  let category := field body "category" in
  let created_date := field body "created_date" in
  let date := or_else created_date (JStr now) in
  match db_insert fault Ideas
          ["user_email"; "title"; "content"; "category"; "created_date"]
          [user_email; title; content; or_else category (JStr "general"); date] d with
  | (d', inl _) => (d', Respond 500 (error_body "Error creating idea."))
  | (d', inr lastID) =>
      (d', Respond 200
             (literal [("id", JNum lastID); ("user_email", user_email);
                       ("title", title); ("content", content);
                       ("category", category); ("created_date", date)]))
  end.

(** [app.put("/ideas/:id")] *)
Definition put_ideas (fault : option db_error) (id : Z) (body : object)
    (d : database) : database * outcome :=
  let title := field body "title" in
  let content := field body "content" in
  let category := field body "category" in
  match db_update fault Ideas
          [("title", title); ("content", content); ("category", category)]
          (where_eq "id" (SInt id)) d with
  | (d', inl _) => (d', Respond 500 (error_body "Error updating idea."))
  | (d', inr changes) => (d', Respond 200 (literal [("updated", JNum changes)]))
  end.

(** *** Notes *)

(** [app.post("/notes")] *)
Definition post_notes (now : string) (fault : option db_error) (body : object)
    (d : database) : database * outcome :=
  let user_email := field body "user_email" in
  let title := field body "title" in
  let content := field body "content" in
  let created_date := field body "created_date" in
  let date := or_else created_date (JStr now) in
  match db_insert fault Notes
          ["user_email"; "title"; "content"; "created_date"]
          [user_email; title; content; date] d with
  | (d', inl _) => (d', Respond 500 (error_body "Error creating note."))
  | (d', inr lastID) =>
      (d', Respond 200
             (literal [("id", JNum lastID); ("user_email", user_email);
                       ("title", title); ("content", content);
                       ("created_date", date)]))
  end.

(** [app.put("/notes/:id")] *)
Definition put_notes (fault : option db_error) (id : Z) (body : object)
    (d : database) : database * outcome :=
  let title := field body "title" in
  let content := field body "content" in
  match db_update fault Notes [("title", title); ("content", content)]
          (where_eq "id" (SInt id)) d with
  | (d', inl _) => (d', Respond 500 (error_body "Error updating note."))
  | (d', inr changes) => (d', Respond 200 (literal [("updated", JNum changes)]))
  end.

(** *** Career goals *)

(** [app.post("/career_goals")] *)
Definition post_career_goals (now : string) (fault : option db_error)
    (body : object) (d : database) : database * outcome :=
  let user_email := field body "user_email" in
  let title := field body "title" in
  let description := field body "description" in
  let progress := field body "progress" in
  let goal_type := field body "goal_type" in
  let target_date := field body "target_date" in
  let total_stages := field body "total_stages" in
  let current_stage := field body "current_stage" in
  let start_date := field body "start_date" in
  let stage_description := field body "stage_description" in
  let created_date := field body "created_date" in
  let date := or_else created_date (JStr now) in
  match db_insert fault CareerGoals
          ["user_email"; "title"; "description"; "progress"; "goal_type";
           "target_date"; "total_stages"; "current_stage"; "start_date";
           "stage_description"; "created_date"]
          [user_email; title; description; or_else progress (JNum 0);
           or_else goal_type (JStr "general"); target_date;
           or_else total_stages (JNum 5); or_else current_stage (JNum 0);
           start_date; stage_description; date] d with
  | (d', inl _) => (d', Respond 500 (error_body "Error creating career goal."))
  | (d', inr lastID) =>
      (d', Respond 200
             (literal [("id", JNum lastID); ("user_email", user_email);
                       ("title", title); ("description", description);
                       ("progress", progress); ("goal_type", goal_type);
                       ("target_date", target_date);
                       ("total_stages", total_stages);
                       ("current_stage", current_stage);
                       ("start_date", start_date);
                       ("stage_description", stage_description);
                       ("created_date", date)]))
  end.

(** [app.put("/career_goals/:id")] *)
Definition put_career_goals (fault : option db_error) (id : Z) (body : object)
    (d : database) : database * outcome :=
  let title := field body "title" in
  let description := field body "description" in
  let progress := field body "progress" in
  let goal_type := field body "goal_type" in
  let target_date := field body "target_date" in
  let total_stages := field body "total_stages" in
  let current_stage := field body "current_stage" in
  let start_date := field body "start_date" in
  let stage_description := field body "stage_description" in
  match db_update fault CareerGoals
          [("title", title); ("description", description);
           ("progress", progress); ("goal_type", goal_type);
           ("target_date", target_date); ("total_stages", total_stages);
           ("current_stage", current_stage); ("start_date", start_date);
           ("stage_description", stage_description)]
          (where_eq "id" (SInt id)) d with
  | (d', inl _) => (d', Respond 500 (error_body "Error updating career goal."))
  | (d', inr changes) => (d', Respond 200 (literal [("updated", JNum changes)]))
  end.

(** *** Future work *)

(** [app.post("/future_work")] *)
Definition post_future_work (now : string) (fault : option db_error)
    (body : object) (d : database) : database * outcome :=
  let user_email := field body "user_email" in
  let title := field body "title" in
  let description := field body "description" in
  let priority := field body "priority" in
  let timeline := field body "timeline" in
  let created_date := field body "created_date" in
  let date := or_else created_date (JStr now) in
  match db_insert fault FutureWork
          ["user_email"; "title"; "description"; "priority"; "timeline";
           "created_date"]
          [user_email; title; description; or_else priority (JStr "medium");
           timeline; date] d with
  | (d', inl _) => (d', Respond 500 (error_body "Error creating future work."))
  | (d', inr lastID) =>
      (d', Respond 200
             (literal [("id", JNum lastID); ("user_email", user_email);
                       ("title", title); ("description", description);
                       ("priority", priority); ("timeline", timeline);
                       ("created_date", date)]))
  end.

(** [app.put("/future_work/:id")] *)
Definition put_future_work (fault : option db_error) (id : Z) (body : object)
    (d : database) : database * outcome :=
  let title := field body "title" in
  let description := field body "description" in
  let priority := field body "priority" in
  let timeline := field body "timeline" in
  match db_update fault FutureWork
          [("title", title); ("description", description);
           ("priority", priority); ("timeline", timeline)]
          (where_eq "id" (SInt id)) d with
  | (d', inl _) => (d', Respond 500 (error_body "Error updating future work."))
  | (d', inr changes) => (d', Respond 200 (literal [("updated", JNum changes)]))
  end.

(** *** Deadlines *)

(** [app.post("/deadlines")] *)
Definition post_deadlines (now : string) (fault : option db_error)
    (body : object) (d : database) : database * outcome :=
  let user_email := field body "user_email" in
  let title := field body "title" in
  let description := field body "description" in
  let due_date := field body "due_date" in
  let priority := field body "priority" in
  let status := field body "status" in
  let created_date := field body "created_date" in
  let date := or_else created_date (JStr now) in
  match db_insert fault Deadlines
          ["user_email"; "title"; "description"; "due_date"; "priority";
           "status"; "created_date"]
          [user_email; title; description; due_date;
           or_else priority (JStr "medium"); or_else status (JStr "pending");
           date] d with
  | (d', inl _) => (d', Respond 500 (error_body "Error creating deadline."))
  | (d', inr lastID) =>
      (d', Respond 200
             (literal [("id", JNum lastID); ("user_email", user_email);
                       ("title", title); ("description", description);
                       ("due_date", due_date); ("priority", priority);
                       ("status", status); ("created_date", date)]))
  end.

(** [app.put("/deadlines/:id")] *)
Definition put_deadlines (fault : option db_error) (id : Z) (body : object)
    (d : database) : database * outcome :=
  let title := field body "title" in
  let description := field body "description" in
  let due_date := field body "due_date" in
  let priority := field body "priority" in
  let status := field body "status" in
  match db_update fault Deadlines
          [("title", title); ("description", description);
           ("due_date", due_date); ("priority", priority); ("status", status)]
          (where_eq "id" (SInt id)) d with
  | (d', inl _) => (d', Respond 500 (error_body "Error updating deadline."))
  | (d', inr changes) => (d', Respond 200 (literal [("updated", JNum changes)]))
  end.

(** *** Calendar events, canonical endpoints *)

(** The select list of [GET /events/:email]: each column with the name it is
    returned under. *)
Definition event_columns : list (string * string) :=
  [("id", "id"); ("title", "title"); ("description", "description");
   ("event_date", "date"); ("start_time", "start"); ("end_time", "end");
   ("location", "location"); ("category", "category");
   ("attendees", "attendees"); ("reminder", "reminder");
   ("is_all_day", "isAllDay"); ("recurrence", "recurrence");
   ("recurrence_end", "recurrenceEnd"); ("show_as", "showAs");
   ("priority", "priority"); ("is_online", "isOnline");
   ("meeting_link", "meetingLink"); ("attachments", "attachments");
   ("repeat_weekly", "repeatWeekly"); ("created_date", "createdDate");
   ("modified_date", "modifiedDate")].

(** [SELECT c1 as a1, c2 as a2, ...] on one row. *)
Definition select (cols : list (string * string)) (r : row) : row :=
  list_to_map ((fun ca => (ca.2, cell r ca.1)) <$> cols).

(** [{ ...row, isAllDay: Boolean(row.isAllDay), isOnline: ..., repeatWeekly: ... }] *)
Definition event_json (r : row) : value :=
  JObj (<["repeatWeekly" := Boolean (col r "repeatWeekly")]>
       (<["isOnline" := Boolean (col r "isOnline")]>
       (<["isAllDay" := Boolean (col r "isAllDay")]> (of_sql <$> r)))).

(** [app.get("/events/:email")] *)
Definition get_events (fault : option db_error) (email : string) (d : database)
    : outcome :=
  match db_all fault CalendarEvents
          (where_eq "user_email" (bindParam (JStr email)))
          [("event_date", ASC); ("start_time", ASC)] d with
  | inl _ => Respond 500 (error_body "Error fetching events.")
  | inr rs => Respond 200 (JArr (event_json <$> (select event_columns <$> rs)))
  end.

(** [app.post("/events")] *)
Definition post_events (now : string) (fault : option db_error) (body : object)
    (d : database) : database * outcome :=
  let userEmail := field body "userEmail" in
  let title := field body "title" in
  let description := field body "description" in
  let date := field body "date" in
  let start := field body "start" in
  let end_ := field body "end" in
  let location := field body "location" in
  let category := field body "category" in
  let attendees := field body "attendees" in
  let reminder := field body "reminder" in
  let isAllDay := field body "isAllDay" in
  let recurrence := field body "recurrence" in
  let recurrenceEnd := field body "recurrenceEnd" in
  let showAs := field body "showAs" in
  let priority := field body "priority" in
  let isOnline := field body "isOnline" in
  let meetingLink := field body "meetingLink" in
  let attachments := field body "attachments" in
  let repeatWeekly := field body "repeatWeekly" in
  let created_date := JStr now in
  let modified_date := created_date in
  match db_insert fault CalendarEvents
          ["user_email"; "title"; "description"; "event_date"; "start_time";
           "end_time"; "location"; "category"; "attendees"; "reminder";
           "is_all_day"; "recurrence"; "recurrence_end"; "show_as";
           "priority"; "is_online"; "meeting_link"; "attachments";
           "repeat_weekly"; "created_date"; "modified_date"]
          [userEmail; title; description; date; start; end_; location;
           or_else category (JStr "Work"); attendees;
           or_else reminder (JNum 15); flag isAllDay;
           or_else recurrence (JStr "none"); recurrenceEnd;
           or_else showAs (JStr "busy"); or_else priority (JStr "normal");
           flag isOnline; meetingLink; attachments; flag repeatWeekly;
           created_date; modified_date] d with
  | (d', inl _) => (d', Respond 500 (error_body "Error creating event."))
  | (d', inr lastID) =>
      (d', Respond 200
             (literal [("id", JNum lastID); ("title", title);
                       ("description", description); ("date", date);
                       ("start", start); ("end", end_);
                       ("location", location); ("category", category);
                       ("created_date", created_date)]))
  end.

(** [app.put("/events/:id")] *)
Definition put_events (now : string) (fault : option db_error) (id : Z)
    (body : object) (d : database) : database * outcome :=
  let title := field body "title" in
  let description := field body "description" in
  let date := field body "date" in
  let start := field body "start" in
  let end_ := field body "end" in
  let location := field body "location" in
  let category := field body "category" in
  let attendees := field body "attendees" in
  let reminder := field body "reminder" in
  let isAllDay := field body "isAllDay" in
  let recurrence := field body "recurrence" in
  let recurrenceEnd := field body "recurrenceEnd" in
  let showAs := field body "showAs" in
  let priority := field body "priority" in
  let isOnline := field body "isOnline" in
  let meetingLink := field body "meetingLink" in
  let attachments := field body "attachments" in
  let repeatWeekly := field body "repeatWeekly" in
  let modified_date := JStr now in
  match db_update fault CalendarEvents
          [("title", title); ("description", description);
           ("event_date", date); ("start_time", start); ("end_time", end_);
           ("location", location); ("category", category);
           ("attendees", attendees); ("reminder", reminder);
           ("is_all_day", flag isAllDay); ("recurrence", recurrence);
           ("recurrence_end", recurrenceEnd); ("show_as", showAs);
           ("priority", priority); ("is_online", flag isOnline);
           ("meeting_link", meetingLink); ("attachments", attachments);
           ("repeat_weekly", flag repeatWeekly);
           ("modified_date", modified_date)]
          (where_eq "id" (SInt id)) d with
  | (d', inl _) => (d', Respond 500 (error_body "Error updating event."))
  | (d', inr changes) => (d', Respond 200 (literal [("updated", JNum changes)]))
  end.

(** *** Calendar events, legacy endpoints *)

(** [app.get("/calendar_events/:email")] *)
Definition get_calendar_events (fault : option db_error) (email : string)
    (d : database) : outcome :=
  match db_all fault CalendarEvents
          (where_eq "user_email" (bindParam (JStr email)))
          [("event_date", ASC)] d with
  | inl _ => Respond 500 (error_body "Error fetching events.")
  | inr rs => Respond 200 (JArr (row_json <$> rs))
  end.

(** [app.post("/calendar_events")] *)
Definition post_calendar_events (now : string) (fault : option db_error)
    (body : object) (d : database) : database * outcome :=
  let user_email := field body "user_email" in
  let title := field body "title" in
  let description := field body "description" in
  let event_date := field body "event_date" in
  let start_time := field body "start_time" in
  let end_time := field body "end_time" in
  let repeat_weekly := field body "repeat_weekly" in
  let created_date := field body "created_date" in
  let date := or_else created_date (JStr now) in
  match db_insert fault CalendarEvents
          ["user_email"; "title"; "description"; "event_date"; "start_time";
           "end_time"; "repeat_weekly"; "created_date"]
          [user_email; title; description; event_date; start_time; end_time;
           repeat_weekly; date] d with
  | (d', inl _) => (d', Respond 500 (error_body "Error creating event."))
  | (d', inr lastID) =>
      (d', Respond 200
             (literal [("id", JNum lastID); ("user_email", user_email);
                       ("title", title); ("description", description);
                       ("event_date", event_date);
                       ("start_time", start_time); ("end_time", end_time);
                       ("repeat_weekly", repeat_weekly);
                       ("created_date", date)]))
  end.

(** [app.put("/calendar_events/:id")] *)
Definition put_calendar_events (fault : option db_error) (id : Z)
    (body : object) (d : database) : database * outcome :=
  let title := field body "title" in
  let description := field body "description" in
  let event_date := field body "event_date" in
  let start_time := field body "start_time" in
  let end_time := field body "end_time" in
  let repeat_weekly := field body "repeat_weekly" in
  match db_update fault CalendarEvents
          [("title", title); ("description", description);
           ("event_date", event_date); ("start_time", start_time);
           ("end_time", end_time); ("repeat_weekly", repeat_weekly)]
          (where_eq "id" (SInt id)) d with
  | (d', inl _) => (d', Respond 500 (error_body "Error updating event."))
  | (d', inr changes) => (d', Respond 200 (literal [("updated", JNum changes)]))
  end.

(** *** Accounts and profiles *)

Section Library.

(** The library functions the handlers call; the repository does not define
    them.  [bcrypt_hash] takes the salt that [bcrypt.hash] draws; it and
    [bcrypt_compare] give [None] when the promise is rejected.  [JSON_parse]
    gives [None] when [JSON.parse] throws. *)
Context (toLowerCase trim : string -> string)
        (js_lt : value -> value -> bool)
        (bcrypt_hash : value -> Z -> string -> option string)
        (bcrypt_compare : value -> value -> option bool)
        (JSON_stringify : value -> string)
        (JSON_parse : value -> option value).

(** [email.toLowerCase().trim()]: only a string has the method, on any other
    value the call is a TypeError. *)
Definition lower_trim (email : value) : option string :=
  match email with
  | JStr s => Some (trim (toLowerCase s))
  | _ => None
  end.

Definition failure (msg : string) : value :=
  literal [("success", JBool false); ("message", JStr msg)].

(** [err.message.includes('UNIQUE constraint failed') || err.code === '23505'] *)
Definition is_unique_violation (err : db_error) : bool :=
  includes "UNIQUE constraint failed" (message err) || String.eqb (code err) "23505".

(** [app.post("/register")] *)
Definition register (salt : string) (fault : option db_error) (body : object)
    (d : database) : database * outcome :=
  let name := field body "name" in
  let email := field body "email" in
  let password := field body "password" in
  if negb (truthy email) || negb (truthy password) then
    (d, Respond 400 (failure "Email and password are required."))
  else if js_lt (length_of password) (JNum 6) then
    (d, Respond 400 (failure "Password must be at least 6 characters long."))
  else
    let saltRounds := 10 in
    match bcrypt_hash password saltRounds salt with
    | None => (d, Respond 500 (failure "Server error during signup."))
    | Some hashedPassword =>
        match lower_trim email with
        | None => (d, Respond 500 (failure "Server error during signup."))
        | Some folded =>
            match db_insert fault Users ["email"; "password"]
                    [JStr folded; JStr hashedPassword] d with
            | (d', inl err) =>
                if is_unique_violation err then
                  (d', Respond 400 (failure "User already exists."))
                else
                  (d', Respond 500 (failure "Failed to create user."))
            | (d', inr lastID) =>
                (d', Respond 200
                       (literal [("success", JBool true); ("id", JNum lastID);
                                 ("email", JStr folded);
                                 ("message", JStr "Account created successfully!")]))
            end
        end
    end.

(** [app.post("/signup")] *)
Definition signup (salt : string) (fault : option db_error) (body : object)
    (d : database) : database * outcome :=
  let email := field body "email" in
  let password := field body "password" in
  if negb (truthy email) || negb (truthy password) then
    (d, Respond 400 (failure "Email and password are required."))
  else if js_lt (length_of password) (JNum 6) then
    (d, Respond 400 (failure "Password must be at least 6 characters long."))
  else
    let saltRounds := 10 in
    match bcrypt_hash password saltRounds salt with
    | None => (d, Respond 500 (failure "Server error during signup."))
    | Some hashedPassword =>
        match lower_trim email with
        | None => (d, Respond 500 (failure "Server error during signup."))
        | Some folded =>
            match db_insert fault Users ["email"; "password"]
                    [JStr folded; JStr hashedPassword] d with
            | (d', inl err) =>
                if is_unique_violation err then
                  (d', Respond 400 (failure "User already exists."))
                else
                  (d', Respond 500 (failure "Failed to create user."))
            | (d', inr lastID) =>
                (d', Respond 200
                       (literal [("success", JBool true); ("id", JNum lastID);
                                 ("email", JStr folded);
                                 ("message", JStr "Account created successfully!")]))
            end
        end
    end.

(** [app.post("/login")].  The handler is synchronous up to [db.get]: a
    TypeError of [email.toLowerCase()] goes to the error middleware. *)
Definition login (fault : option db_error) (body : object) (d : database)
    : outcome :=
  let email := field body "email" in
  let password := field body "password" in
  if negb (truthy email) || negb (truthy password) then
    Respond 400 (failure "Email and password are required.")
  else
    match lower_trim email with
    | None => Respond 500 (error_body "Internal server error")
    | Some folded =>
        match db_get fault Users (where_eq "email" (bindParam (JStr folded))) d with
        | inl _ => Respond 500 (failure "Login failed.")
        | inr None => Respond 400 (failure "Invalid credentials.")
        | inr (Some row) =>
            match bcrypt_compare password (col row "password") with
            | None => Respond 500 (failure "Login failed.")
            | Some passwordMatch =>
                if negb passwordMatch then
                  Respond 400 (failure "Invalid credentials.")
                else
                  Respond 200
                    (literal [("success", JBool true); ("email", col row "email");
                              ("message", JStr "Login successful!")])
            end
        end
    end.

(** [row.c ? JSON.parse(row.c) : []] *)
Definition parse_list (r : row) (c : string) : exception + value :=
  if truthy (col r c) then
    match JSON_parse (col r c) with
    | Some v => inr v
    | None => inl SyntaxError
    end
  else inr (JArr []).

(** [app.get("/profile/:email")].  The object literal is built inside the
    callback of [db.get], outside any [try]. *)
Definition get_profile (fault : option db_error) (email : string) (d : database)
    : outcome :=
  match db_get fault Profiles (where_eq "user_email" (bindParam (JStr email))) d with
  | inl _ => Respond 500 (error_body "Error fetching profile.")
  | inr None => Respond 200 JNull
  | inr (Some row) =>
      match parse_list row "degrees", parse_list row "employment",
            parse_list row "courses", parse_list row "grants",
            parse_list row "awards" with
      | inr degrees, inr employment, inr courses, inr grants, inr awards =>
          Respond 200
            (literal [("userEmail", col row "user_email");
                      ("fullName", col row "full_name");
                      ("designation", col row "designation");
                      ("department", col row "department");
                      ("institution", col row "institution");
                      ("officeAddress", col row "office_address");
                      ("officialEmail", col row "official_email");
                      ("alternateEmail", col row "alternate_email");
                      ("phone", col row "phone");
                      ("website", col row "website");
                      ("degrees", degrees);
                      ("employment", employment);
                      ("researchKeywords", col row "research_keywords");
                      ("researchDescription", col row "research_description");
                      ("scholarLink", col row "scholar_link");
                      ("courses", courses);
                      ("grants", grants);
                      ("professionalActivities", col row "professional_activities");
                      ("awards", awards);
                      ("skills", col row "skills");
                      ("outreachService", col row "outreach_service")])
      | inl e, _, _, _, _ => Uncaught e
      | _, inl e, _, _, _ => Uncaught e
      | _, _, inl e, _, _ => Uncaught e
      | _, _, _, inl e, _ => Uncaught e
      | _, _, _, _, inl e => Uncaught e
      end
  end.

(** [app.post("/profile")].  [now] is the clock read on entry
    ([modifiedDate]), [now'] the clock read in the insert branch
    ([createdDate]); [fault_get] and [fault_run] are the faults of the lookup
    and of the write. *)
Definition post_profile (now now' : string) (fault_get fault_run : option db_error)
    (body : object) (d : database) : database * outcome :=
  let userEmail := field body "userEmail" in
  let fullName := field body "fullName" in
  let designation := field body "designation" in
  let department := field body "department" in
  let institution := field body "institution" in
  let officeAddress := field body "officeAddress" in
  let officialEmail := field body "officialEmail" in
  let alternateEmail := field body "alternateEmail" in
  let phone := field body "phone" in
  let website := field body "website" in
  let degrees := field body "degrees" in
  let employment := field body "employment" in
  let researchKeywords := field body "researchKeywords" in
  let researchDescription := field body "researchDescription" in
  let scholarLink := field body "scholarLink" in
  let courses := field body "courses" in
  let grants := field body "grants" in
  let professionalActivities := field body "professionalActivities" in
  let awards := field body "awards" in
  let skills := field body "skills" in
  let outreachService := field body "outreachService" in
  if negb (truthy userEmail) then
    (d, Respond 400 (error_body "User email is required."))
  else
    let modifiedDate := JStr now in
    match db_get fault_get Profiles
            (where_eq "user_email" (stored Profiles "user_email" userEmail)) d with
    | inl _ => (d, Respond 500 (error_body "Error saving profile."))
    | inr found =>
        let degreesJson := JStr (JSON_stringify (or_else degrees (JArr []))) in
        let employmentJson := JStr (JSON_stringify (or_else employment (JArr []))) in
        let coursesJson := JStr (JSON_stringify (or_else courses (JArr []))) in
        let grantsJson := JStr (JSON_stringify (or_else grants (JArr []))) in
        let awardsJson := JStr (JSON_stringify (or_else awards (JArr []))) in
        match found with
        | Some _ =>
            match db_update fault_run Profiles
                    [("full_name", fullName); ("designation", designation);
                     ("department", department); ("institution", institution);
                     ("office_address", officeAddress);
                     ("official_email", officialEmail);
                     ("alternate_email", alternateEmail); ("phone", phone);
                     ("website", website); ("degrees", degreesJson);
                     ("employment", employmentJson);
                     ("research_keywords", researchKeywords);
                     ("research_description", researchDescription);
                     ("scholar_link", scholarLink); ("courses", coursesJson);
                     ("grants", grantsJson);
                     ("professional_activities", professionalActivities);
                     ("awards", awardsJson); ("skills", skills);
                     ("outreach_service", outreachService);
                     ("modified_date", modifiedDate)]
                    (where_eq "user_email" (stored Profiles "user_email" userEmail))
                    d with
            | (d', inl _) => (d', Respond 500 (error_body "Error updating profile."))
            | (d', inr changes) =>
                (d', Respond 200
                       (literal [("message", JStr "Profile updated successfully");
                                 ("updated", JNum changes)]))
            end
        | None =>
            let createdDate := JStr now' in
            match db_insert fault_run Profiles
                    ["user_email"; "full_name"; "designation"; "department";
                     "institution"; "office_address"; "official_email";
                     "alternate_email"; "phone"; "website"; "degrees";
                     "employment"; "research_keywords"; "research_description";
                     "scholar_link"; "courses"; "grants";
                     "professional_activities"; "awards"; "skills";
                     "outreach_service"; "created_date"; "modified_date"]
                    [userEmail; fullName; designation; department; institution;
                     officeAddress; officialEmail; alternateEmail; phone;
                     website; degreesJson; employmentJson; researchKeywords;
                     researchDescription; scholarLink; coursesJson; grantsJson;
                     professionalActivities; awardsJson; skills;
                     outreachService; createdDate; modifiedDate] d with
            | (d', inl _) => (d', Respond 500 (error_body "Error creating profile."))
            | (d', inr lastID) =>
                (d', Respond 200
                       (literal [("message", JStr "Profile created successfully");
                                 ("id", JNum lastID)]))
            end
        end
    end.

End Library.

(** ** The vocabulary of the properties *)

(** Nothing but table [t] changes, and in [t] no row is added or removed;
    every row keeps its [id], [user_email] and [created_date]; a row whose id
    is not [id] is the same row afterwards. *)
Definition frame_update (t : tbl) (id : Z) (d d' : database) : Prop :=
  (forall t', t' <> t -> d' t' = d t') /\
  length (rows (d' t)) = length (rows (d t)) /\
  forall (i : nat) (r : row), rows (d t) !! i = Some r ->
    exists r' : row, rows (d' t) !! i = Some r' /\
      r' !! "id" = r !! "id" /\
      r' !! "user_email" = r !! "user_email" /\
      r' !! "created_date" = r !! "created_date" /\
      (r !! "id" <> Some (SInt id) -> r' = r).

(** Column [c] of the [i]-th row of a table. *)
Definition cell_at (tb : table) (i : nat) (c : string) : option sqlval :=
  rows tb !! i ≫= fun r : row => r !! c.

(** Property [k] of the JSON body of a response. *)
Definition answer (o : outcome) (k : string) : option value :=
  body_of o ≫= fun b => prop b k.

(** A create was carried out: one row is appended to [t], it holds [x] in
    column [c] and the generated id, and the response is 200 with that id. *)
Definition created (t : tbl) (c : string) (x : sqlval) (d : database)
    (res : database * outcome) : Prop :=
  exists r : row,
    rows (res.1 t) = rows (d t) ++ [r] /\
    r !! c = Some x /\
    r !! "id" = Some (SInt (next_id (d t))) /\
    status_of res.2 = Some 200 /\
    answer res.2 "id" = Some (JNum (next_id (d t))).

(** Every row of [t] whose id is [id] holds [x] in column [c] afterwards. *)
Definition writes (t : tbl) (id : Z) (d d' : database) (c : string) (x : sqlval) : Prop :=
  forall i : nat, cell_at (d t) i "id" = Some (SInt id) ->
    cell_at (d' t) i c = Some x.

(** Every field of [fields] (request key, column) that the body leaves out
    is written as NULL. *)
Definition nulls_absent (fields : list (string * string)) (t : tbl) (id : Z)
    (body : object) (d d' : database) : Prop :=
  forall k c, (k, c) ∈ fields -> body !! k = None -> writes t id d d' c SNull.

(** The request keys of each update and the columns they are written to. *)
Definition same_name (l : list string) : list (string * string) :=
  (fun k => (k, k)) <$> l.

Definition idea_fields := same_name ["title"; "content"; "category"].
Definition note_fields := same_name ["title"; "content"].
Definition career_goal_fields :=
  same_name ["title"; "description"; "progress"; "goal_type"; "target_date";
             "total_stages"; "current_stage"; "start_date"; "stage_description"].
Definition future_work_fields :=
  same_name ["title"; "description"; "priority"; "timeline"].
Definition deadline_fields :=
  same_name ["title"; "description"; "due_date"; "priority"; "status"].
Definition legacy_event_fields :=
  same_name ["title"; "description"; "event_date"; "start_time"; "end_time";
             "repeat_weekly"].
Definition project_fields := same_name ["name"; "colleagues"].
Definition event_fields : list (string * string) :=
  [("title", "title"); ("description", "description"); ("date", "event_date");
   ("start", "start_time"); ("end", "end_time"); ("location", "location");
   ("category", "category"); ("attendees", "attendees");
   ("reminder", "reminder"); ("recurrence", "recurrence");
   ("recurrenceEnd", "recurrence_end"); ("showAs", "show_as");
   ("priority", "priority"); ("meetingLink", "meeting_link");
   ("attachments", "attachments")].
Definition event_flags : list (string * string) :=
  [("isAllDay", "is_all_day"); ("isOnline", "is_online");
   ("repeatWeekly", "repeat_weekly")].
Definition description_fields : list (string * string) :=
  [("projectTitle", "project_title");
   ("notes", "notes");
   ("colleagueName", "colleague_name");
   ("colleaguePhone", "colleague_phone");
   ("colleagueEmail", "colleague_email");
   ("colleagueAddress1", "colleague_address1");
   ("colleagueAddress2", "colleague_address2");
   ("colleagueAddress3", "colleague_address3");
   ("yourName", "your_name");
   ("yourPhone", "your_phone");
   ("yourEmail", "your_email");
   ("yourAddress1", "your_address1");
   ("yourAddress2", "your_address2");
   ("yourAddress3", "your_address3");
   ("objectives", "objectives");
   ("timeline", "timeline");
   ("primaryAudience", "primary_audience");
   ("secondaryAudience", "secondary_audience");
   ("callAction", "call_action");
   ("competition", "competition");
   ("graphics", "graphics");
   ("photography", "photography");
   ("multimedia", "multimedia");
   ("otherInfo", "other_info");
   ("clientName", "client_name");
   ("clientComments", "client_comments");
   ("approvalDate", "approval_date");
   ("approvalSignature", "approval_signature")].

(** The integer a flag is stored as by [c ? 1 : 0]. *)
Definition bit (v : value) : sqlval := SInt (if truthy v then 1 else 0).

(** Property [k] of every element of a response that is a JSON array. *)
Definition listed (o : outcome) (k : string) : list (option value) :=
  match o with
  | Respond _ (JArr vs) => (fun v => prop v k) <$> vs
  | _ => []
  end.

(** The stored profiles of an owner: the rows that
    [WHERE user_email = ?] selects for the [userEmail] of a request. *)
Definition profile_rows (owner : value) (d : database) : list row :=
  filter (fun r : row =>
            where_eq "user_email" (stored Profiles "user_email" owner) r = true)
         (rows (d Profiles)).

(** The UNIQUE constraint on [profiles.user_email]: no two rows hold the
    same non-NULL owner. *)
Definition unique_owner (d : database) : Prop :=
  forall p : sqlval, p <> SNull ->
    (length (filter (fun r : row => where_eq "user_email" p r = true)
                    (rows (d Profiles))) <= 1)%nat.

(** The account that [SELECT * FROM users WHERE email = ?] finds. *)
Definition account (d : database) (folded : string) : option row :=
  head (filter (fun r : row => where_eq "email" (SText folded) r = true)
               (rows (d Users))).

(** ** Proof steps *)

(** The first binding of [c] in an association list: what [list_to_map]
    keeps. *)
Fixpoint assoc {A} (c : string) (l : list (string * A)) : option A :=
  match l with
  | [] => None
  | (k, v) :: l' => if String.eqb k c then Some v else assoc c l'
  end.

Ltac string_list_goal := refine (bool_decide_unpack _ _); vm_compute; exact I.

(** [H : (k, c) ∈ [(k1, c1); ...]]: one goal for each pair of the list. *)
Ltac each_pair H :=
  repeat (apply elem_of_cons in H as [H|H]; [injection H as -> ->|]);
  try (by apply elem_of_nil in H).

(** [x ∈ [x1; ...; xn]] for an [x] that is syntactically one of them. *)
Ltac in_list :=
  repeat first [apply list_elem_of_here | apply list_elem_of_further].

(** ** Stand-ins for the library functions

    Small executable functions to run the handlers of the [Library] section
    on the sample requests. *)

(** ASCII lower case. *)
Definition lower_ascii (s : string) : string :=
  String.string_of_list_ascii
    ((fun a => let n := Ascii.nat_of_ascii a in
               if (65 <=? n)%nat && (n <=? 90)%nat then Ascii.ascii_of_nat (n + 32) else a)
       <$> String.list_ascii_of_string s).

Fixpoint drop_spaces (l : list Ascii.ascii) : list Ascii.ascii :=
  match l with
  | a :: l' => if Ascii.eqb a (Ascii.ascii_of_nat 32) then drop_spaces l' else l
  | [] => []
  end.

(** Spaces off both ends. *)
Definition trim_spaces (s : string) : string :=
  String.string_of_list_ascii
    (reverse (drop_spaces (reverse (drop_spaces (String.list_ascii_of_string s))))).

(** [<] on two numbers; [false] when a side is [undefined]. *)
Definition lt_numbers (a b : value) : bool :=
  match a, b with
  | JNum x, JNum y => x <? y
  | _, _ => false
  end.

(** A hash that only tags the password with the salt, and its check; both
    reject what is not a string. *)
Definition tag_hash (password : value) (rounds : Z) (salt : string) : option string :=
  match password with
  | JStr s => Some (salt +:+ "$" +:+ s)
  | _ => None
  end.

Definition tag_compare (password hash : value) : option bool :=
  match password, hash with
  | JStr s, JStr h =>
      Some (match String.index 0 "$" h with
            | Some i => String.eqb (String.substring (S i) (String.length h) h) s
            | None => false
            end)
  | _, _ => None
  end.

(** A printer that knows the empty list only. *)
Definition print_empty_list (v : value) : string := "[]".

(** A parser that knows the empty list only. *)
Definition parse_empty_list (v : value) : option value :=
  match v with
  | JStr s => if String.eqb s "[]" then Some (JArr []) else None
  | _ => None
  end.

(** ** Sample requests and stores *)

Definition clock0 : string := "2025-01-01T09:00:00.000Z".
Definition clock1 : string := "2025-01-02T09:00:00.000Z".

(** [{name: "Brochure", owner_email: "a@x.com"}] *)
Definition brochure : object :=
  <["name" := JStr "Brochure"]> {["owner_email" := JStr "a@x.com"]}.

(** [{name: "Brochure", owner_email: "a@x.com", progress: 50}] *)
Definition brochure_half_done : object := <["progress" := JNum 50]> brochure.

(** The store after [POST /projects] of [brochure_half_done] on the empty
    store. *)
Definition db_one_project : database :=
  (post_projects None brochure_half_done empty_db).1.

(** [{name: "Brochure v2"}] *)
Definition rename_only : object := {["name" := JStr "Brochure v2"]}.

(** [{title: "Orphan"}]: an idea (note, goal, ...) with no owner. *)
Definition no_owner : object := {["title" := JStr "Orphan"]}.

(** [{userEmail: "a@x.com", title: "Standup", isAllDay: true, repeatWeekly: true}] *)
Definition weekly_event : object :=
  <["userEmail" := JStr "a@x.com"]>
  (<["title" := JStr "Standup"]>
  (<["isAllDay" := JBool true]> {["repeatWeekly" := JBool true]})).


(** [{email: " Ada@X.com", password: "lovelace"}] *)
Definition ada_signup : object :=
  <["email" := JStr " Ada@X.com"]> {["password" := JStr "lovelace"]}.

(** The store after Ada has registered. *)
Definition db_ada : database :=
  (register lower_ascii trim_spaces lt_numbers tag_hash "salt" None ada_signup
     empty_db).1.

(** [{email: "ada@x.com", password: "babbage"}]: Ada's email, a wrong password. *)
Definition ada_wrong_password : object :=
  <["email" := JStr "ada@x.com"]> {["password" := JStr "babbage"]}.

(** [{email: "bob@x.com", password: "babbage"}]: an email never registered. *)
Definition bob_login : object :=
  <["email" := JStr "bob@x.com"]> {["password" := JStr "babbage"]}.

(** The same two logins with the number 12345678 for a password. *)
Definition ada_login_number : object :=
  <["email" := JStr "ada@x.com"]> {["password" := JNum 12345678]}.

Definition bob_login_number : object :=
  <["email" := JStr "bob@x.com"]> {["password" := JNum 12345678]}.

(** Four times the letter a with diaeresis: four UTF-16 units in eight
    bytes of UTF-8. *)
Definition four_letters : string :=
  String.string_of_list_ascii
    (Ascii.ascii_of_nat <$> [195; 164; 195; 164; 195; 164; 195; 164]%nat).

(** A signup with that password. *)
Definition short_password : object :=
  <["email" := JStr "eve@x.com"]> {["password" := JStr four_letters]}.

(** [{userEmail: "ada@x.com", fullName: "Ada Lovelace"}] *)
Definition ada_profile : object :=
  <["userEmail" := JStr "ada@x.com"]> {["fullName" := JStr "Ada Lovelace"]}.

(** A profiles table with one row whose degrees column is not JSON. *)
Definition db_bad_degrees : database :=
  set_table Profiles
    {| rows := [new_row Profiles 1 ["user_email"; "degrees"]
                  [JStr "ada@x.com"; JStr "{not json"]];
       seq := 1 |}
    empty_db.

(** Ada's row in [db_ada]. *)
Definition ada_account : row :=
  new_row Users 1 ["email"; "password"] [JStr "ada@x.com"; JStr "salt$lovelace"].

(** The row of [db_bad_degrees]. *)
Definition bad_degrees_row : row :=
  new_row Profiles 1 ["user_email"; "degrees"] [JStr "ada@x.com"; JStr "{not json"].


(** ** The other handlers of [server.js] *)

(** [db.run("DELETE FROM t WHERE ...", params, callback)]: the new store,
    and for the callback either [err] or [this.changes].  The sequence of
    AUTOINCREMENT is not wound back. *)
Definition db_delete (fault : option db_error) (t : tbl) (where_ : row -> bool)
    (d : database) : database * (db_error + Z) :=
  match fault with
  | Some e => (d, inl e)
  | None =>
      (set_table t
         {| rows := filter (fun r => where_ r = false) (rows (d t));
            seq := seq (d t) |} d,
       inr (Z.of_nat (length (filter (fun r => where_ r = true) (rows (d t))))))
  end.

(** [app.delete("/projects/:id")] *)
Definition delete_projects (fault : option db_error) (id : Z) (d : database)
    : database * outcome :=
  match db_delete fault Projects (where_eq "id" (SInt id)) d with
  | (d', inl _) => (d', Respond 500 (error_body "Error deleting project."))
  | (d', inr changes) => (d', Respond 200 (literal [("deleted", JNum changes)]))
  end.

(** [app.delete("/ideas/:id")] *)
Definition delete_ideas (fault : option db_error) (id : Z) (d : database)
    : database * outcome :=
  match db_delete fault Ideas (where_eq "id" (SInt id)) d with
  | (d', inl _) => (d', Respond 500 (error_body "Error deleting idea."))
  | (d', inr changes) => (d', Respond 200 (literal [("deleted", JNum changes)]))
  end.

(** [app.delete("/notes/:id")] *)
Definition delete_notes (fault : option db_error) (id : Z) (d : database)
    : database * outcome :=
  match db_delete fault Notes (where_eq "id" (SInt id)) d with
  | (d', inl _) => (d', Respond 500 (error_body "Error deleting note."))
  | (d', inr changes) => (d', Respond 200 (literal [("deleted", JNum changes)]))
  end.

(** [app.delete("/career_goals/:id")] *)
Definition delete_career_goals (fault : option db_error) (id : Z) (d : database)
    : database * outcome :=
  match db_delete fault CareerGoals (where_eq "id" (SInt id)) d with
  | (d', inl _) => (d', Respond 500 (error_body "Error deleting career goal."))
  | (d', inr changes) => (d', Respond 200 (literal [("deleted", JNum changes)]))
  end.

(** [app.delete("/future_work/:id")] *)
Definition delete_future_work (fault : option db_error) (id : Z) (d : database)
    : database * outcome :=
  match db_delete fault FutureWork (where_eq "id" (SInt id)) d with
  | (d', inl _) => (d', Respond 500 (error_body "Error deleting future work."))
  | (d', inr changes) => (d', Respond 200 (literal [("deleted", JNum changes)]))
  end.

(** [app.delete("/deadlines/:id")] *)
Definition delete_deadlines (fault : option db_error) (id : Z) (d : database)
    : database * outcome :=
  match db_delete fault Deadlines (where_eq "id" (SInt id)) d with
  | (d', inl _) => (d', Respond 500 (error_body "Error deleting deadline."))
  | (d', inr changes) => (d', Respond 200 (literal [("deleted", JNum changes)]))
  end.

(** [app.delete("/events/:id")] *)
Definition delete_events (fault : option db_error) (id : Z) (d : database)
    : database * outcome :=
  match db_delete fault CalendarEvents (where_eq "id" (SInt id)) d with
  | (d', inl _) => (d', Respond 500 (error_body "Error deleting event."))
  | (d', inr changes) => (d', Respond 200 (literal [("deleted", JNum changes)]))
  end.

(** [app.delete("/calendar_events/:id")] *)
Definition delete_calendar_events (fault : option db_error) (id : Z) (d : database)
    : database * outcome :=
  match db_delete fault CalendarEvents (where_eq "id" (SInt id)) d with
  | (d', inl _) => (d', Respond 500 (error_body "Error deleting event."))
  | (d', inr changes) => (d', Respond 200 (literal [("deleted", JNum changes)]))
  end.

(** [app.delete("/profile/:email")] *)
Definition delete_profile (fault : option db_error) (email : string) (d : database)
    : database * outcome :=
  match db_delete fault Profiles (where_eq "user_email" (bindParam (JStr email))) d with
  | (d', inl _) => (d', Respond 500 (error_body "Error deleting profile."))
  | (d', inr changes) =>
      (d', Respond 200
             (literal [("deleted", JNum changes);
                       ("message", JStr "Profile deleted successfully")]))
  end.

(** [app.get("/ideas/:email")] *)
Definition get_ideas (fault : option db_error) (email : string) (d : database)
    : outcome :=
  match db_all fault Ideas (where_eq "user_email" (bindParam (JStr email)))
          [("created_date", DESC)] d with
  | inl _ => Respond 500 (error_body "Error fetching ideas.")
  | inr rs => Respond 200 (JArr (row_json <$> rs))
  end.

(** [app.get("/notes/:email")] *)
Definition get_notes (fault : option db_error) (email : string) (d : database)
    : outcome :=
  match db_all fault Notes (where_eq "user_email" (bindParam (JStr email)))
          [("created_date", DESC)] d with
  | inl _ => Respond 500 (error_body "Error fetching notes.")
  | inr rs => Respond 200 (JArr (row_json <$> rs))
  end.

(** [app.get("/career_goals/:email")] *)
Definition get_career_goals (fault : option db_error) (email : string) (d : database)
    : outcome :=
  match db_all fault CareerGoals (where_eq "user_email" (bindParam (JStr email)))
          [("created_date", DESC)] d with
  | inl _ => Respond 500 (error_body "Error fetching career goals.")
  | inr rs => Respond 200 (JArr (row_json <$> rs))
  end.

(** [app.get("/career/:email")] *)
Definition get_career (fault : option db_error) (email : string) (d : database)
    : outcome :=
  match db_all fault CareerGoals (where_eq "user_email" (bindParam (JStr email)))
          [("created_date", DESC)] d with
  | inl _ => Respond 500 (error_body "Error fetching career goals.")
  | inr rs => Respond 200 (JArr (row_json <$> rs))
  end.

(** [app.get("/future_work/:email")] *)
Definition get_future_work (fault : option db_error) (email : string) (d : database)
    : outcome :=
  match db_all fault FutureWork (where_eq "user_email" (bindParam (JStr email)))
          [("created_date", DESC)] d with
  | inl _ => Respond 500 (error_body "Error fetching future work.")
  | inr rs => Respond 200 (JArr (row_json <$> rs))
  end.

(** [app.get("/future/:email")] *)
Definition get_future (fault : option db_error) (email : string) (d : database)
    : outcome :=
  match db_all fault FutureWork (where_eq "user_email" (bindParam (JStr email)))
          [("created_date", DESC)] d with
  | inl _ => Respond 500 (error_body "Error fetching future work.")
  | inr rs => Respond 200 (JArr (row_json <$> rs))
  end.

(** [app.get("/deadlines/:email")] *)
Definition get_deadlines (fault : option db_error) (email : string) (d : database)
    : outcome :=
  match db_all fault Deadlines (where_eq "user_email" (bindParam (JStr email)))
          [("due_date", ASC)] d with
  | inl _ => Respond 500 (error_body "Error fetching deadlines.")
  | inr rs => Respond 200 (JArr (row_json <$> rs))
  end.

(** [app.get("/projects/:id/description")]: [res.json(row || {})]. *)
Definition get_projects_description (fault : option db_error) (id : Z)
    (d : database) : outcome :=
  match db_get fault Projects (where_eq "id" (SInt id)) d with
  | inl _ => Respond 500 (error_body "Error fetching description.")
  | inr (Some row) => Respond 200 (row_json row)
  | inr None => Respond 200 (JObj ∅)
  end.

(** *** Vocabulary for the properties of these handlers *)

(** The ids of a table, in row order. *)
Definition ids (tb : table) : list (option sqlval) :=
  (fun r : row => r !! "id") <$> rows tb.

(** No row of [t] has the id [id]. *)
Definition absent (t : tbl) (id : Z) (d : database) : Prop :=
  forall r : row, r ∈ rows (d t) -> r !! "id" <> Some (SInt id).

(** A request answered 200 with [{k: 0}] that left every table as it was. *)
Definition no_effect (k : string) (d : database) (res : database * outcome) : Prop :=
  res.2 = Respond 200 (literal [(k, JNum 0)]) /\ forall t, res.1 t = d t.

(** A delete by id on table [t]: the rows with that id are gone, the others
    stay in their order, no other table changes, the sequence of ids is
    kept, and the response counts the rows removed. *)
Definition deleted_by_id (t : tbl) (id : Z) (d : database)
    (res : database * outcome) : Prop :=
  rows (res.1 t) = filter (fun r : row => r !! "id" <> Some (SInt id)) (rows (d t)) /\
  seq (res.1 t) = seq (d t) /\
  (forall t', t' <> t -> res.1 t' = d t') /\
  res.2 = Respond 200
            (literal [("deleted",
                       JNum (Z.of_nat (length (rows (d t)))
                             - Z.of_nat (length (rows (res.1 t)))))]).

(** A step of the store keeps the ids of every table distinct. *)
Definition keeps_ids (step : database -> database) : Prop :=
  forall (d : database) (t : tbl), NoDup (ids (d t)) -> NoDup (ids (step d t)).

(** A create [make] is undone by the delete [del] of the id it returned:
    the delete removes one row, the table has its old rows again and no
    other table has changed; the id is not handed out again, the next
    create gets the one after it. *)
Definition undone_by (t : tbl) (d : database)
    (make : database -> database * outcome)
    (del : Z -> database -> database * outcome) : Prop :=
  exists id : Z,
    answer (make d).2 "id" = Some (JNum id) /\
    (del id (make d).1).2 = Respond 200 (literal [("deleted", JNum 1)]) /\
    rows ((del id (make d).1).1 t) = rows (d t) /\
    (forall t', t' <> t -> (del id (make d).1).1 t' = d t') /\
    answer (make (del id (make d).1).1).2 "id" = Some (JNum (id + 1)).

(** An update or delete by id that reports 0 or 1. *)
Definition counts_one (k : string) (res : database * outcome) : Prop :=
  res.2 = Respond 200 (literal [(k, JNum 0)]) \/
  res.2 = Respond 200 (literal [(k, JNum 1)]).

(** The rows of table [t] whose column [c] holds the text [owner]. *)
Definition rows_of (t : tbl) (c : string) (owner : string) (d : database) : list row :=
  filter (fun r : row => r !! c = Some (SText owner)) (rows (d t)).

(** Orders of a listing: [r1] may come before [r2]. *)
Definition newest_first (r1 r2 : row) : Prop :=
  sql_leb (cell r2 "created_date") (cell r1 "created_date") = true.

Definition soonest_due_first (r1 r2 : row) : Prop :=
  sql_leb (cell r1 "due_date") (cell r2 "due_date") = true.

Definition earliest_date_first (r1 r2 : row) : Prop :=
  sql_leb (cell r1 "event_date") (cell r2 "event_date") = true.

Definition earliest_start_first (r1 r2 : row) : Prop :=
  sql_leb (cell r1 "event_date") (cell r2 "event_date") = true /\
  (cell r1 "event_date" = cell r2 "event_date" ->
   sql_leb (cell r1 "start_time") (cell r2 "start_time") = true).

Definition any_order (r1 r2 : row) : Prop := True.

(** The response is 200 with the rows [owned], each shown by [show], every
    row before the rows it may come before. *)
Definition lists (show : row -> value) (o : outcome) (owned : list row)
    (before : row -> row -> Prop) : Prop :=
  exists rs : list row,
    o = Respond 200 (JArr (show <$> rs)) /\ rs ≡ₚ owned /\ StronglySorted before rs.

(** What column [c] of table [t] reads back as after [v] was bound to it:
    a number bound to a TEXT column reads back as its text, text that is an
    integer bound to an INTEGER column as the integer. *)
Definition reads_back (t : tbl) (c : string) (v : value) : value :=
  of_sql (stored t c v).


(** A handler, as a step of the store, writes only when it answers 200. *)
Definition writes_only_on_200 (h : database -> database * outcome) : Prop :=
  forall d : database, status_of (h d).2 <> Some 200 -> (h d).1 = d.

(** The scalar fields of a profile: the key in the request and in the
    response, and the column. *)
Definition profile_scalars : list (string * string) :=
  [("fullName", "full_name"); ("designation", "designation");
   ("department", "department"); ("institution", "institution");
   ("officeAddress", "office_address"); ("officialEmail", "official_email");
   ("alternateEmail", "alternate_email"); ("phone", "phone");
   ("website", "website"); ("researchKeywords", "research_keywords");
   ("researchDescription", "research_description");
   ("scholarLink", "scholar_link");
   ("professionalActivities", "professional_activities");
   ("skills", "skills"); ("outreachService", "outreach_service")].

(** The list-valued fields of a profile. *)
Definition profile_lists : list string :=
  ["degrees"; "employment"; "courses"; "grants"; "awards"].

(** The row holds the profile of the request. *)
Definition holds_profile (JSON_stringify : value -> string) (body : object)
    (r : row) : Prop :=
  r !! "user_email" = Some (stored Profiles "user_email" (field body "userEmail")) /\
  (forall k c, (k, c) ∈ profile_scalars ->
     r !! c = Some (stored Profiles c (field body k))) /\
  (forall k, k ∈ profile_lists ->
     r !! k = Some (SText (JSON_stringify (or_else (field body k) (JArr []))))).

(** The first row of [t] with the id [id]: what [WHERE id = ?] finds. *)
Definition found (t : tbl) (id : Z) (d : database) : option row :=
  head (filter (fun r : row => r !! "id" = Some (SInt id)) (rows (d t))).

(** *** The PostgreSQL wrapper *)

(** The character [?]. *)
Definition question_mark : Ascii.ascii := Ascii.ascii_of_nat 63.

(** [`$${paramIndex}`] *)
Definition dollar (paramIndex : nat) : string :=
  "$" +:+ NilEmpty.string_of_uint (Nat.to_uint paramIndex).

(** [query.replace(/\?/g, () => `$${paramIndex++}`)], from the index
    [paramIndex] on. *)
Fixpoint placeholders (paramIndex : nat) (query : string) : string :=
  match query with
  | EmptyString => EmptyString
  | String a rest =>
      if Ascii.eqb a question_mark
      then dollar paramIndex +:+ placeholders (S paramIndex) rest
      else String a (placeholders paramIndex rest)
  end.

(** The rewriting of placeholders that [run], [get] and [all] of the
    wrapper start with: [let paramIndex = 1; pgQuery.replace(...)]. *)
Definition pg_placeholders (query : string) : string := placeholders 1 query.

(** Is there a [?] in the text? *)
Fixpoint has_question (s : string) : bool :=
  match s with
  | EmptyString => false
  | String a rest => Ascii.eqb a question_mark || has_question rest
  end.

(** The number of [?] in the text. *)
Fixpoint count_questions (s : string) : nat :=
  match s with
  | EmptyString => 0
  | String a rest =>
      ((if Ascii.eqb a question_mark then 1 else 0) + count_questions rest)%nat
  end.

(** Pieces of text with a [?] between each two. *)
Fixpoint joined (parts : list string) : string :=
  match parts with
  | [] => ""
  | [p] => p
  | p :: rest => p +:+ "?" +:+ joined rest
  end.

(** The same pieces with [$n], [$n+1], ... between them. *)
Fixpoint numbered (n : nat) (parts : list string) : string :=
  match parts with
  | [] => ""
  | [p] => p
  | p :: rest => p +:+ dollar n +:+ numbered (S n) rest
  end.

(** What the callback of a query is called with as [err]: the error of a
    rejected query, or an exception that the wrapper caught. *)
Inductive query_error := Rejected (e : db_error) | Thrown (e : exception).

(** [get] of the wrapper, after [pool.query]:
    [.then(result => callback(null, result.rows[0] || null))
     .catch(err => callback(err, null))].  The [catch] also catches what the
    callback throws in the [then]. *)
Definition pg_get (result : db_error + list row)
    (callback : option query_error -> option row -> outcome) : outcome :=
  match result with
  | inl err => callback (Some (Rejected err)) None
  | inr found =>
      match callback None (head found) with
      | Uncaught e => callback (Some (Thrown e)) None
      | responded => responded
      end
  end.

(** [db.get] of the sqlite3 driver: the callback is called once. *)
Definition sqlite_get (result : db_error + list row)
    (callback : option query_error -> option row -> outcome) : outcome :=
  match result with
  | inl err => callback (Some (Rejected err)) None
  | inr found => callback None (head found)
  end.

(** What the engine answers to
    [SELECT * FROM profiles WHERE user_email = ?]. *)
Definition select_profile (fault : option db_error) (email : string)
    (d : database) : db_error + list row :=
  match fault with
  | Some e => inl e
  | None => inr (profile_rows (JStr email) d)
  end.

Section Pages.

Context (JSON_parse : value -> option value).

(** The callback [(err, row) => { ... }] of [app.get("/profile/:email")]. *)
Definition profile_callback (err : option query_error) (row : option row) : outcome :=
  match err with
  | Some _ => Respond 500 (error_body "Error fetching profile.")
  | None =>
      match row with
      | None => Respond 200 JNull
      | Some row =>
          match parse_list JSON_parse row "degrees",
                parse_list JSON_parse row "employment",
                parse_list JSON_parse row "courses",
                parse_list JSON_parse row "grants",
                parse_list JSON_parse row "awards" with
          | inr degrees, inr employment, inr courses, inr grants, inr awards =>
              Respond 200
                (literal [("userEmail", col row "user_email");
                          ("fullName", col row "full_name");
                          ("designation", col row "designation");
                          ("department", col row "department");
                          ("institution", col row "institution");
                          ("officeAddress", col row "office_address");
                          ("officialEmail", col row "official_email");
                          ("alternateEmail", col row "alternate_email");
                          ("phone", col row "phone");
                          ("website", col row "website");
                          ("degrees", degrees);
                          ("employment", employment);
                          ("researchKeywords", col row "research_keywords");
                          ("researchDescription", col row "research_description");
                          ("scholarLink", col row "scholar_link");
                          ("courses", courses);
                          ("grants", grants);
                          ("professionalActivities", col row "professional_activities");
                          ("awards", awards);
                          ("skills", col row "skills");
                          ("outreachService", col row "outreach_service")])
          | inl e, _, _, _, _ => Uncaught e
          | _, inl e, _, _, _ => Uncaught e
          | _, _, inl e, _, _ => Uncaught e
          | _, _, _, inl e, _ => Uncaught e
          | _, _, _, _, inl e => Uncaught e
          end
      end
  end.

(** [GET /profile/:email] when [db] is the PostgreSQL wrapper. *)
Definition get_profile_pg (fault : option db_error) (email : string)
    (d : database) : outcome :=
  pg_get (select_profile fault email d) profile_callback.

(** What [res.status(s).send(html)] sends ([res.send] alone: 200). *)
Inductive page := Send (status : Z) (html : string).

(** The text of the two pages of the resume route is a parameter: the
    "Profile Not Found" page, and the resume built from the profile row and
    its parsed degrees, [None] when building it throws. *)
Context (not_found_page : string)
        (resume_page : row -> value -> option string).

(** [app.get("/generate-resume/:email")]: the whole body is inside [try],
    and [catch] sends 500 with [<h1>Error</h1>]. *)
Definition generate_resume (fault : option db_error) (email : string)
    (d : database) : page :=
  match db_get fault Profiles (where_eq "user_email" (bindParam (JStr email))) d with
  | inl _ => Send 500 "<h1>Error</h1>"
  | inr None => Send 404 not_found_page
  | inr (Some profile) =>
      match parse_list JSON_parse profile "degrees",
            parse_list JSON_parse profile "employment",
            parse_list JSON_parse profile "courses",
            parse_list JSON_parse profile "grants",
            parse_list JSON_parse profile "awards" with
      | inr degrees, inr employment, inr courses, inr grants, inr awards =>
          match resume_page profile degrees with
          | Some resumeHTML => Send 200 resumeHTML
          | None => Send 500 "<h1>Error</h1>"
          end
      | _, _, _, _, _ => Send 500 "<h1>Error</h1>"
      end
  end.

End Pages.

(** The second of two requests takes the place of the first: after both,
    the response is the response to the first and the store is the store
    that the second alone would have left. *)
Definition absorbed_by (first second : database -> database * outcome) : Prop :=
  forall d : database,
    (second (first d).1).2 = (first d).2 /\
    forall t, (second (first d).1).1 t = (second d).1 t.

(** A handler that does the same, store and response, when repeated. *)
Definition repeatable (h : database -> database * outcome) : Prop :=
  forall d : database,
    (h (h d).1).2 = (h d).2 /\ forall t, (h (h d).1).1 t = (h d).1 t.

(** ** More sample requests and stores *)

(** [{user_email: "ada@x.com", title: 5, content: "Engine"}]: the title
    is a number. *)
Definition ada_idea : object :=
  <["user_email" := JStr "ada@x.com"]>
  (<["title" := JNum 5]> {["content" := JStr "Engine"]}).

(** [{user_email: "a@x.com", title: "Review", repeat_weekly: "0"}]: the
    flag is the text "0". *)
Definition legacy_event_text_flag : object :=
  <["user_email" := JStr "a@x.com"]>
  (<["title" := JStr "Review"]> {["repeat_weekly" := JStr "0"]}).

(** [{email: "ADA@x.com ", password: "lovelace"}]: Ada's email as typed
    another way. *)
Definition ada_login_typed : object :=
  <["email" := JStr "ADA@x.com "]> {["password" := JStr "lovelace"]}.

(** An event row of owner a@x.com with the id 1. *)
Definition standup_row : row :=
  new_row CalendarEvents 1 ["user_email"; "title"] [JStr "a@x.com"; JStr "Standup"].

Definition db_one_event : database :=
  set_table CalendarEvents {| rows := [standup_row]; seq := 1 |} empty_db.

(** [{title: 7, date: "2025-02-01", isOnline: true}] *)
Definition move_standup : object :=
  <["title" := JNum 7]>
  (<["date" := JStr "2025-02-01"]> {["isOnline" := JBool true]}).

(** A project row with the id 1. *)
Definition brochure_row : row :=
  new_row Projects 1 ["name"; "owner_email"] [JStr "Brochure"; JStr "a@x.com"].

Definition db_brochure : database :=
  set_table Projects {| rows := [brochure_row]; seq := 1 |} empty_db.

(** [{projectTitle: "Launch brochure", yourPhone: 5550100}] *)
Definition brochure_description : object :=
  <["projectTitle" := JStr "Launch brochure"]> {["yourPhone" := JNum 5550100]}.

(** [{userEmail: "ada@x.com", fullName: "Ada Lovelace", phone: 5550100,
      degrees: ["BSc", "PhD"]}] *)
Definition ada_profile_degrees : object :=
  <["userEmail" := JStr "ada@x.com"]>
  (<["fullName" := JStr "Ada Lovelace"]>
  (<["phone" := JNum 5550100]>
   {["degrees" := JArr [JStr "BSc"; JStr "PhD"]]})).

(** Stand-ins for [JSON.stringify] and [JSON.parse] on lists of plain
    strings (no quote or backslash in them): the list is printed as its
    items in double quotes, with commas between them, in brackets. *)
Definition double_quote : Ascii.ascii := Ascii.ascii_of_nat 34.

Definition print_name (v : value) : string :=
  match v with
  | JStr s => String double_quote s +:+ String double_quote ""
  | _ => "null"
  end.

Fixpoint print_items (l : list value) : string :=
  match l with
  | [] => ""
  | [v] => print_name v
  | v :: rest => print_name v +:+ "," +:+ print_items rest
  end.

Definition print_names (v : value) : string :=
  match v with
  | JArr l => "[" +:+ print_items l +:+ "]"
  | _ => "null"
  end.

(** The text up to the closing quote, and what follows it. *)
Fixpoint read_name (l : list Ascii.ascii) (read : list Ascii.ascii)
    : option (string * list Ascii.ascii) :=
  match l with
  | [] => None
  | a :: l' =>
      if Ascii.eqb a double_quote
      then Some (String.string_of_list_ascii (reverse read), l')
      else read_name l' (a :: read)
  end.

Fixpoint read_names (fuel : nat) (l : list Ascii.ascii) : option (list value) :=
  match fuel, l with
  | S fuel', a :: l' =>
      if Ascii.eqb a double_quote then
        match read_name l' [] with
        | Some (s, b :: rest) =>
            if Ascii.eqb b (Ascii.ascii_of_nat 44)
            then cons (JStr s) <$> read_names fuel' rest
            else if Ascii.eqb b (Ascii.ascii_of_nat 93)
            then match rest with [] => Some [JStr s] | _ => None end
            else None
        | _ => None
        end
      else None
  | _, _ => None
  end.

Definition parse_names (v : value) : option value :=
  match v with
  | JStr s =>
      if String.eqb s "[]" then Some (JArr [])
      else match String.list_ascii_of_string s with
           | a :: l =>
               if Ascii.eqb a (Ascii.ascii_of_nat 91)
               then JArr <$> read_names (length l) l
               else None
           | [] => None
           end
  | _ => None
  end.

(** The pieces of [INSERT INTO users (email, password) VALUES (?, ?)]. *)
Definition insert_user_parts : list string :=
  ["INSERT INTO users (email, password) VALUES ("; ", "; ")"].

(** Stand-ins for the two pages of the resume route. *)
Definition plain_not_found : string := "Profile Not Found".

Definition plain_resume (profile : row) (degrees : value) : option string :=
  match col profile "full_name" with
  | JStr name => Some ("Resume - " +:+ name)
  | _ => Some "Resume - Academic Professional"
  end.
(** ** The store: lemmas *)

Lemma set_table_same t x (d : database) : set_table t x d t = x.
Proof. unfold set_table. by rewrite decide_True. Qed.

Lemma set_table_other t t' x (d : database) : t' <> t -> set_table t x d t' = d t'.
Proof. intros. unfold set_table. by rewrite decide_False. Qed.

Lemma where_eq_id_false (r : row) id :
  r !! "id" <> Some (SInt id) -> where_eq "id" (SInt id) r = false.
Proof.
  intros Hne. unfold where_eq. destruct (r !! "id") as [x|] eqn:E; [|done].
  unfold sql_eq. destruct x; [done| |]; apply bool_decide_eq_false; congruence.
Qed.

Lemma where_eq_id_true (r : row) id :
  r !! "id" = Some (SInt id) -> where_eq "id" (SInt id) r = true.
Proof. intros E. unfold where_eq. rewrite E. simpl. by apply bool_decide_eq_true. Qed.

(** NULL stays NULL under either affinity. *)
Lemma stored_undefined t c : stored t c JUndefined = SNull.
Proof. unfold stored. by destruct (column_affinity t c). Qed.

Lemma store_as_not_null a x : x <> SNull -> store_as a x <> SNull.
Proof.
  destruct a, x as [|n|s]; simpl; try done.
  by destruct (numeric_text s).
Qed.


Lemma assign_columns t (sets : list (string * value)) :
  ((fun cv : string * value => (cv.1, stored t cv.1 cv.2)) <$> sets).*1 = sets.*1.
Proof. rewrite <- list_fmap_compose. by apply list_fmap_ext. Qed.

Lemma assign_other t (sets : list (string * value)) (r : row) c :
  c ∉ sets.*1 -> assign t sets r !! c = r !! c.
Proof.
  intros Hc. unfold assign. rewrite lookup_union_r; [done|].
  apply not_elem_of_list_to_map_1. by rewrite assign_columns.
Qed.

Lemma assign_set t (sets : list (string * value)) (r : row) c v :
  NoDup sets.*1 -> (c, v) ∈ sets -> assign t sets r !! c = Some (stored t c v).
Proof.
  intros Hnd Hin. unfold assign. apply lookup_union_Some_l.
  apply elem_of_list_to_map_1.
  - by rewrite assign_columns.
  - apply (list_elem_of_fmap_2
             (fun cv : string * value => (cv.1, stored t cv.1 cv.2)) _ (c, v)), Hin.
Qed.

Lemma db_update_fault e t sets w (d : database) :
  db_update (Some e) t sets w d = (d, inl e).
Proof. reflexivity. Qed.

Lemma db_update_other fault t sets w (d : database) t' :
  t' <> t -> (db_update fault t sets w d).1 t' = d t'.
Proof. intros. destruct fault; [done|]. simpl. by apply set_table_other. Qed.

Lemma db_update_row t sets w (d : database) (i : nat) (r : row) :
  rows (d t) !! i = Some r ->
  rows ((db_update None t sets w d).1 t) !! i
  = Some (if w r then assign t sets r else r).
Proof.
  intros Hi. simpl. rewrite set_table_same. simpl.
  by rewrite list_lookup_fmap, Hi.
Qed.

Lemma db_update_rows t sets w (d : database) :
  rows ((db_update None t sets w d).1 t)
  = (fun r => if w r then assign t sets r else r) <$> rows (d t).
Proof. simpl. by rewrite set_table_same. Qed.

Lemma db_update_length fault t sets w (d : database) :
  length (rows ((db_update fault t sets w d).1 t)) = length (rows (d t)).
Proof.
  destruct fault; [done|]. simpl. rewrite set_table_same. simpl.
  apply length_fmap.
Qed.

(** An UPDATE by id that sets none of [id], [user_email], [created_date]. *)
Lemma db_update_frame fault t sets id (d : database) :
  "id" ∉ sets.*1 -> "user_email" ∉ sets.*1 -> "created_date" ∉ sets.*1 ->
  frame_update t id d (db_update fault t sets (where_eq "id" (SInt id)) d).1.
Proof.
  intros H1 H2 H3. split; [|split].
  - intros t' Hne. by apply db_update_other.
  - apply db_update_length.
  - intros i r Hi. destruct fault as [e|].
    + exists r. rewrite db_update_fault. by simpl.
    + eexists. split; [by apply db_update_row|].
      destruct (where_eq "id" (SInt id) r) eqn:W.
      * rewrite !assign_other by done. repeat split; try done.
        intros Hne. apply where_eq_id_false in Hne. congruence.
      * done.
Qed.

Lemma db_update_writes t sets id (d : database) c v :
  NoDup sets.*1 -> (c, v) ∈ sets ->
  writes t id d (db_update None t sets (where_eq "id" (SInt id)) d).1 c
    (stored t c v).
Proof.
  intros Hnd Hin i. unfold cell_at.
  destruct (rows (d t) !! i) as [r|] eqn:Hi; [|done].
  rewrite (db_update_row _ _ _ _ _ _ Hi). simpl. intros Hid.
  rewrite where_eq_id_true by done. by apply assign_set.
Qed.

Lemma cell_lookup (r : row) c x : r !! c = Some x -> cell r c = x.
Proof. intros E. unfold cell. by rewrite E. Qed.

Lemma field_absent (body : object) k : body !! k = None -> field body k = JUndefined.
Proof. intros E. unfold field. by rewrite E. Qed.

(** The store a handler leaves is the store its statement leaves. *)
Lemma fst_run {A} (x : database * (db_error + A)) (k1 : db_error -> outcome)
    (k2 : A -> outcome) :
  (match x with
   | (d', inl e) => (d', k1 e)
   | (d', inr a) => (d', k2 a)
   end).1 = x.1.
Proof. by destruct x as [? [?|?]]. Qed.


(** ** Update by id *)

(** C10. An update by id of an idea, a note, a deadline, a career goal or a
    future-work item changes no other table and adds or removes no row;
    every row keeps its id, its user_email and its created_date, and a row
    with another id is left as it was.  It holds whether or not the engine
    reports an error. *)
Theorem update_keeps_owner_and_creation fault id body (d : database) :
  frame_update Ideas id d (put_ideas fault id body d).1 /\
  frame_update Notes id d (put_notes fault id body d).1 /\
  frame_update Deadlines id d (put_deadlines fault id body d).1 /\
  frame_update CareerGoals id d (put_career_goals fault id body d).1 /\
  frame_update FutureWork id d (put_future_work fault id body d).1.
Proof.
  unfold put_ideas, put_notes, put_deadlines, put_career_goals, put_future_work.
  cbv zeta. rewrite !fst_run.
  repeat split; apply db_update_frame; string_list_goal.
Qed.

Lemma writes_absent t sets id (d : database) (body : object) k c :
  NoDup sets.*1 -> body !! k = None -> (c, field body k) ∈ sets ->
  writes t id d (db_update None t sets (where_eq "id" (SInt id)) d).1 c SNull.
Proof.
  intros Hnd Habs Hin. rewrite <- (stored_undefined t c).
  rewrite <- (field_absent body k Habs). by apply db_update_writes.
Qed.

(** C9, as the code has it.  An update by id writes NULL to every column of
    its SET list whose field the body leaves out: so for ideas, notes,
    career goals, future work, deadlines, the legacy calendar events, the
    project description, and the name and colleagues of a project.  Two
    updates do otherwise: PUT /projects/:id writes 0 for a progress left
    out, and PUT /events/:id writes 0 for a flag left out and the time of
    the request to modified_date. *)
Theorem update_writes_null_for_absent now id body (d : database) :
  nulls_absent idea_fields Ideas id body d (put_ideas None id body d).1 /\
  nulls_absent note_fields Notes id body d (put_notes None id body d).1 /\
  nulls_absent career_goal_fields CareerGoals id body d
    (put_career_goals None id body d).1 /\
  nulls_absent future_work_fields FutureWork id body d
    (put_future_work None id body d).1 /\
  nulls_absent deadline_fields Deadlines id body d
    (put_deadlines None id body d).1 /\
  nulls_absent legacy_event_fields CalendarEvents id body d
    (put_calendar_events None id body d).1 /\
  nulls_absent description_fields Projects id body d
    (put_projects_description None id body d).1 /\
  nulls_absent project_fields Projects id body d
    (put_projects None id body d).1 /\
  (body !! "progress" = None ->
   writes Projects id d (put_projects None id body d).1 "progress" (SInt 0)) /\
  nulls_absent event_fields CalendarEvents id body d
    (put_events now None id body d).1 /\
  (forall k c, (k, c) ∈ event_flags -> body !! k = None ->
   writes CalendarEvents id d (put_events now None id body d).1 c (SInt 0)) /\
  writes CalendarEvents id d (put_events now None id body d).1
    "modified_date" (SText now).
Proof.
  unfold put_ideas, put_notes, put_career_goals, put_future_work,
    put_deadlines, put_calendar_events, put_projects_description,
    put_projects, put_events.
  cbv zeta. rewrite !fst_run.
  repeat match goal with |- _ /\ _ => split end.
  1-8, 10:
    (intros k c Hin Habs; each_pair Hin;
     (eapply writes_absent; [string_list_goal | exact Habs | in_list])).
  - intros Habs. rewrite (field_absent body "progress" Habs).
    cbn [is_undefined].
    change (SInt 0) with (stored Projects "progress" (JNum 0)).
    apply (db_update_writes _ _ _ _ "progress" (JNum 0));
      [string_list_goal | in_list].
  - intros k c Hin Habs. each_pair Hin;
      (match goal with
       | |- writes _ _ _ _ ?c _ =>
           change (SInt 0) with (stored CalendarEvents c (flag JUndefined))
       end;
       rewrite <- (field_absent body _ Habs);
       apply db_update_writes; [string_list_goal | in_list]).
  - change (SText now) with (stored CalendarEvents "modified_date" (JStr now)).
    apply (db_update_writes _ _ _ _ "modified_date" (JStr now));
      [string_list_goal | in_list].
Qed.

(** C9 as stated fails: PUT /projects/1 with [{name: "Brochure v2"}] on the
    project stored with progress 50 leaves out [progress], and the row then
    holds 0, not NULL. *)
Lemma put_projects_absent_progress_is_zero :
  rename_only !! "progress" = None /\
  cell_at (db_one_project Projects) 0 "id" = Some (SInt 1) /\
  cell_at (db_one_project Projects) 0 "progress" = Some (SInt 50) /\
  cell_at ((put_projects None 1 rename_only db_one_project).1 Projects) 0
    "progress" = Some (SInt 0) /\
  ~ writes Projects 1 db_one_project
      (put_projects None 1 rename_only db_one_project).1 "progress" SNull.
Proof.
  split; [reflexivity|]. do 3 (split; [by vm_compute|]).
  intros H. specialize (H 0%nat). vm_compute in H.
  discriminate (H eq_refl).
Qed.

(** ** Create *)

Lemma list_to_map_assoc {A} (l : list (string * A)) c :
  (list_to_map l : gmap string A) !! c = assoc c l.
Proof.
  induction l as [|[k v] l IH]; [done|]. simpl.
  destruct (String.eqb_spec k c) as [->|Hne].
  - by rewrite lookup_insert_eq.
  - by rewrite lookup_insert_ne.
Qed.

Lemma new_row_lookup t id cols params c :
  new_row t id cols params !! c
  = if String.eqb "id" c then Some (SInt id)
    else match assoc c (zip cols (zip_with (stored t) cols params)) with
         | Some x => Some x
         | None => assoc c (schema t)
         end.
Proof.
  unfold new_row. destruct (String.eqb_spec "id" c) as [<-|Hne].
  - by rewrite lookup_insert_eq.
  - rewrite lookup_insert_ne by done. rewrite lookup_union, !list_to_map_assoc.
    by destruct (assoc c (zip _ _)), (assoc c (schema t)).
Qed.

Lemma db_insert_plain t cols params (d : database) :
  unique_col t = None ->
  db_insert None t cols params d
  = (set_table t {| rows := rows (d t) ++ [new_row t (next_id (d t)) cols params];
                    seq := next_id (d t) |} d,
     inr (next_id (d t))).
Proof. intros Hu. unfold db_insert, duplicate. by rewrite Hu. Qed.

Lemma literal_prop props k :
  prop (literal props) k
  = assoc k (filter (fun kv => is_undefined kv.2 = false) props).
Proof. apply list_to_map_assoc. Qed.

(** A create on a table with no UNIQUE column goes through. *)
Lemma created_plain t cols params (d : database) c v
    (k1 : db_error -> outcome) (props : list (string * value)) :
  unique_col t = None ->
  assoc c (zip cols (zip_with (stored t) cols params)) = Some (stored t c v) ->
  c <> "id" ->
  created t c (stored t c v) d
    (match db_insert None t cols params d with
     | (d', inl e) => (d', k1 e)
     | (d', inr lastID) => (d', Respond 200 (literal (("id", JNum lastID) :: props)))
     end).
Proof.
  intros Hu Hc Hid. rewrite db_insert_plain by done.
  exists (new_row t (next_id (d t)) cols params). simpl.
  rewrite set_table_same. simpl. split; [done|].
  rewrite !new_row_lookup, Hc. split.
  - destruct (String.eqb_spec "id" c); [congruence|done].
  - split; [reflexivity|]. split; [reflexivity|].
    change (prop (literal (("id", JNum (next_id (d t))) :: props)) "id"
            = Some (JNum (next_id (d t)))).
    rewrite literal_prop, filter_cons_True by done. simpl. done.
Qed.

(** C1, as the code has it.  The create handlers of ideas, notes, career
    goals, future work and deadlines do not look at user_email: with it
    left out, and no error from the engine, each inserts a row whose
    user_email is NULL and answers 200 with the new id.  So do the two
    creates of calendar events, [POST /calendar_events] with user_email
    left out and [POST /events] with userEmail left out.  The owner is
    checked by [POST /projects] (name, owner_email) and by [POST /profile]
    (userEmail): with one of these left out they answer 400 and leave the
    store as it was, whatever the engine does. *)
Theorem create_without_owner now now' fault fault'
    (JSON_stringify : value -> string) (body : object) (d : database) :
  (body !! "user_email" = None ->
   created Ideas "user_email" SNull d (post_ideas now None body d) /\
   created Notes "user_email" SNull d (post_notes now None body d) /\
   created CareerGoals "user_email" SNull d (post_career_goals now None body d) /\
   created FutureWork "user_email" SNull d (post_future_work now None body d) /\
   created Deadlines "user_email" SNull d (post_deadlines now None body d) /\
   created CalendarEvents "user_email" SNull d
     (post_calendar_events now None body d)) /\
  (body !! "userEmail" = None ->
   created CalendarEvents "user_email" SNull d (post_events now None body d)) /\
  (body !! "name" = None \/ body !! "owner_email" = None ->
   post_projects fault body d
   = (d, Respond 400 (error_body "Project name and owner email are required."))) /\
  (body !! "userEmail" = None ->
   post_profile JSON_stringify now now' fault fault' body d
   = (d, Respond 400 (error_body "User email is required."))).
Proof.
  split; [|split; [|split]].
  - intros Habs. pose proof (field_absent body _ Habs) as E.
    repeat match goal with |- _ /\ _ => split end;
      match goal with
      | |- created ?t _ _ _ _ => rewrite <- (stored_undefined t "user_email")
      end;
      rewrite <- E; by apply created_plain.
  - intros Habs. pose proof (field_absent body _ Habs) as E.
    rewrite <- (stored_undefined CalendarEvents "user_email"), <- E.
    unfold post_events. cbv zeta. by apply created_plain.
  - intros [Habs|Habs]; unfold post_projects;
      rewrite (field_absent body _ Habs); simpl; [done|].
    by rewrite orb_true_r.
  - intros Habs. unfold post_profile. by rewrite (field_absent body _ Habs).
Qed.

(** C1 as stated fails: POST /ideas with [{title: "Orphan"}] on the empty
    store is answered 200, not 400, and a row is inserted. *)
Lemma post_ideas_without_owner_is_accepted :
  no_owner !! "user_email" = None /\
  status_of (post_ideas clock0 None no_owner empty_db).2 = Some 200 /\
  status_of (post_ideas clock0 None no_owner empty_db).2 <> Some 400 /\
  length (rows ((post_ideas clock0 None no_owner empty_db).1 Ideas)) = 1%nat /\
  cell_at ((post_ideas clock0 None no_owner empty_db).1 Ideas) 0 "user_email"
  = Some SNull /\
  cell_at ((post_ideas clock0 None no_owner empty_db).1 Ideas) 0 "title"
  = Some (SText "Orphan").
Proof. repeat split; by vm_compute. Qed.

(** C2, at the scenario of the specification: POST /projects with
    [{name: "Brochure", owner_email: "a@x.com"}] on the empty store.  The
    row stored has colleagues "[]" and progress 0, and [GET /projects/a@x.com]
    lists it so; the response to the create carries id 1, the name, the
    owner and progress 0, but no colleagues property. *)
Theorem post_projects_brochure_response :
  let res := post_projects None brochure empty_db in
  status_of res.2 = Some 200 /\
  answer res.2 "id" = Some (JNum 1) /\
  answer res.2 "name" = Some (JStr "Brochure") /\
  answer res.2 "owner_email" = Some (JStr "a@x.com") /\
  answer res.2 "progress" = Some (JNum 0) /\
  answer res.2 "colleagues" = None /\
  cell_at (res.1 Projects) 0 "colleagues" = Some (SText "[]") /\
  cell_at (res.1 Projects) 0 "progress" = Some (SInt 0) /\
  listed (get_projects None "a@x.com" res.1) "colleagues" = [Some (JStr "[]")].
Proof. repeat split; by vm_compute. Qed.

(** ** Profile save *)

Lemma bind_truthy v : truthy v = true -> bindParam v <> SNull.
Proof. destruct v as [| |[]| | | |]; simpl; congruence. Qed.

Lemma stored_truthy t c v : truthy v = true -> stored t c v <> SNull.
Proof. intros Ht. by apply store_as_not_null, bind_truthy. Qed.

Lemma where_eq_self (r : row) c p :
  r !! c = Some p -> p <> SNull -> where_eq c p r = true.
Proof.
  intros E Hp. unfold where_eq. rewrite E. unfold sql_eq.
  destruct p; [done| |]; by apply bool_decide_eq_true.
Qed.

Lemma where_eq_assign t sets c p (r : row) :
  c ∉ sets.*1 -> where_eq c p (assign t sets r) = where_eq c p r.
Proof. intros Hc. unfold where_eq. by rewrite assign_other. Qed.

Lemma existsb_filter_nil (w : row -> bool) (l : list row) :
  filter (fun r => w r = true) l = [] -> existsb w l = false.
Proof.
  induction l as [|r l IH]; [done|]. rewrite filter_cons. simpl.
  destruct (w r) eqn:W.
  - rewrite decide_True by done. discriminate.
  - rewrite decide_False by congruence. auto.
Qed.

(** The rows an UPDATE selects are selected afterwards too when the update
    does not touch what the WHERE clause reads. *)
Lemma filter_update (w : row -> bool) (f : row -> row) (l : list row) :
  (forall r, w (f r) = w r) ->
  filter (fun r => w r = true) ((fun r => if w r then f r else r) <$> l)
  = f <$> filter (fun r => w r = true) l.
Proof.
  intros Hf. induction l as [|r l IH]; [done|].
  rewrite fmap_cons, !filter_cons. destruct (w r) eqn:W.
  - rewrite !decide_True by (by rewrite ?Hf). by rewrite fmap_cons, IH.
  - rewrite !decide_False by congruence. done.
Qed.

(** The update branch of [POST /profile]. *)
Lemma post_profile_update (JSON_stringify : value -> string) now now'
    (body : object) (d : database) r0 l :
  truthy (field body "userEmail") = true ->
  profile_rows (field body "userEmail") d = r0 :: l ->
  exists sets,
    NoDup sets.*1 /\ ("user_email" ∉ sets.*1) /\ ("created_date" ∉ sets.*1) /\
    ("modified_date", JStr now) ∈ sets /\
    post_profile JSON_stringify now now' None None body d
    = ((db_update None Profiles sets
          (where_eq "user_email"
             (stored Profiles "user_email" (field body "userEmail"))) d).1,
       Respond 200
         (literal [("message", JStr "Profile updated successfully");
                   ("updated", JNum (Z.of_nat (length (r0 :: l))))])).
Proof.
  intros Ht Hrows. unfold post_profile. rewrite Ht. cbv zeta.
  unfold db_get. fold (profile_rows (field body "userEmail") d).
  rewrite Hrows. cbn [negb head].
  match goal with
  | |- context [db_update None Profiles ?s ?w d] =>
      exists s;
      assert (Hrun : db_update None Profiles s w d
                     = ((db_update None Profiles s w d).1,
                        inr (Z.of_nat (length (r0 :: l)))))
  end.
  { unfold db_update. cbn [fst].
    fold (profile_rows (field body "userEmail") d). by rewrite Hrows. }
  split; [string_list_goal|]. split; [string_list_goal|].
  split; [string_list_goal|]. split; [in_list|].
  by rewrite Hrun.
Qed.

(** The insert branch of [POST /profile]. *)
Lemma post_profile_insert (JSON_stringify : value -> string) now now'
    (body : object) (d : database) :
  truthy (field body "userEmail") = true ->
  profile_rows (field body "userEmail") d = [] ->
  exists r : row,
    r !! "user_email" = Some (stored Profiles "user_email" (field body "userEmail")) /\
    (post_profile JSON_stringify now now' None None body d).1 Profiles
    = {| rows := rows (d Profiles) ++ [r]; seq := next_id (d Profiles) |}.
Proof.
  intros Ht Hrows. unfold post_profile. rewrite Ht. cbv zeta.
  unfold db_get. fold (profile_rows (field body "userEmail") d).
  rewrite Hrows. cbn [negb head].
  unfold db_insert, duplicate. cbn [unique_col].
  match goal with
  | |- context [new_row Profiles ?i ?cs ?ps] => set (r := new_row Profiles i cs ps)
  end.
  assert (Hr : r !! "user_email"
               = Some (stored Profiles "user_email" (field body "userEmail"))).
  { subst r. by rewrite new_row_lookup. }
  assert (Hcell : cell r "user_email"
                  = stored Profiles "user_email" (field body "userEmail")).
  { unfold cell. by rewrite Hr. }
  rewrite Hcell, (existsb_filter_nil _ _ Hrows).
  exists r. split; [done|]. cbn [fst]. by rewrite set_table_same.
Qed.

(** After one save the owner has one profile. *)
Lemma post_profile_one_row (JSON_stringify : value -> string) now now'
    (body : object) (d : database) :
  truthy (field body "userEmail") = true ->
  (length (profile_rows (field body "userEmail") d) <= 1)%nat ->
  exists r : row,
    profile_rows (field body "userEmail")
      (post_profile JSON_stringify now now' None None body d).1 = [r].
Proof.
  intros Ht Hlen.
  destruct (profile_rows (field body "userEmail") d) as [|r0 l] eqn:Hrows.
  - destruct (post_profile_insert JSON_stringify now now' body d Ht Hrows)
      as (r & Hr & Hd).
    exists r. unfold profile_rows in *. rewrite Hd. simpl.
    rewrite filter_app, Hrows. simpl.
    rewrite filter_cons_True; [done|].
    apply where_eq_self; [done|by apply stored_truthy].
  - destruct l; [|simpl in Hlen; lia].
    destruct (post_profile_update JSON_stringify now now' body d r0 [] Ht Hrows)
      as (sets & Hnd & Hu & Hc & Hm & E).
    rewrite E. eexists. unfold profile_rows in *. cbn [fst].
    rewrite db_update_rows.
    rewrite filter_update by (intros; by apply where_eq_assign).
    by rewrite Hrows.
Qed.

Lemma where_eq_true (r : row) c p : where_eq c p r = true -> r !! c = Some p.
Proof.
  unfold where_eq, sql_eq. destruct (r !! c) as [[]|]; try done;
    by intros ->%bool_decide_eq_true.
Qed.

Lemma post_profile_fault_get (JSON_stringify : value -> string) now now' e fr
    (body : object) (d : database) :
  (post_profile JSON_stringify now now' (Some e) fr body d).1 = d.
Proof. unfold post_profile. by destruct (truthy (field body "userEmail")). Qed.

Lemma post_profile_fault_run (JSON_stringify : value -> string) now now' fg e
    (body : object) (d : database) :
  (post_profile JSON_stringify now now' fg (Some e) body d).1 = d.
Proof.
  unfold post_profile. destruct (truthy (field body "userEmail")); [|done].
  cbn [negb]. destruct (db_get fg Profiles _ d) as [?|[?|]]; done.
Qed.

(** The store keeps the UNIQUE constraint through a profile save, so the
    bound on the owner's rows that C3 assumes holds in every store reached
    from the empty one. *)
Lemma post_profile_keeps_unique (JSON_stringify : value -> string) now now'
    fg fr (body : object) (d : database) :
  unique_owner d ->
  unique_owner (post_profile JSON_stringify now now' fg fr body d).1.
Proof.
  intros Hu. destruct fg as [e|]; [by rewrite post_profile_fault_get|].
  destruct fr as [e|]; [by rewrite post_profile_fault_run|].
  destruct (truthy (field body "userEmail")) eqn:Ht;
    [|unfold post_profile; by rewrite Ht].
  destruct (profile_rows (field body "userEmail") d) as [|r0 l] eqn:Hrows.
  - destruct (post_profile_insert JSON_stringify now now' body d Ht Hrows)
      as (r & Hr & Hd).
    intros p Hp. rewrite Hd. simpl. rewrite filter_app, length_app.
    destruct (where_eq "user_email" p r) eqn:W.
    + apply where_eq_true in W.
      assert (p = stored Profiles "user_email" (field body "userEmail"))
        as -> by congruence.
      unfold profile_rows in Hrows. rewrite Hrows.
      rewrite filter_cons_True by (by apply where_eq_self). done.
    + rewrite filter_cons_False by congruence. simpl.
      specialize (Hu p Hp). lia.
  - destruct (post_profile_update JSON_stringify now now' body d r0 l Ht Hrows)
      as (sets & Hnd & Hown & Hc & Hm & E).
    rewrite E. intros p Hp. cbn [fst]. rewrite db_update_rows.
    specialize (Hu p Hp).
    set (w := where_eq "user_email"
                (stored Profiles "user_email" (field body "userEmail"))).
    assert (Hmap : forall rs : list row,
      length (filter (fun r : row => where_eq "user_email" p r = true)
                ((fun r => if w r then assign Profiles sets r else r) <$> rs))
      = length (filter (fun r : row => where_eq "user_email" p r = true) rs)).
    { induction rs as [|x rs IH]; [done|]. rewrite fmap_cons, !filter_cons.
      assert (Hx : where_eq "user_email" p (if w x then assign Profiles sets x else x)
                   = where_eq "user_email" p x).
      { destruct (w x); [by apply where_eq_assign|done]. }
      rewrite Hx. destruct (decide _); simpl; by rewrite IH. }
    by rewrite Hmap.
Qed.

Lemma empty_db_unique : unique_owner empty_db.
Proof. intros p _. simpl. lia. Qed.

(** The bound C3 assumes, from the constraint. *)
Lemma unique_owner_bound (d : database) v :
  unique_owner d -> truthy v = true ->
  (length (profile_rows v d) <= 1)%nat.
Proof. intros Hu Ht. apply Hu. by apply stored_truthy. Qed.

(** C3. Saving the same profile twice: whatever the store held for the
    owner before (at most one row, the column being UNIQUE), after the
    first save there is one row for the owner and after the second one
    there is still one; the second save answers as an update of one row;
    the row keeps the created_date it had after the first save, and its
    modified_date is the time of the second request. *)
Theorem profile_save_twice (JSON_stringify : value -> string)
    now1 now1' now2 now2' (body : object) (d : database) :
  truthy (field body "userEmail") = true ->
  (length (profile_rows (field body "userEmail") d) <= 1)%nat ->
  let first := post_profile JSON_stringify now1 now1' None None body d in
  let second := post_profile JSON_stringify now2 now2' None None body first.1 in
  exists r1 r2 : row,
    profile_rows (field body "userEmail") first.1 = [r1] /\
    profile_rows (field body "userEmail") second.1 = [r2] /\
    length (rows (second.1 Profiles)) = length (rows (first.1 Profiles)) /\
    second.2 = Respond 200
                 (literal [("message", JStr "Profile updated successfully");
                           ("updated", JNum 1)]) /\
    r2 !! "created_date" = r1 !! "created_date" /\
    r2 !! "modified_date" = Some (SText now2).
Proof.
  intros Ht Hlen first second.
  destruct (post_profile_one_row JSON_stringify now1 now1' body d Ht Hlen)
    as (r1 & Hr1). fold first in Hr1.
  destruct (post_profile_update JSON_stringify now2 now2' body first.1 r1 [] Ht Hr1)
    as (sets & Hnd & Hu & Hc & Hm & E). fold second in E.
  exists r1, (assign Profiles sets r1). split; [done|]. rewrite E. cbn [fst snd].
  split; [|split; [|split; [|split]]].
  - unfold profile_rows in *. rewrite db_update_rows.
    rewrite filter_update by (intros; by apply where_eq_assign).
    by rewrite Hr1.
  - by rewrite db_update_length.
  - done.
  - by apply assign_other.
  - by apply (assign_set Profiles _ _ "modified_date" (JStr now2)).
Qed.

(** ** Calendar events *)

Lemma insert_row_perm keys (r : row) (l : list row) :
  insert_row keys r l ≡ₚ r :: l.
Proof.
  induction l as [|r' l IH]; [done|]. simpl.
  destruct (order_leb keys r r'); [done|].
  by rewrite IH, Permutation_swap.
Qed.

Lemma order_by_perm keys (l : list row) : order_by keys l ≡ₚ l.
Proof.
  induction l as [|r l IH]; [done|]. unfold order_by in *. simpl.
  by rewrite insert_row_perm, IH.
Qed.

Lemma order_by_elem keys (l : list row) (r : row) : r ∈ order_by keys l <-> r ∈ l.
Proof. by rewrite order_by_perm. Qed.

Lemma rowid_le_max (l : list row) (r : row) : r ∈ l -> rowid r <= max_rowid l.
Proof.
  induction l as [|x l IH]; intros Hin.
  - by apply elem_of_nil in Hin.
  - apply elem_of_cons in Hin as [->|Hin]; simpl; [lia|].
    specialize (IH Hin). lia.
Qed.

(** AUTOINCREMENT hands out an id that no row of the table has. *)
Lemma next_id_fresh (tb : table) (r : row) :
  r ∈ rows tb -> r !! "id" <> Some (SInt (next_id tb)).
Proof.
  intros Hin E. pose proof (rowid_le_max _ _ Hin) as Hle.
  unfold rowid in Hle. rewrite E in Hle. unfold next_id in Hle. lia.
Qed.

Lemma select_lookup cols (r : row) c :
  select cols r !! c = assoc c ((fun ca => (ca.2, cell r ca.1)) <$> cols).
Proof. apply list_to_map_assoc. Qed.

Lemma event_json_id (r : row) :
  prop (event_json (select event_columns r)) "id" = Some (of_sql (cell r "id")).
Proof.
  unfold event_json, prop. rewrite !lookup_insert_ne by done.
  by rewrite lookup_fmap, select_lookup.
Qed.

Lemma event_json_flags (r : row) :
  prop (event_json (select event_columns r)) "isAllDay"
  = Some (Boolean (of_sql (cell r "is_all_day"))) /\
  prop (event_json (select event_columns r)) "isOnline"
  = Some (Boolean (of_sql (cell r "is_online"))) /\
  prop (event_json (select event_columns r)) "repeatWeekly"
  = Some (Boolean (of_sql (cell r "repeat_weekly"))).
Proof.
  unfold event_json, prop, col. split; [|split].
  - rewrite !lookup_insert_ne by done. rewrite lookup_insert_eq.
    by rewrite select_lookup.
  - rewrite lookup_insert_ne by done. rewrite lookup_insert_eq.
    by rewrite select_lookup.
  - rewrite lookup_insert_eq. by rewrite select_lookup.
Qed.

(** What [GET /events/:email] lists: the events of the rows of the owner. *)
Lemma get_events_elem email (d : database) evs ev :
  get_events None email d = Respond 200 (JArr evs) ->
  ev ∈ evs <->
  exists r : row, r ∈ rows (d CalendarEvents) /\
    where_eq "user_email" (SText email) r = true /\
    ev = event_json (select event_columns r).
Proof.
  unfold get_events, db_all. intros [= <-].
  rewrite <- list_fmap_compose, list_elem_of_fmap. split.
  - intros (r & -> & Hr). apply order_by_elem, list_elem_of_filter in Hr as [Hw Hr].
    by exists r.
  - intros (r & Hr & Hw & ->). exists r. split; [done|].
    by apply order_by_elem, list_elem_of_filter.
Qed.

Lemma bit_reads_back v : Boolean (of_sql (bit v)) = JBool (truthy v).
Proof. unfold bit. by destruct (truthy v). Qed.

(** The row [POST /events] stores. *)
Lemma post_events_row now (body : object) (d : database) :
  exists r : row,
    (post_events now None body d).1 CalendarEvents
    = {| rows := rows (d CalendarEvents) ++ [r];
         seq := next_id (d CalendarEvents) |} /\
    answer (post_events now None body d).2 "id"
    = Some (JNum (next_id (d CalendarEvents))) /\
    status_of (post_events now None body d).2 = Some 200 /\
    r !! "id" = Some (SInt (next_id (d CalendarEvents))) /\
    r !! "user_email"
    = Some (stored CalendarEvents "user_email" (field body "userEmail")) /\
    r !! "is_all_day" = Some (bit (field body "isAllDay")) /\
    r !! "is_online" = Some (bit (field body "isOnline")) /\
    r !! "repeat_weekly" = Some (bit (field body "repeatWeekly")).
Proof.
  unfold post_events. cbv zeta. rewrite db_insert_plain by done.
  eexists. cbn [fst snd]. rewrite set_table_same.
  split; [reflexivity|]. split.
  { unfold answer. cbn [body_of mbind option_bind].
    rewrite literal_prop, filter_cons_True by done. done. }
  split; [done|]. rewrite !new_row_lookup.
  repeat match goal with |- _ /\ _ => split end; reflexivity.
Qed.

(** C4. An event created through [POST /events] for owner [e] is listed by
    [GET /events/e], and there each of its three flags is the boolean that
    the supplied value stands for: [true] reads back as [true], [false] as
    [false], never as 1 or 0. *)
Theorem event_flags_round_trip now (body : object) (d : database) e :
  field body "userEmail" = JStr e ->
  let made := post_events now None body d in
  exists (id : Z) (evs : list value),
    status_of made.2 = Some 200 /\
    answer made.2 "id" = Some (JNum id) /\
    get_events None e made.1 = Respond 200 (JArr evs) /\
    (exists ev, ev ∈ evs /\ prop ev "id" = Some (JNum id)) /\
    forall ev, ev ∈ evs -> prop ev "id" = Some (JNum id) ->
      prop ev "isAllDay" = Some (JBool (truthy (field body "isAllDay"))) /\
      prop ev "isOnline" = Some (JBool (truthy (field body "isOnline"))) /\
      prop ev "repeatWeekly" = Some (JBool (truthy (field body "repeatWeekly"))).
Proof.
  intros He made.
  destruct (post_events_row now body d)
    as (r & Hd & Hans & Hst & Hid & Hown & Hall & Hon & Hrep).
  fold made in Hd, Hans, Hst. rewrite He in Hown. simpl in Hown.
  assert (Hflags : forall r0 : row, r0 = r ->
    prop (event_json (select event_columns r0)) "isAllDay"
    = Some (JBool (truthy (field body "isAllDay"))) /\
    prop (event_json (select event_columns r0)) "isOnline"
    = Some (JBool (truthy (field body "isOnline"))) /\
    prop (event_json (select event_columns r0)) "repeatWeekly"
    = Some (JBool (truthy (field body "repeatWeekly")))).
  { intros r0 ->. destruct (event_json_flags r) as (H1 & H2 & H3).
    rewrite H1, H2, H3.
    rewrite (cell_lookup _ _ _ Hall), (cell_lookup _ _ _ Hon),
      (cell_lookup _ _ _ Hrep).
    by rewrite !bit_reads_back. }
  destruct (get_events None e made.1) as [s b|] eqn:Hget; [|discriminate].
  assert (s = 200 /\ exists evs, b = JArr evs) as (-> & evs & ->).
  { unfold get_events, db_all in Hget. injection Hget as <- <-. eauto. }
  exists (next_id (d CalendarEvents)), evs.
  split; [done|]. split; [done|]. split; [done|]. split.
  - exists (event_json (select event_columns r)). split.
    + apply (get_events_elem _ _ _ _ Hget). exists r. rewrite Hd. simpl.
      split; [apply elem_of_app; right; apply list_elem_of_here|].
      split; [by apply where_eq_self|done].
    + by rewrite event_json_id, (cell_lookup _ _ _ Hid).
  - intros ev Hev Hevid.
    apply (get_events_elem _ _ _ _ Hget) in Hev as (r0 & Hr0 & _ & ->).
    apply Hflags. rewrite event_json_id in Hevid.
    assert (Hid0 : r0 !! "id" = Some (SInt (next_id (d CalendarEvents)))).
    { unfold cell in Hevid. destruct (r0 !! "id") as [[]|]; simpl in Hevid;
        congruence. }
    rewrite Hd in Hr0. simpl in Hr0. apply elem_of_app in Hr0 as [Hold|Hnew].
    + by destruct (next_id_fresh _ _ Hold).
    + by apply list_elem_of_singleton in Hnew.
Qed.


Lemma row_json_prop (r : row) k : prop (row_json r) k = of_sql <$> r !! k.
Proof. unfold row_json, prop. by rewrite lookup_fmap. Qed.



(** ** Profile read *)

Lemma parse_list_error (JSON_parse : value -> option value) (r : row) c e :
  parse_list JSON_parse r c = inl e -> e = SyntaxError.
Proof.
  unfold parse_list. destruct (truthy (col r c)); [|discriminate].
  destruct (JSON_parse (col r c)); [discriminate|]. by intros [= <-].
Qed.

Lemma parse_list_fails (JSON_parse : value -> option value) (r : row) c s :
  r !! c = Some (SText s) -> s <> "" -> JSON_parse (JStr s) = None ->
  parse_list JSON_parse r c = inl SyntaxError.
Proof.
  intros Hc Hs Hp. unfold parse_list, col. rewrite Hc. simpl.
  destruct (String.eqb_spec s ""); [done|]. simpl. by rewrite Hp.
Qed.

(** C6. Whenever the profile row that [GET /profile/:email] finds holds, in
    one of its five list columns, a non-empty text that [JSON.parse]
    rejects, the handler ends in the SyntaxError of [JSON.parse]: nothing
    catches it and no response is sent. *)
Theorem get_profile_unguarded_parse (JSON_parse : value -> option value)
    email (d : database) (r : row) c s :
  head (profile_rows (JStr email) d) = Some r ->
  c ∈ ["degrees"; "employment"; "courses"; "grants"; "awards"] ->
  r !! c = Some (SText s) -> s <> "" -> JSON_parse (JStr s) = None ->
  get_profile JSON_parse None email d = Uncaught SyntaxError /\
  status_of (get_profile JSON_parse None email d) = None.
Proof.
  intros Hrow Hc Hcell Hs Hp.
  pose proof (parse_list_fails JSON_parse r c s Hcell Hs Hp) as Hfail.
  assert (E : get_profile JSON_parse None email d = Uncaught SyntaxError);
    [|by rewrite E].
  unfold get_profile, db_get.
  change (bindParam (JStr email)) with (stored Profiles "user_email" (JStr email)).
  fold (profile_rows (JStr email) d). rewrite Hrow.
  destruct (parse_list JSON_parse r "degrees") as [e1|?] eqn:E1;
    [by rewrite (parse_list_error _ _ _ _ E1)|].
  destruct (parse_list JSON_parse r "employment") as [e2|?] eqn:E2;
    [by rewrite (parse_list_error _ _ _ _ E2)|].
  destruct (parse_list JSON_parse r "courses") as [e3|?] eqn:E3;
    [by rewrite (parse_list_error _ _ _ _ E3)|].
  destruct (parse_list JSON_parse r "grants") as [e4|?] eqn:E4;
    [by rewrite (parse_list_error _ _ _ _ E4)|].
  destruct (parse_list JSON_parse r "awards") as [e5|?] eqn:E5;
    [by rewrite (parse_list_error _ _ _ _ E5)|].
  exfalso.
  repeat (apply elem_of_cons in Hc as [->|Hc]; [congruence|]).
  by apply elem_of_nil in Hc.
Qed.

(** ** Accounts *)

(** Where the two failures of a login are told apart by nobody: when
    [bcrypt.compare] answers, and answers false, the login with an email
    that no account has and the login with the wrong password get the same
    response, 400 with the message "Invalid credentials.". *)
Lemma login_failures_are_identical (toLowerCase trim : string -> string)
    (bcrypt_compare : value -> value -> option bool)
    (unknown wrong : object) (d : database) e1 e2 (r : row) :
  field unknown "email" = JStr e1 -> truthy (field unknown "email") = true ->
  truthy (field unknown "password") = true ->
  field wrong "email" = JStr e2 -> truthy (field wrong "email") = true ->
  truthy (field wrong "password") = true ->
  account d (trim (toLowerCase e1)) = None ->
  account d (trim (toLowerCase e2)) = Some r ->
  bcrypt_compare (field wrong "password") (col r "password") = Some false ->
  login toLowerCase trim bcrypt_compare None unknown d
  = login toLowerCase trim bcrypt_compare None wrong d /\
  login toLowerCase trim bcrypt_compare None unknown d
  = Respond 400 (literal [("success", JBool false);
                          ("message", JStr "Invalid credentials.")]).
Proof.
  intros He1 Ht1 Hp1 He2 Ht2 Hp2 Hnone Hsome Hcmp.
  assert (H1 : login toLowerCase trim bcrypt_compare None unknown d
               = Respond 400 (failure "Invalid credentials.")).
  { unfold login. rewrite Ht1, Hp1, He1. cbn [negb orb lower_trim].
    unfold db_get. cbn [bindParam]. fold (account d (trim (toLowerCase e1))).
    by rewrite Hnone. }
  assert (H2 : login toLowerCase trim bcrypt_compare None wrong d
               = Respond 400 (failure "Invalid credentials.")).
  { unfold login. rewrite Ht2, Hp2, He2. cbn [negb orb lower_trim].
    unfold db_get. cbn [bindParam]. fold (account d (trim (toLowerCase e2))).
    by rewrite Hsome, Hcmp. }
  by rewrite H1, H2.
Qed.

(** C7.  The two failures of a login are told apart when [bcrypt.compare]
    rejects the password instead of answering, as it does for a password
    that is not a string (the number 12345678): the engine reporting no
    error, the login with an email that no account has is answered 400
    "Invalid credentials.", because the handler never gets to the
    comparison, and the login with the email of an account is answered 500
    "Login failed.", from the [catch] around the comparison.  The two
    responses differ in status and in message, so they show whether the
    email is registered. *)
Theorem login_rejected_compare_tells_accounts (toLowerCase trim : string -> string)
    (bcrypt_compare : value -> value -> option bool)
    (unknown registered : object) (d : database) e1 e2 (r : row) :
  field unknown "email" = JStr e1 -> truthy (field unknown "email") = true ->
  truthy (field unknown "password") = true ->
  field registered "email" = JStr e2 -> truthy (field registered "email") = true ->
  field registered "password" = field unknown "password" ->
  account d (trim (toLowerCase e1)) = None ->
  account d (trim (toLowerCase e2)) = Some r ->
  bcrypt_compare (field registered "password") (col r "password") = None ->
  login toLowerCase trim bcrypt_compare None unknown d
  = Respond 400 (failure "Invalid credentials.") /\
  login toLowerCase trim bcrypt_compare None registered d
  = Respond 500 (failure "Login failed.") /\
  status_of (login toLowerCase trim bcrypt_compare None unknown d)
  <> status_of (login toLowerCase trim bcrypt_compare None registered d).
Proof.
  intros He1 Ht1 Hp1 He2 Ht2 Hp2 Hnone Hsome Hcmp.
  assert (H1 : login toLowerCase trim bcrypt_compare None unknown d
               = Respond 400 (failure "Invalid credentials.")).
  { unfold login. rewrite Ht1, Hp1, He1. cbn [negb orb lower_trim].
    unfold db_get. cbn [bindParam]. fold (account d (trim (toLowerCase e1))).
    by rewrite Hnone. }
  assert (H2 : login toLowerCase trim bcrypt_compare None registered d
               = Respond 500 (failure "Login failed.")).
  { unfold login. rewrite Ht2, He2. rewrite Hp2 in Hcmp |- *. rewrite Hp1.
    cbn [negb orb lower_trim].
    unfold db_get. cbn [bindParam]. fold (account d (trim (toLowerCase e2))).
    by rewrite Hsome, Hcmp. }
  by rewrite H1, H2.
Qed.

(** What [POST /signup] does, case by case. *)
Lemma signup_requires_email_and_password (toLowerCase trim : string -> string)
    (js_lt : value -> value -> bool)
    (bcrypt_hash : value -> Z -> string -> option string)
    salt fault (body : object) (d : database) :
  truthy (field body "email") = false \/ truthy (field body "password") = false ->
  signup toLowerCase trim js_lt bcrypt_hash salt fault body d
  = (d, Respond 400 (failure "Email and password are required.")).
Proof.
  intros [H|H]; unfold signup; rewrite H; [done|]. by rewrite orb_true_r.
Qed.

Lemma signup_rejects_short_password (toLowerCase trim : string -> string)
    (js_lt : value -> value -> bool)
    (bcrypt_hash : value -> Z -> string -> option string)
    salt fault (body : object) (d : database) s :
  (forall a b, js_lt (JNum a) (JNum b) = (a <? b)) ->
  truthy (field body "email") = true ->
  field body "password" = JStr s -> s <> "" -> (utf16_length s < 6)%nat ->
  signup toLowerCase trim js_lt bcrypt_hash salt fault body d
  = (d, Respond 400 (failure "Password must be at least 6 characters long.")).
Proof.
  intros Hlt He Hp Hs Hlen. unfold signup. rewrite He, Hp. simpl.
  destruct (String.eqb_spec s ""); [done|]. simpl. rewrite Hlt.
  by rewrite (proj2 (Z.ltb_lt _ _)) by lia.
Qed.

Lemma signup_stores_folded_email (toLowerCase trim : string -> string)
    (js_lt : value -> value -> bool)
    (bcrypt_hash : value -> Z -> string -> option string)
    salt (body : object) (d : database) e h :
  field body "email" = JStr e -> truthy (field body "email") = true ->
  truthy (field body "password") = true ->
  js_lt (length_of (field body "password")) (JNum 6) = false ->
  bcrypt_hash (field body "password") 10 salt = Some h ->
  account d (trim (toLowerCase e)) = None ->
  created Users "email" (SText (trim (toLowerCase e))) d
    (signup toLowerCase trim js_lt bcrypt_hash salt None body d) /\
  created Users "password" (SText h) d
    (signup toLowerCase trim js_lt bcrypt_hash salt None body d) /\
  answer (signup toLowerCase trim js_lt bcrypt_hash salt None body d).2 "email"
  = Some (JStr (trim (toLowerCase e))).
Proof.
  intros He Ht Hp Hlen Hh Hfree. unfold signup.
  rewrite Ht, Hp, Hlen, Hh, He. cbn [negb orb lower_trim].
  set (folded := trim (toLowerCase e)) in *.
  unfold db_insert, duplicate. cbn [unique_col].
  rewrite (cell_lookup _ "email" (SText folded)) by (by rewrite new_row_lookup).
  apply head_None in Hfree. rewrite (existsb_filter_nil _ _ Hfree).
  split; [|split].
  - eexists. cbn [fst snd]. rewrite set_table_same.
    split; [reflexivity|]. rewrite !new_row_lookup. by repeat split.
  - eexists. cbn [fst snd]. rewrite set_table_same.
    split; [reflexivity|]. rewrite !new_row_lookup. by repeat split.
  - done.
Qed.

(** A request that passes the two checks: an email and a password that are
    strings, the email not empty, the password of six UTF-16 units or more. *)
Lemma signup_checks_pass (js_lt : value -> value -> bool) (body : object) e p :
  (forall a b, js_lt (JNum a) (JNum b) = (a <? b)) ->
  field body "email" = JStr e -> e <> "" ->
  field body "password" = JStr p -> (6 <= utf16_length p)%nat ->
  truthy (field body "email") = true /\ truthy (field body "password") = true /\
  js_lt (length_of (field body "password")) (JNum 6) = false.
Proof.
  intros Hlt He Hne Hp Hlen. rewrite He, Hp. simpl.
  destruct (String.eqb_spec e ""); [done|].
  destruct (String.eqb_spec p "") as [->|_]; [simpl in Hlen; lia|].
  rewrite Hlt. repeat split. apply Z.ltb_ge. lia.
Qed.

(** The insert of a signup is refused when an account has the folded
    email. *)
Lemma signup_refuses_duplicate (toLowerCase trim : string -> string)
    (js_lt : value -> value -> bool)
    (bcrypt_hash : value -> Z -> string -> option string)
    salt (body : object) (d : database) e h (r : row) :
  field body "email" = JStr e -> truthy (field body "email") = true ->
  truthy (field body "password") = true ->
  js_lt (length_of (field body "password")) (JNum 6) = false ->
  bcrypt_hash (field body "password") 10 salt = Some h ->
  account d (trim (toLowerCase e)) = Some r ->
  signup toLowerCase trim js_lt bcrypt_hash salt None body d
  = (d, Respond 400 (failure "User already exists.")).
Proof.
  intros He Ht Hp Hlen Hh Hacc.
  assert (Hdup : existsb (where_eq "email" (SText (trim (toLowerCase e))))
                   (rows (d Users)) = true).
  { apply head_Some in Hacc as (l & Hl). apply existsb_exists. exists r.
    assert (Hin : r ∈ filter (fun r0 : row =>
                     where_eq "email" (SText (trim (toLowerCase e))) r0 = true)
                    (rows (d Users))) by (rewrite Hl; apply list_elem_of_here).
    apply list_elem_of_filter in Hin as [W Hin]. by apply list_elem_of_In in Hin. }
  unfold signup. rewrite Ht, Hp, Hlen, Hh, He. cbn [negb orb lower_trim].
  unfold db_insert, duplicate. cbn [unique_col].
  rewrite (cell_lookup _ "email" (SText (trim (toLowerCase e))))
    by (by rewrite new_row_lookup).
  by rewrite Hdup.
Qed.

(** C8. [POST /register] and [POST /signup] are the same function of the
    request body, the salt drawn, the engine's fault and the store, and
    this is what both do.  Without an email or a password: 400 "Email and
    password are required.".  With a password shorter than six: 400
    "Password must be at least 6 characters long.".  For a request that
    passes both checks: when hashing the password (ten rounds) fails, 500;
    when the engine fails, 400 "User already exists." if the error is a
    violation of UNIQUE and 500 otherwise; when an account has the email
    folded to lower case and trimmed, 400 "User already exists."; and
    otherwise one row is inserted that holds the folded email and the hash,
    and the answer is 200 with the new id and the folded email.  Only the
    last case changes the store.  That [<] on two numbers is [<] is the
    assumption on the language. *)
Theorem register_signup_identical (toLowerCase trim : string -> string)
    (js_lt : value -> value -> bool)
    (bcrypt_hash : value -> Z -> string -> option string)
    salt fault (body : object) (d : database) :
  (forall a b, js_lt (JNum a) (JNum b) = (a <? b)) ->
  let run := signup toLowerCase trim js_lt bcrypt_hash salt fault body d in
  register toLowerCase trim js_lt bcrypt_hash salt fault body d = run /\
  (truthy (field body "email") = false \/ truthy (field body "password") = false ->
   run = (d, Respond 400 (failure "Email and password are required."))) /\
  (forall p, truthy (field body "email") = true ->
     field body "password" = JStr p -> p <> "" -> (utf16_length p < 6)%nat ->
     run = (d, Respond 400
                 (failure "Password must be at least 6 characters long."))) /\
  (forall e p, field body "email" = JStr e -> e <> "" ->
     field body "password" = JStr p -> (6 <= utf16_length p)%nat ->
     (bcrypt_hash (JStr p) 10 salt = None ->
      run = (d, Respond 500 (failure "Server error during signup."))) /\
     (forall h err, bcrypt_hash (JStr p) 10 salt = Some h -> fault = Some err ->
        run = (d, if is_unique_violation err
                  then Respond 400 (failure "User already exists.")
                  else Respond 500 (failure "Failed to create user."))) /\
     (forall h r, bcrypt_hash (JStr p) 10 salt = Some h -> fault = None ->
        account d (trim (toLowerCase e)) = Some r ->
        run = (d, Respond 400 (failure "User already exists."))) /\
     (forall h, bcrypt_hash (JStr p) 10 salt = Some h -> fault = None ->
        account d (trim (toLowerCase e)) = None ->
        created Users "email" (SText (trim (toLowerCase e))) d run /\
        created Users "password" (SText h) d run /\
        run.2 = Respond 200
                  (literal [("success", JBool true);
                            ("id", JNum (next_id (d Users)));
                            ("email", JStr (trim (toLowerCase e)));
                            ("message", JStr "Account created successfully!")]))).
Proof.
  intros Hlt run. split; [reflexivity|]. split; [|split].
  - apply signup_requires_email_and_password.
  - intros p He Hp Hne Hlen. by eapply signup_rejects_short_password.
  - intros e p He Hne Hp Hlen.
    destruct (signup_checks_pass js_lt body e p Hlt He Hne Hp Hlen)
      as (Ht & Htp & Hlong).
    split; [|split; [|split]].
    + intros Hh. subst run. unfold signup. by rewrite Ht, Htp, Hlong, Hp, Hh.
    + intros h err Hh ->. subst run. unfold signup.
      rewrite Ht, Htp, Hlong, Hp, Hh, He. cbn [negb orb lower_trim db_insert].
      by destruct (is_unique_violation err).
    + intros h r Hh -> Hacc. subst run. rewrite <- Hp in Hh.
      by eapply signup_refuses_duplicate.
    + intros h Hh -> Hfree. subst run. rewrite <- Hp in Hh.
      destruct (signup_stores_folded_email toLowerCase trim js_lt bcrypt_hash
                  salt body d e h He Ht Htp Hlong Hh Hfree) as (Hem & Hpw & _).
      split; [exact Hem|]. split; [exact Hpw|].
      unfold signup. rewrite Ht, Htp, Hlong, Hh, He. cbn [negb orb lower_trim].
      unfold db_insert, duplicate. cbn [unique_col].
      rewrite (cell_lookup _ "email" (SText (trim (toLowerCase e))))
        by (by rewrite new_row_lookup).
      apply head_None in Hfree. by rewrite (existsb_filter_nil _ _ Hfree).
Qed.

(** ** The theorems at work on the sample requests *)

Lemma profile_save_twice_witness :
  let first := post_profile print_empty_list clock0 clock0 None None ada_profile empty_db in
  let second := post_profile print_empty_list clock1 clock1 None None ada_profile first.1 in
  exists r1 r2 : row,
    profile_rows (field ada_profile "userEmail") first.1 = [r1] /\
    profile_rows (field ada_profile "userEmail") second.1 = [r2] /\
    length (rows (second.1 Profiles)) = length (rows (first.1 Profiles)) /\
    second.2 = Respond 200
                 (literal [("message", JStr "Profile updated successfully");
                           ("updated", JNum 1)]) /\
    r2 !! "created_date" = r1 !! "created_date" /\
    r2 !! "modified_date" = Some (SText clock1).
Proof.
  apply (profile_save_twice print_empty_list clock0 clock0 clock1 clock1
           ada_profile empty_db).
  - reflexivity.
  - vm_compute. lia.
Defined.

Lemma event_flags_round_trip_witness :
  let made := post_events clock0 None weekly_event empty_db in
  exists (id : Z) (evs : list value),
    status_of made.2 = Some 200 /\
    answer made.2 "id" = Some (JNum id) /\
    get_events None "a@x.com" made.1 = Respond 200 (JArr evs) /\
    (exists ev, ev ∈ evs /\ prop ev "id" = Some (JNum id)) /\
    forall ev, ev ∈ evs -> prop ev "id" = Some (JNum id) ->
      prop ev "isAllDay" = Some (JBool true) /\
      prop ev "isOnline" = Some (JBool false) /\
      prop ev "repeatWeekly" = Some (JBool true).
Proof.
  apply (event_flags_round_trip clock0 weekly_event empty_db "a@x.com").
  reflexivity.
Defined.

Lemma get_profile_unguarded_parse_witness :
  get_profile parse_empty_list None "ada@x.com" db_bad_degrees = Uncaught SyntaxError /\
  status_of (get_profile parse_empty_list None "ada@x.com" db_bad_degrees) = None.
Proof.
  apply (get_profile_unguarded_parse parse_empty_list "ada@x.com" db_bad_degrees
           bad_degrees_row "degrees" "{not json").
  - reflexivity.
  - apply list_elem_of_here.
  - reflexivity.
  - discriminate.
  - reflexivity.
Defined.

Lemma login_failures_are_identical_at_ada :
  login lower_ascii trim_spaces tag_compare None bob_login db_ada
  = login lower_ascii trim_spaces tag_compare None ada_wrong_password db_ada /\
  login lower_ascii trim_spaces tag_compare None bob_login db_ada
  = Respond 400 (literal [("success", JBool false);
                          ("message", JStr "Invalid credentials.")]).
Proof.
  apply (login_failures_are_identical lower_ascii trim_spaces tag_compare
           bob_login ada_wrong_password db_ada "bob@x.com" "ada@x.com" ada_account).
  - reflexivity.
  - reflexivity.
  - reflexivity.
  - reflexivity.
  - reflexivity.
  - reflexivity.
  - reflexivity.
  - reflexivity.
  - reflexivity.
Defined.

Lemma create_without_owner_witness :
  created Ideas "user_email" SNull empty_db (post_ideas clock0 None no_owner empty_db) /\
  created Deadlines "user_email" SNull empty_db
    (post_deadlines clock0 None no_owner empty_db) /\
  post_projects None no_owner empty_db
  = (empty_db, Respond 400 (error_body "Project name and owner email are required.")).
Proof.
  destruct (create_without_owner clock0 clock0 None None print_empty_list
              no_owner empty_db) as (Hfive & _ & Hproject & _).
  destruct (Hfive eq_refl) as (Hidea & _ & _ & _ & Hdeadline & _).
  split; [exact Hidea|]. split; [exact Hdeadline|].
  apply Hproject. left. reflexivity.
Defined.

Lemma update_writes_null_for_absent_witness :
  cell_at ((put_projects None 1 rename_only db_one_project).1 Projects) 0 "colleagues"
  = Some SNull /\
  cell_at ((put_projects None 1 rename_only db_one_project).1 Projects) 0 "progress"
  = Some (SInt 0).
Proof.
  destruct (update_writes_null_for_absent clock1 1 rename_only db_one_project)
    as (_ & _ & _ & _ & _ & _ & _ & Hproject & Hprogress & _).
  split.
  - apply (Hproject "colleagues" "colleagues").
    + apply list_elem_of_further, list_elem_of_here.
    + reflexivity.
    + reflexivity.
  - apply Hprogress; reflexivity.
Defined.


Lemma login_rejected_compare_witness :
  login lower_ascii trim_spaces tag_compare None bob_login_number db_ada
  = Respond 400 (failure "Invalid credentials.") /\
  login lower_ascii trim_spaces tag_compare None ada_login_number db_ada
  = Respond 500 (failure "Login failed.") /\
  status_of (login lower_ascii trim_spaces tag_compare None bob_login_number db_ada)
  <> status_of (login lower_ascii trim_spaces tag_compare None ada_login_number
                  db_ada).
Proof.
  apply (login_rejected_compare_tells_accounts lower_ascii trim_spaces tag_compare
           bob_login_number ada_login_number db_ada "bob@x.com" "ada@x.com"
           ada_account).
  - reflexivity.
  - reflexivity.
  - reflexivity.
  - reflexivity.
  - reflexivity.
  - reflexivity.
  - reflexivity.
  - reflexivity.
  - reflexivity.
Defined.

Lemma register_signup_identical_witness :
  register lower_ascii trim_spaces lt_numbers tag_hash "salt" None ada_signup empty_db
  = signup lower_ascii trim_spaces lt_numbers tag_hash "salt" None ada_signup empty_db /\
  created Users "email" (SText (trim_spaces (lower_ascii " Ada@X.com"))) empty_db
    (signup lower_ascii trim_spaces lt_numbers tag_hash "salt" None ada_signup
       empty_db) /\
  signup lower_ascii trim_spaces lt_numbers tag_hash "salt" None short_password
    empty_db
  = (empty_db,
     Respond 400 (failure "Password must be at least 6 characters long.")).
Proof.
  destruct (register_signup_identical lower_ascii trim_spaces lt_numbers tag_hash
              "salt" None ada_signup empty_db) as (Hsame & _ & _ & Hvalid).
  { intros a b. reflexivity. }
  destruct (register_signup_identical lower_ascii trim_spaces lt_numbers tag_hash
              "salt" None short_password empty_db) as (_ & _ & Hshort & _).
  { intros a b. reflexivity. }
  split; [exact Hsame|]. split.
  - destruct (Hvalid " Ada@X.com" "lovelace") as (_ & _ & _ & Hinsert).
    + reflexivity.
    + discriminate.
    + reflexivity.
    + vm_compute. lia.
    + destruct (Hinsert "salt$lovelace") as (Hemail & _).
      * reflexivity.
      * reflexivity.
      * reflexivity.
      * exact Hemail.
  - apply (Hshort four_letters).
    + reflexivity.
    + reflexivity.
    + discriminate.
    + vm_compute. lia.
Defined.

(** ** Delete by id, and ids *)

Lemma snd_run {A} (x : database * (db_error + A)) (k1 : db_error -> outcome)
    (k2 : A -> outcome) :
  (match x with
   | (d', inl e) => (d', k1 e)
   | (d', inr a) => (d', k2 a)
   end).2 = match x.2 with inl e => k1 e | inr a => k2 a end.
Proof. by destruct x as [? [?|?]]. Qed.

Lemma table_eta (tb : table) : {| rows := rows tb; seq := seq tb |} = tb.
Proof. by destruct tb. Qed.

Lemma filter_not_id (l : list row) id :
  filter (fun r : row => where_eq "id" (SInt id) r = false) l
  = filter (fun r : row => r !! "id" <> Some (SInt id)) l.
Proof.
  apply list_filter_iff. intros r. split.
  - intros W E. by rewrite where_eq_id_true in W.
  - apply where_eq_id_false.
Qed.

Lemma filter_length_split (w : row -> bool) (l : list row) :
  (length (filter (fun r => w r = true) l)
   + length (filter (fun r => w r = false) l) = length l)%nat.
Proof.
  induction l as [|r l IH]; [done|]. rewrite !filter_cons.
  destruct (w r); simpl; repeat case_decide; try done; simpl; lia.
Qed.

Lemma db_delete_by_id t id (d : database) (k1 : db_error -> outcome) :
  deleted_by_id t id d
    (match db_delete None t (where_eq "id" (SInt id)) d with
     | (d', inl e) => (d', k1 e)
     | (d', inr changes) => (d', Respond 200 (literal [("deleted", JNum changes)]))
     end).
Proof.
  unfold deleted_by_id, db_delete. cbn [fst snd]. rewrite set_table_same.
  cbn [rows seq]. rewrite <- filter_not_id.
  split; [done|]. split; [done|]. split; [intros; by apply set_table_other|].
  do 5 f_equal.
  pose proof (filter_length_split (where_eq "id" (SInt id)) (rows (d t))). lia.
Qed.

(** X1. Each delete by id removes the rows that have the id and nothing
    else: the other rows of the table stay, in their order; no other table
    changes (deleting a project deletes nothing that refers to it); the id
    sequence is kept; the response counts the rows removed. *)
Theorem delete_removes_only_the_id id (d : database) :
  deleted_by_id Projects id d (delete_projects None id d) /\
  deleted_by_id Ideas id d (delete_ideas None id d) /\
  deleted_by_id Notes id d (delete_notes None id d) /\
  deleted_by_id CareerGoals id d (delete_career_goals None id d) /\
  deleted_by_id FutureWork id d (delete_future_work None id d) /\
  deleted_by_id Deadlines id d (delete_deadlines None id d) /\
  deleted_by_id CalendarEvents id d (delete_events None id d) /\
  deleted_by_id CalendarEvents id d (delete_calendar_events None id d).
Proof.
  unfold delete_projects, delete_ideas, delete_notes, delete_career_goals,
    delete_future_work, delete_deadlines, delete_events, delete_calendar_events.
  repeat match goal with |- _ /\ _ => split end; apply db_delete_by_id.
Qed.

Lemma filter_where_absent t id (d : database) (f : row -> row) :
  absent t id d ->
  filter (fun r : row => where_eq "id" (SInt id) r = true) (rows (d t)) = [] /\
  filter (fun r : row => where_eq "id" (SInt id) r = false) (rows (d t)) = rows (d t) /\
  (fun r : row => if where_eq "id" (SInt id) r then f r else r) <$> rows (d t)
  = rows (d t).
Proof.
  intros Habs. unfold absent in Habs. induction (rows (d t)) as [|r l IH]; [done|].
  assert (W : where_eq "id" (SInt id) r = false).
  { apply where_eq_id_false, Habs, list_elem_of_here. }
  destruct IH as (I1 & I2 & I3).
  { intros r' Hr'. by apply Habs, list_elem_of_further. }
  rewrite !filter_cons, fmap_cons, W, I1, I2, I3.
  rewrite decide_False by done. by rewrite decide_True.
Qed.

Lemma set_table_id t (d : database) tb t' : tb = d t -> set_table t tb d t' = d t'.
Proof. intros ->. unfold set_table. by case_decide; subst. Qed.

Lemma db_update_absent t sets id (d : database) (k1 : db_error -> outcome) :
  absent t id d ->
  no_effect "updated" d
    (match db_update None t sets (where_eq "id" (SInt id)) d with
     | (d', inl e) => (d', k1 e)
     | (d', inr changes) => (d', Respond 200 (literal [("updated", JNum changes)]))
     end).
Proof.
  intros Habs.
  destruct (filter_where_absent t id d (assign t sets) Habs) as (H1 & H2 & H3).
  unfold no_effect, db_update. cbn [fst snd]. rewrite H1, H3. split; [done|].
  intros t'. apply set_table_id. by rewrite table_eta.
Qed.

Lemma db_delete_absent t id (d : database) (k1 : db_error -> outcome) :
  absent t id d ->
  no_effect "deleted" d
    (match db_delete None t (where_eq "id" (SInt id)) d with
     | (d', inl e) => (d', k1 e)
     | (d', inr changes) => (d', Respond 200 (literal [("deleted", JNum changes)]))
     end).
Proof.
  intros Habs. destruct (filter_where_absent t id d (fun r => r) Habs) as (H1 & H2 & H3).
  unfold no_effect, db_delete. cbn [fst snd]. rewrite H1, H2. split; [done|].
  intros t'. apply set_table_id. by rewrite table_eta.
Qed.

(** X2. An update or a delete for an id that no row has is not an error:
    it is answered 200 with the count 0 and leaves every table as it was. *)
Theorem absent_id_is_counted_zero now id (body : object) (d : database) :
  (absent Projects id d ->
   no_effect "updated" d (put_projects None id body d) /\
   no_effect "updated" d (put_projects_description None id body d) /\
   no_effect "deleted" d (delete_projects None id d)) /\
  (absent Ideas id d ->
   no_effect "updated" d (put_ideas None id body d) /\
   no_effect "deleted" d (delete_ideas None id d)) /\
  (absent Notes id d ->
   no_effect "updated" d (put_notes None id body d) /\
   no_effect "deleted" d (delete_notes None id d)) /\
  (absent CareerGoals id d ->
   no_effect "updated" d (put_career_goals None id body d) /\
   no_effect "deleted" d (delete_career_goals None id d)) /\
  (absent FutureWork id d ->
   no_effect "updated" d (put_future_work None id body d) /\
   no_effect "deleted" d (delete_future_work None id d)) /\
  (absent Deadlines id d ->
   no_effect "updated" d (put_deadlines None id body d) /\
   no_effect "deleted" d (delete_deadlines None id d)) /\
  (absent CalendarEvents id d ->
   no_effect "updated" d (put_events now None id body d) /\
   no_effect "updated" d (put_calendar_events None id body d) /\
   no_effect "deleted" d (delete_events None id d) /\
   no_effect "deleted" d (delete_calendar_events None id d)).
Proof.
  unfold put_projects, put_projects_description, put_ideas, put_notes,
    put_career_goals, put_future_work, put_deadlines, put_events,
    put_calendar_events, delete_projects, delete_ideas, delete_notes,
    delete_career_goals, delete_future_work, delete_deadlines, delete_events,
    delete_calendar_events.
  cbv zeta.
  repeat match goal with |- _ /\ _ => split end; intros Habs;
    repeat match goal with |- _ /\ _ => split end;
    first [by apply db_update_absent | by apply db_delete_absent].
Qed.

Lemma answer_id lastID props :
  answer (Respond 200 (literal (("id", JNum lastID) :: props))) "id"
  = Some (JNum lastID).
Proof.
  unfold answer. cbn [body_of mbind option_bind].
  rewrite literal_prop, filter_cons_True by done. simpl. done.
Qed.

Lemma max_rowid_app (l1 l2 : list row) :
  max_rowid (l1 ++ l2) = Z.max (max_rowid l1) (max_rowid l2).
Proof.
  induction l1 as [|r l1 IH]; simpl.
  - assert (0 <= max_rowid l2); [|lia].
    induction l2; simpl; lia.
  - rewrite IH. lia.
Qed.

Lemma max_rowid_filter (P : row -> Prop) `{!forall r, Decision (P r)} (l : list row) :
  0 <= max_rowid (filter P l) <= max_rowid l.
Proof.
  induction l as [|r l IH]; simpl; [lia|]. rewrite filter_cons.
  destruct (decide (P r)); simpl; lia.
Qed.

Lemma undone_plain t cols params (d : database)
    (k1 k2 : db_error -> outcome) (props : list (string * value)) :
  unique_col t = None ->
  undone_by t d
    (fun d0 => match db_insert None t cols params d0 with
               | (d', inl e) => (d', k1 e)
               | (d', inr lastID) =>
                   (d', Respond 200 (literal (("id", JNum lastID) :: props)))
               end)
    (fun id d0 => match db_delete None t (where_eq "id" (SInt id)) d0 with
                  | (d', inl e) => (d', k2 e)
                  | (d', inr changes) =>
                      (d', Respond 200 (literal [("deleted", JNum changes)]))
                  end).
Proof.
  intros Hu. exists (next_id (d t)). unfold undone_by.
  rewrite !db_insert_plain by done. cbn [fst snd].
  set (id := next_id (d t)). set (r := new_row t id cols params).
  assert (Hr : r !! "id" = Some (SInt id)) by (subst r; by rewrite new_row_lookup).
  assert (Hold : forall r0 : row, r0 ∈ rows (d t) -> r0 !! "id" <> Some (SInt id)).
  { intros r0 Hr0. by apply next_id_fresh. }
  destruct (filter_where_absent t id d (fun x => x) Hold) as (F1 & F2 & _).
  unfold db_delete. cbn [fst snd]. rewrite !set_table_same. cbn [rows seq].
  rewrite !filter_app, F1, F2, !filter_cons, !filter_nil.
  rewrite (where_eq_id_true r id Hr).
  rewrite decide_True by done. rewrite decide_False by done.
  rewrite app_nil_r. cbn [app length].
  split; [apply answer_id|]. split; [done|]. split; [done|]. split.
  - intros t' Hne. by rewrite !set_table_other.
  - rewrite answer_id. do 2 f_equal. unfold next_id. cbn [rows seq].
    unfold next_id in id. lia.
Qed.

(** X3. Create then delete: the delete of the id that a create returned
    removes one row and gives the table its old rows back, with no other
    table changed; and the id is not reused, the next create of the same
    kind gets the id after it. *)
Theorem create_is_undone_by_delete now (body : object) (d : database) :
  undone_by Ideas d (post_ideas now None body) (delete_ideas None) /\
  undone_by Notes d (post_notes now None body) (delete_notes None) /\
  undone_by CareerGoals d (post_career_goals now None body)
    (delete_career_goals None) /\
  undone_by FutureWork d (post_future_work now None body)
    (delete_future_work None) /\
  undone_by Deadlines d (post_deadlines now None body) (delete_deadlines None) /\
  undone_by CalendarEvents d (post_events now None body) (delete_events None) /\
  undone_by CalendarEvents d (post_calendar_events now None body)
    (delete_calendar_events None).
Proof.
  unfold post_ideas, post_notes, post_career_goals, post_future_work,
    post_deadlines, post_events, post_calendar_events, delete_ideas,
    delete_notes, delete_career_goals, delete_future_work, delete_deadlines,
    delete_events, delete_calendar_events.
  cbv zeta.
  repeat match goal with |- _ /\ _ => split end; by apply undone_plain.
Qed.

Lemma ids_set_table_other t t' tb (d : database) :
  t' <> t -> ids (set_table t tb d t') = ids (d t').
Proof. intros. by rewrite set_table_other. Qed.

Lemma db_insert_keeps fault t cols params :
  keeps_ids (fun d => (db_insert fault t cols params d).1).
Proof.
  intros d t' Hnd. unfold db_insert. destruct fault; [done|].
  destruct (duplicate _ _ _); [done|]. cbn [fst].
  destruct (decide (t' = t)) as [->|Hne]; [|by rewrite set_table_other].
  rewrite set_table_same. unfold ids. cbn [rows]. rewrite fmap_app.
  apply NoDup_app. split; [done|]. split; [|apply NoDup_singleton].
  intros o Ho Hin. apply list_elem_of_singleton in Hin as ->.
  apply list_elem_of_fmap in Ho as (r & E & Hr).
  rewrite new_row_lookup in E. simpl in E.
  by destruct (next_id_fresh _ _ Hr).
Qed.

Lemma db_update_keeps fault t sets w :
  "id" ∉ sets.*1 -> keeps_ids (fun d => (db_update fault t sets w d).1).
Proof.
  intros Hid d t' Hnd. unfold db_update. destruct fault; [done|]. cbn [fst].
  destruct (decide (t' = t)) as [->|Hne]; [|by rewrite set_table_other].
  rewrite set_table_same. unfold ids in *. cbn [rows].
  rewrite <- list_fmap_compose.
  erewrite list_fmap_ext; [exact Hnd|]. intros i r _. simpl.
  destruct (w r); [by apply assign_other|done].
Qed.

Lemma db_delete_keeps fault t w :
  keeps_ids (fun d => (db_delete fault t w d).1).
Proof.
  intros d t' Hnd. unfold db_delete. destruct fault; [done|]. cbn [fst].
  destruct (decide (t' = t)) as [->|Hne]; [|by rewrite set_table_other].
  rewrite set_table_same. unfold ids in *. cbn [rows].
  eapply sublist_NoDup; [exact Hnd|]. apply fmap_sublist, sublist_filter.
Qed.

Lemma keeps_ids_id : keeps_ids (fun d => d).
Proof. by intros d t. Qed.

(** The store after a signup is the old one or the one the INSERT leaves. *)
Lemma signup_store (toLowerCase trim : string -> string)
    (js_lt : value -> value -> bool)
    (bcrypt_hash : value -> Z -> string -> option string)
    salt fault (body : object) (d : database) :
  (signup toLowerCase trim js_lt bcrypt_hash salt fault body d).1 = d \/
  exists folded h,
    (signup toLowerCase trim js_lt bcrypt_hash salt fault body d).1
    = (db_insert fault Users ["email"; "password"] [JStr folded; JStr h] d).1.
Proof.
  unfold signup. destruct (negb _ || negb _); [by left|].
  destruct (js_lt _ _); [by left|]. cbv zeta.
  destruct (bcrypt_hash _ _ _) as [h|]; [|by left].
  destruct (lower_trim _ _ _) as [folded|]; [|by left].
  right. exists folded, h.
  destruct (db_insert fault Users _ _ d) as [d' [err|lastID]]; [|done].
  by destruct (is_unique_violation err).
Qed.

Lemma post_profile_store (JSON_stringify : value -> string) now now' fg fr
    (body : object) (d : database) :
  (post_profile JSON_stringify now now' fg fr body d).1 = d \/
  (exists sets w, ("id" ∉ sets.*1) /\
     (post_profile JSON_stringify now now' fg fr body d).1
     = (db_update fr Profiles sets w d).1) \/
  (exists cols params,
     (post_profile JSON_stringify now now' fg fr body d).1
     = (db_insert fr Profiles cols params d).1).
Proof.
  unfold post_profile. destruct (negb _); [by left|]. cbv zeta.
  destruct (db_get fg Profiles _ d) as [?|[?|]]; [by left| |].
  - right. left. eexists _, _. rewrite fst_run. split; [|reflexivity].
    string_list_goal.
  - right. right. eexists _, _. by rewrite fst_run.
Qed.

(** X4. Every request that changes the store keeps the ids of every table
    distinct: creates take a fresh id, updates do not write the id column,
    deletes only remove rows.  It holds whether or not the engine reports
    an error. *)
Theorem ids_stay_distinct (toLowerCase trim : string -> string)
    (js_lt : value -> value -> bool)
    (bcrypt_hash : value -> Z -> string -> option string)
    (JSON_stringify : value -> string)
    now now' salt fault fault' id email (body : object) :
  (keeps_ids (fun d => (post_projects fault body d).1) /\
   keeps_ids (fun d => (post_ideas now fault body d).1) /\
   keeps_ids (fun d => (post_notes now fault body d).1) /\
   keeps_ids (fun d => (post_career_goals now fault body d).1) /\
   keeps_ids (fun d => (post_future_work now fault body d).1) /\
   keeps_ids (fun d => (post_deadlines now fault body d).1) /\
   keeps_ids (fun d => (post_events now fault body d).1) /\
   keeps_ids (fun d => (post_calendar_events now fault body d).1)) /\
  (keeps_ids (fun d => (put_projects fault id body d).1) /\
   keeps_ids (fun d => (put_projects_description fault id body d).1) /\
   keeps_ids (fun d => (put_ideas fault id body d).1) /\
   keeps_ids (fun d => (put_notes fault id body d).1) /\
   keeps_ids (fun d => (put_career_goals fault id body d).1) /\
   keeps_ids (fun d => (put_future_work fault id body d).1) /\
   keeps_ids (fun d => (put_deadlines fault id body d).1) /\
   keeps_ids (fun d => (put_events now fault id body d).1) /\
   keeps_ids (fun d => (put_calendar_events fault id body d).1)) /\
  (keeps_ids (fun d => (delete_projects fault id d).1) /\
   keeps_ids (fun d => (delete_ideas fault id d).1) /\
   keeps_ids (fun d => (delete_notes fault id d).1) /\
   keeps_ids (fun d => (delete_career_goals fault id d).1) /\
   keeps_ids (fun d => (delete_future_work fault id d).1) /\
   keeps_ids (fun d => (delete_deadlines fault id d).1) /\
   keeps_ids (fun d => (delete_events fault id d).1) /\
   keeps_ids (fun d => (delete_calendar_events fault id d).1) /\
   keeps_ids (fun d => (delete_profile fault email d).1)) /\
  (keeps_ids (fun d => (register toLowerCase trim js_lt bcrypt_hash salt fault body d).1) /\
   keeps_ids (fun d => (signup toLowerCase trim js_lt bcrypt_hash salt fault body d).1) /\
   keeps_ids (fun d => (post_profile JSON_stringify now now' fault fault' body d).1)).
Proof.
  split; [|split; [|split]].
  - unfold post_projects, post_ideas, post_notes, post_career_goals,
      post_future_work, post_deadlines, post_events, post_calendar_events.
    cbv zeta.
    repeat match goal with |- _ /\ _ => split end; intros d t Hnd;
      try (destruct (negb _ || negb _); [exact Hnd|]);
      rewrite fst_run; by apply db_insert_keeps.
  - unfold put_projects, put_projects_description, put_ideas, put_notes,
      put_career_goals, put_future_work, put_deadlines, put_events,
      put_calendar_events.
    cbv zeta.
    repeat match goal with |- _ /\ _ => split end; intros d t Hnd;
      rewrite fst_run;
      (apply db_update_keeps; [string_list_goal | exact Hnd]).
  - unfold delete_projects, delete_ideas, delete_notes, delete_career_goals,
      delete_future_work, delete_deadlines, delete_events,
      delete_calendar_events, delete_profile.
    repeat match goal with |- _ /\ _ => split end; intros d t Hnd;
      rewrite fst_run; by apply db_delete_keeps.
  - split; [|split]; intros d t Hnd.
    + change (register toLowerCase trim js_lt bcrypt_hash salt fault body d)
        with (signup toLowerCase trim js_lt bcrypt_hash salt fault body d).
      destruct (signup_store toLowerCase trim js_lt bcrypt_hash salt fault body d)
        as [->|(f & h & ->)]; [done|by apply db_insert_keeps].
    + destruct (signup_store toLowerCase trim js_lt bcrypt_hash salt fault body d)
        as [->|(f & h & ->)]; [done|by apply db_insert_keeps].
    + destruct (post_profile_store JSON_stringify now now' fault fault' body d)
        as [->|[(sets & w & Hid & ->)|(cols & params & ->)]];
        [done|by apply db_update_keeps|by apply db_insert_keeps].
Qed.

Lemma count_at_most_one t id (d : database) :
  NoDup (ids (d t)) ->
  (length (filter (fun r : row => where_eq "id" (SInt id) r = true) (rows (d t)))
   <= 1)%nat.
Proof.
  unfold ids. induction (rows (d t)) as [|r l IH]; intros Hnd; [simpl; lia|].
  rewrite fmap_cons in Hnd. apply NoDup_cons in Hnd as [Hr Hl].
  rewrite filter_cons. destruct (where_eq "id" (SInt id) r) eqn:W.
  - rewrite decide_True by done. simpl.
    assert (E : filter (fun r0 : row => where_eq "id" (SInt id) r0 = true) l = []);
      [|rewrite E; simpl; lia].
    apply where_eq_true in W.
    destruct (filter _ l) as [|r' l'] eqn:F; [done|exfalso].
    assert (Hin : r' ∈ filter (fun r0 : row => where_eq "id" (SInt id) r0 = true) l)
      by (rewrite F; apply list_elem_of_here).
    apply list_elem_of_filter in Hin as [W' Hin]. apply where_eq_true in W'.
    apply Hr. rewrite W, <- W'. by apply list_elem_of_fmap_2.
  - rewrite decide_False by congruence. by apply IH.
Qed.

Lemma db_update_counts t sets id (d : database) (k1 : db_error -> outcome) :
  NoDup (ids (d t)) ->
  counts_one "updated"
    (match db_update None t sets (where_eq "id" (SInt id)) d with
     | (d', inl e) => (d', k1 e)
     | (d', inr changes) => (d', Respond 200 (literal [("updated", JNum changes)]))
     end).
Proof.
  intros Hnd. pose proof (count_at_most_one t id d Hnd) as Hle.
  unfold counts_one, db_update. cbn [snd].
  destruct (filter _ (rows (d t))) as [|r [|r' l]]; simpl in Hle;
    [by left|by right|lia].
Qed.

Lemma db_delete_counts t id (d : database) (k1 : db_error -> outcome) :
  NoDup (ids (d t)) ->
  counts_one "deleted"
    (match db_delete None t (where_eq "id" (SInt id)) d with
     | (d', inl e) => (d', k1 e)
     | (d', inr changes) => (d', Respond 200 (literal [("deleted", JNum changes)]))
     end).
Proof.
  intros Hnd. pose proof (count_at_most_one t id d Hnd) as Hle.
  unfold counts_one, db_delete. cbn [snd].
  destruct (filter (fun r => _ = true) (rows (d t))) as [|r [|r' l]];
    simpl in Hle; [by left|by right|lia].
Qed.

(** X5. While the ids of a table are distinct, an update or a delete by id
    touches at most one row: it reports 0 or 1. *)
Theorem by_id_touches_at_most_one now id (body : object) (d : database) :
  (NoDup (ids (d Projects)) ->
   counts_one "updated" (put_projects None id body d) /\
   counts_one "updated" (put_projects_description None id body d) /\
   counts_one "deleted" (delete_projects None id d)) /\
  (NoDup (ids (d Ideas)) ->
   counts_one "updated" (put_ideas None id body d) /\
   counts_one "deleted" (delete_ideas None id d)) /\
  (NoDup (ids (d Notes)) ->
   counts_one "updated" (put_notes None id body d) /\
   counts_one "deleted" (delete_notes None id d)) /\
  (NoDup (ids (d CareerGoals)) ->
   counts_one "updated" (put_career_goals None id body d) /\
   counts_one "deleted" (delete_career_goals None id d)) /\
  (NoDup (ids (d FutureWork)) ->
   counts_one "updated" (put_future_work None id body d) /\
   counts_one "deleted" (delete_future_work None id d)) /\
  (NoDup (ids (d Deadlines)) ->
   counts_one "updated" (put_deadlines None id body d) /\
   counts_one "deleted" (delete_deadlines None id d)) /\
  (NoDup (ids (d CalendarEvents)) ->
   counts_one "updated" (put_events now None id body d) /\
   counts_one "updated" (put_calendar_events None id body d) /\
   counts_one "deleted" (delete_events None id d) /\
   counts_one "deleted" (delete_calendar_events None id d)).
Proof.
  unfold put_projects, put_projects_description, put_ideas, put_notes,
    put_career_goals, put_future_work, put_deadlines, put_events,
    put_calendar_events, delete_projects, delete_ideas, delete_notes,
    delete_career_goals, delete_future_work, delete_deadlines, delete_events,
    delete_calendar_events.
  cbv zeta.
  repeat match goal with |- _ /\ _ => split end; intros Hnd;
    repeat match goal with |- _ /\ _ => split end;
    first [by apply db_update_counts | by apply db_delete_counts].
Qed.

(** ** Listings *)

Lemma where_eq_text (r : row) c s :
  where_eq c (SText s) r = true <-> r !! c = Some (SText s).
Proof.
  split; [apply where_eq_true|]. intros E. by apply where_eq_self.
Qed.

Lemma filter_where_text (l : list row) c s :
  filter (fun r : row => where_eq c (SText s) r = true) l
  = filter (fun r : row => r !! c = Some (SText s)) l.
Proof. apply list_filter_iff. intros r. apply where_eq_text. Qed.

Lemma string_le_trans (s t u : string) :
  String.compare s t <> Gt -> String.compare t u <> Gt -> String.compare s u <> Gt.
Proof.
  revert t u. induction s as [|a s IH]; intros [|b t] [|c u]; simpl; try done.
  unfold Ascii.compare.
  destruct (N.compare_spec (Ascii.N_of_ascii a) (Ascii.N_of_ascii b)) as [E1|L1|G1];
    destruct (N.compare_spec (Ascii.N_of_ascii b) (Ascii.N_of_ascii c)) as [E2|L2|G2];
    destruct (N.compare_spec (Ascii.N_of_ascii a) (Ascii.N_of_ascii c)) as [E3|L3|G3];
    try done; try lia; eauto.
Qed.

Lemma string_compare_refl (s : string) : String.compare s s = Eq.
Proof.
  pose proof (String.compare_antisym s s) as H.
  destruct (String.compare s s); simpl in H; congruence.
Qed.

Lemma sql_leb_refl a : sql_leb a a = true.
Proof.
  destruct a as [|n|s]; simpl; [done|lia|]. by rewrite string_compare_refl.
Qed.

Lemma sql_leb_total a b : sql_leb a b = true \/ sql_leb b a = true.
Proof.
  destruct a as [|n|s], b as [|m|t]; simpl; auto.
  - destruct (Z.leb_spec n m), (Z.leb_spec m n); auto; lia.
  - rewrite (String.compare_antisym t s).
    destruct (String.compare s t); simpl; auto.
Qed.

Lemma sql_leb_trans a b c :
  sql_leb a b = true -> sql_leb b c = true -> sql_leb a c = true.
Proof.
  destruct a as [|n|s], b as [|m|t], c as [|k|u]; simpl; try done.
  - intros ?%Z.leb_le ?%Z.leb_le. apply Z.leb_le. lia.
  - intros H1 H2.
    pose proof (string_le_trans s t u) as H.
    destruct (String.compare s t), (String.compare t u), (String.compare s u);
      try done; exfalso; by apply H.
Qed.

Lemma sql_leb_antisym a b : sql_leb a b = true -> sql_leb b a = true -> a = b.
Proof.
  destruct a as [|n|s], b as [|m|t]; simpl; try done.
  - intros ?%Z.leb_le ?%Z.leb_le. f_equal. lia.
  - rewrite (String.compare_antisym t s).
    destruct (String.compare s t) eqn:E; simpl; try done.
    intros _ _. f_equal. by apply String.compare_eq_iff.
Qed.

Lemma order_leb_total keys :
  Total (fun r1 r2 : row => Is_true (order_leb keys r1 r2)).
Proof.
  intros r1 r2. induction keys as [|[c dir] keys IH]; simpl; [by left|].
  destruct dir.
  - rewrite (bool_decide_ext (cell r2 c = cell r1 c) (cell r1 c = cell r2 c)) by done.
    case_bool_decide; [done|].
    destruct (sql_leb_total (cell r1 c) (cell r2 c)) as [->| ->]; auto.
  - rewrite (bool_decide_ext (cell r1 c = cell r2 c) (cell r2 c = cell r1 c)) by done.
    case_bool_decide; [done|].
    destruct (sql_leb_total (cell r2 c) (cell r1 c)) as [->| ->]; auto.
Qed.

Lemma lex_trans (a1 a2 a3 : sqlval) (b12 b23 b13 : bool) :
  (b12 -> b23 -> b13) ->
  Is_true (if bool_decide (a1 = a2) then b12 else sql_leb a1 a2) ->
  Is_true (if bool_decide (a2 = a3) then b23 else sql_leb a2 a3) ->
  Is_true (if bool_decide (a1 = a3) then b13 else sql_leb a1 a3).
Proof.
  intros Hb. repeat case_bool_decide; subst; try done; auto.
  - intros H12%Is_true_true H21%Is_true_true.
    by destruct H, (sql_leb_antisym _ _ H12 H21).
  - intros H12%Is_true_true H23%Is_true_true.
    apply Is_true_true. by eapply sql_leb_trans.
Qed.

Lemma order_leb_trans keys :
  Transitive (fun r1 r2 : row => Is_true (order_leb keys r1 r2)).
Proof.
  intros r1 r2 r3. induction keys as [|[c dir] keys IH]; simpl; [done|].
  destruct dir.
  - by apply lex_trans.
  - intros H12 H23. apply (lex_trans _ (cell r2 c) _ _ _ _ (fun x y => IH y x) H23 H12).
Qed.

Lemma StronglySorted_weaken {A} (R1 R2 : A -> A -> Prop) (l : list A) :
  (forall x y, R1 x y -> R2 x y) -> StronglySorted R1 l -> StronglySorted R2 l.
Proof.
  intros HR. induction 1 as [|x l Hs IH Hall]; constructor; [done|].
  eapply Forall_impl; [exact Hall|]. intros y. apply HR.
Qed.

Lemma insert_row_sorted keys (r : row) (l : list row) :
  StronglySorted (fun r1 r2 : row => Is_true (order_leb keys r1 r2)) l ->
  StronglySorted (fun r1 r2 : row => Is_true (order_leb keys r1 r2))
    (insert_row keys r l).
Proof.
  induction 1 as [|r' l Hs IH Hall]; simpl.
  - repeat constructor.
  - destruct (order_leb keys r r') eqn:E.
    + constructor; [by constructor|]. constructor; [by rewrite E|].
      eapply Forall_impl; [exact Hall|]. intros x Hx. simpl in Hx.
      eapply order_leb_trans; [|exact Hx]. by rewrite E.
    + constructor; [exact IH|]. rewrite insert_row_perm. constructor; [|done].
      destruct (order_leb_total keys r r') as [H|H]; [|done].
      by rewrite E in H.
Qed.

Lemma order_by_sorted keys (l : list row) :
  StronglySorted (fun r1 r2 : row => Is_true (order_leb keys r1 r2))
    (order_by keys l).
Proof.
  induction l as [|r l IH]; [constructor|].
  by apply insert_row_sorted.
Qed.

(** What [db.all] hands to the callback: the selected rows, in the order
    asked for. *)
Lemma db_all_lists t c e keys (d : database) :
  exists rs : list row,
    db_all None t (where_eq c (bindParam (JStr e))) keys d = inr rs /\
    rs ≡ₚ rows_of t c e d /\
    StronglySorted (fun r1 r2 : row => Is_true (order_leb keys r1 r2)) rs.
Proof.
  eexists. split; [reflexivity|]. cbn [bindParam]. rewrite filter_where_text.
  split; [apply order_by_perm|]. apply order_by_sorted.
Qed.

Lemma lists_from_db_all show t c e keys (d : database) (before : row -> row -> Prop)
    (k1 : db_error -> outcome) :
  (forall r1 r2 : row, Is_true (order_leb keys r1 r2) -> before r1 r2) ->
  lists show
    (match db_all None t (where_eq c (bindParam (JStr e))) keys d with
     | inl err => k1 err
     | inr rs => Respond 200 (JArr (show <$> rs))
     end)
    (rows_of t c e d) before.
Proof.
  intros Hbefore. destruct (db_all_lists t c e keys d) as (rs & -> & Hp & Hs).
  exists rs. split; [done|]. split; [done|].
  exact (StronglySorted_weaken _ _ _ Hbefore Hs).
Qed.

Lemma order_one_desc c (r1 r2 : row) :
  Is_true (order_leb [(c, DESC)] r1 r2) -> sql_leb (cell r2 c) (cell r1 c) = true.
Proof.
  simpl. case_bool_decide as E; [intros _; rewrite E; apply sql_leb_refl|].
  apply Is_true_true.
Qed.

Lemma order_one_asc c (r1 r2 : row) :
  Is_true (order_leb [(c, ASC)] r1 r2) -> sql_leb (cell r1 c) (cell r2 c) = true.
Proof.
  simpl. case_bool_decide as E; [intros _; rewrite E; apply sql_leb_refl|].
  apply Is_true_true.
Qed.

Lemma order_date_start (r1 r2 : row) :
  Is_true (order_leb [("event_date", ASC); ("start_time", ASC)] r1 r2) ->
  earliest_start_first r1 r2.
Proof.
  unfold earliest_start_first. simpl. case_bool_decide as E1.
  - rewrite E1. split; [apply sql_leb_refl|]. intros _.
    case_bool_decide as E2; [rewrite E2; apply sql_leb_refl|].
    by apply Is_true_true.
  - intros H%Is_true_true. by split.
Qed.

(** X6. A listing by owner answers 200 with exactly the rows of that
    owner, each once, in the order of its ORDER BY: ideas, notes, career
    goals and future work newest first, deadlines by due date, the legacy
    calendar listing by date, the events by date and then by start time;
    the projects in no promised order.  With no row of the owner the answer
    is the empty list. *)
Theorem listing_by_owner e (d : database) :
  lists row_json (get_ideas None e d) (rows_of Ideas "user_email" e d) newest_first /\
  lists row_json (get_notes None e d) (rows_of Notes "user_email" e d) newest_first /\
  lists row_json (get_career_goals None e d)
    (rows_of CareerGoals "user_email" e d) newest_first /\
  lists row_json (get_future_work None e d)
    (rows_of FutureWork "user_email" e d) newest_first /\
  lists row_json (get_deadlines None e d)
    (rows_of Deadlines "user_email" e d) soonest_due_first /\
  lists row_json (get_calendar_events None e d)
    (rows_of CalendarEvents "user_email" e d) earliest_date_first /\
  lists (fun r => event_json (select event_columns r)) (get_events None e d)
    (rows_of CalendarEvents "user_email" e d) earliest_start_first /\
  lists row_json (get_projects None e d) (rows_of Projects "owner_email" e d)
    any_order /\
  (forall show o before, lists show o [] before -> o = Respond 200 (JArr [])).
Proof.
  unfold get_ideas, get_notes, get_career_goals, get_future_work, get_deadlines,
    get_calendar_events, get_events, get_projects.
  repeat match goal with |- _ /\ _ => split end.
  1-4: apply lists_from_db_all; intros r1 r2; apply order_one_desc.
  1-2: apply lists_from_db_all; intros r1 r2; apply order_one_asc.
  - destruct (db_all_lists CalendarEvents "user_email" e
                [("event_date", ASC); ("start_time", ASC)] d) as (rs & -> & Hp & Hs).
    exists rs. split; [by rewrite <- list_fmap_compose|]. split; [done|].
    apply (StronglySorted_weaken _ _ _ (fun r1 r2 => order_date_start r1 r2) Hs).
  - by apply lists_from_db_all.
  - intros show o before (rs & -> & Hp & _).
    by apply Permutation_nil_r in Hp as ->.
Qed.




Lemma where_eq_other (r : row) c p q :
  r !! c = Some p -> p <> q -> where_eq c q r = false.
Proof.
  intros E Hne. unfold where_eq. rewrite E. unfold sql_eq.
  destruct p; [done| |]; by apply bool_decide_eq_false.
Qed.

(** A row created for one owner is not selected for another. *)
Lemma db_all_after_insert fault fault' t cols params c b keys (d : database) :
  c <> "id" ->
  (exists p, assoc c (zip cols (zip_with (stored t) cols params)) = Some p /\
             p <> SText b) ->
  db_all fault' t (where_eq c (bindParam (JStr b))) keys
    (db_insert fault t cols params d).1
  = db_all fault' t (where_eq c (bindParam (JStr b))) keys d.
Proof.
  intros Hc (p & Hp & Hne). unfold db_insert. destruct fault; [done|].
  destruct (duplicate _ _ _); [done|]. cbn [fst].
  unfold db_all. destruct fault'; [done|]. rewrite set_table_same. cbn [rows].
  rewrite filter_app, filter_cons_False, filter_nil, app_nil_r; [done|].
  rewrite (where_eq_other _ c p); [done| |done].
  rewrite new_row_lookup, Hp. by destruct (String.eqb_spec "id" c).
Qed.

(** X8. A create for one owner does not show in the listing of any other
    owner: when the text that the owner column holds for the owner of the
    request is not [b], the listing of [b] is, after the create, what it
    was before.  (A number is an owner as its decimal text: a create for
    the owner 5 shows in the listing of "5".) *)
Theorem create_leaves_other_listings now fault fault' (body : object)
    (d : database) b :
  (exact TEXT (bindParam (field body "user_email")) = true ->
   store_as TEXT (bindParam (field body "user_email")) <> SText b ->
   get_ideas fault' b (post_ideas now fault body d).1 = get_ideas fault' b d /\
   get_notes fault' b (post_notes now fault body d).1 = get_notes fault' b d /\
   get_career_goals fault' b (post_career_goals now fault body d).1
   = get_career_goals fault' b d /\
   get_future_work fault' b (post_future_work now fault body d).1
   = get_future_work fault' b d /\
   get_deadlines fault' b (post_deadlines now fault body d).1
   = get_deadlines fault' b d /\
   get_calendar_events fault' b (post_calendar_events now fault body d).1
   = get_calendar_events fault' b d /\
   get_events fault' b (post_calendar_events now fault body d).1
   = get_events fault' b d) /\
  (exact TEXT (bindParam (field body "userEmail")) = true ->
   store_as TEXT (bindParam (field body "userEmail")) <> SText b ->
   get_events fault' b (post_events now fault body d).1 = get_events fault' b d /\
   get_calendar_events fault' b (post_events now fault body d).1
   = get_calendar_events fault' b d) /\
  (exact TEXT (bindParam (field body "owner_email")) = true ->
   store_as TEXT (bindParam (field body "owner_email")) <> SText b ->
   get_projects fault' b (post_projects fault body d).1 = get_projects fault' b d).
Proof.
  unfold get_ideas, get_notes, get_career_goals, get_future_work, get_deadlines,
    get_calendar_events, get_events, get_projects, post_ideas, post_notes,
    post_career_goals, post_future_work, post_deadlines, post_calendar_events,
    post_events, post_projects.
  cbv zeta.
  split; [|split]; intros _ Hne;
    try (destruct (negb _ || negb _); [done|]);
    rewrite !fst_run;
    repeat match goal with |- _ /\ _ => split end;
    (rewrite db_all_after_insert; [done|done|by eexists]).
Qed.

(** X9. The short routes are the long ones: [GET /career/:email] answers as
    [GET /career_goals/:email] and [GET /future/:email] as
    [GET /future_work/:email], for every store and fault. *)
Theorem short_routes_are_aliases fault e (d : database) :
  get_career fault e d = get_career_goals fault e d /\
  get_future fault e d = get_future_work fault e d.
Proof. split; reflexivity. Qed.

(** ** Accounts *)

Lemma account_after_signup (toLowerCase trim : string -> string)
    (js_lt : value -> value -> bool)
    (bcrypt_hash : value -> Z -> string -> option string)
    salt (body : object) (d : database) e h :
  field body "email" = JStr e -> truthy (field body "email") = true ->
  truthy (field body "password") = true ->
  js_lt (length_of (field body "password")) (JNum 6) = false ->
  bcrypt_hash (field body "password") 10 salt = Some h ->
  account d (trim (toLowerCase e)) = None ->
  exists r : row,
    account (signup toLowerCase trim js_lt bcrypt_hash salt None body d).1
      (trim (toLowerCase e)) = Some r /\
    r !! "email" = Some (SText (trim (toLowerCase e))) /\
    r !! "password" = Some (SText h).
Proof.
  intros He Ht Hp Hlen Hh Hfree. unfold signup.
  rewrite Ht, Hp, Hlen, Hh, He. cbn [negb orb lower_trim].
  set (folded := trim (toLowerCase e)) in *.
  unfold db_insert, duplicate. cbn [unique_col].
  rewrite (cell_lookup _ "email" (SText folded)) by (by rewrite new_row_lookup).
  apply head_None in Hfree. rewrite (existsb_filter_nil _ _ Hfree).
  eexists. cbn [fst]. unfold account. rewrite set_table_same. cbn [rows].
  rewrite filter_app, Hfree, filter_cons_True.
  - simpl. split; [reflexivity|]. by rewrite !new_row_lookup.
  - apply where_eq_self; [by rewrite new_row_lookup|done].
Qed.

(** X10. Signup then login: after a signup that went through, a login with
    the same password and an email that folds (lower case, trimmed) to the
    same text succeeds, and it answers with the folded email that was
    stored, not with the email as typed.  That [bcrypt.compare] accepts a
    password against its own hash is the assumption on the library. *)
Theorem signup_then_login (toLowerCase trim : string -> string)
    (js_lt : value -> value -> bool)
    (bcrypt_hash : value -> Z -> string -> option string)
    (bcrypt_compare : value -> value -> option bool)
    salt (body attempt : object) (d : database) e e' h :
  field body "email" = JStr e -> truthy (field body "email") = true ->
  truthy (field body "password") = true ->
  js_lt (length_of (field body "password")) (JNum 6) = false ->
  bcrypt_hash (field body "password") 10 salt = Some h ->
  account d (trim (toLowerCase e)) = None ->
  field attempt "email" = JStr e' -> truthy (field attempt "email") = true ->
  trim (toLowerCase e') = trim (toLowerCase e) ->
  field attempt "password" = field body "password" ->
  bcrypt_compare (field body "password") (JStr h) = Some true ->
  login toLowerCase trim bcrypt_compare None attempt
    (signup toLowerCase trim js_lt bcrypt_hash salt None body d).1
  = Respond 200
      (literal [("success", JBool true);
                ("email", JStr (trim (toLowerCase e)));
                ("message", JStr "Login successful!")]).
Proof.
  intros He Ht Hp Hlen Hh Hfree He' Ht' Hfold Hpw Hcmp.
  destruct (account_after_signup toLowerCase trim js_lt bcrypt_hash salt body d
              e h He Ht Hp Hlen Hh Hfree) as (r & Hacc & Hre & Hrp).
  unfold login. rewrite Ht', Hpw, Hp, He'. cbn [negb orb lower_trim].
  unfold db_get. cbn [bindParam]. rewrite Hfold.
  fold (account (signup toLowerCase trim js_lt bcrypt_hash salt None body d).1
          (trim (toLowerCase e))).
  rewrite Hacc. unfold col. rewrite Hre, Hrp. cbn [of_sql]. by rewrite Hcmp.
Qed.

Lemma unique_error_is_recognised :
  is_unique_violation (unique_error Users "email") = true.
Proof. reflexivity. Qed.

(** X11. A signup for an email that folds to the email of an account is
    refused with 400 "User already exists." and the store stays as it
    was. *)
Theorem signup_twice_is_refused (toLowerCase trim : string -> string)
    (js_lt : value -> value -> bool)
    (bcrypt_hash : value -> Z -> string -> option string)
    salt (body : object) (d : database) e h (r : row) :
  field body "email" = JStr e -> truthy (field body "email") = true ->
  truthy (field body "password") = true ->
  js_lt (length_of (field body "password")) (JNum 6) = false ->
  bcrypt_hash (field body "password") 10 salt = Some h ->
  account d (trim (toLowerCase e)) = Some r ->
  signup toLowerCase trim js_lt bcrypt_hash salt None body d
  = (d, Respond 400 (failure "User already exists.")) /\
  register toLowerCase trim js_lt bcrypt_hash salt None body d
  = (d, Respond 400 (failure "User already exists.")).
Proof.
  intros He Ht Hp Hlen Hh Hacc.
  split;
    exact (signup_refuses_duplicate toLowerCase trim js_lt bcrypt_hash salt body d
             e h r He Ht Hp Hlen Hh Hacc).
Qed.

Lemma db_insert_error fault t cols params (d d' : database) e :
  db_insert fault t cols params d = (d', inl e) -> d' = d.
Proof.
  unfold db_insert. destruct fault; [congruence|].
  destruct (duplicate _ _ _); congruence.
Qed.

Lemma db_update_error fault t sets w (d d' : database) e :
  db_update fault t sets w d = (d', inl e) -> d' = d.
Proof. unfold db_update. destruct fault; congruence. Qed.

Lemma db_delete_error fault t w (d d' : database) e :
  db_delete fault t w d = (d', inl e) -> d' = d.
Proof. unfold db_delete. destruct fault; congruence. Qed.

Lemma run_writes_on_200 {A} (x : database * (db_error + A)) (d : database)
    (k1 : db_error -> outcome) (k2 : A -> outcome) :
  (forall d' e, x = (d', inl e) -> d' = d) ->
  (forall a, status_of (k2 a) = Some 200) ->
  status_of (match x with
             | (d', inl e) => (d', k1 e)
             | (d', inr a) => (d', k2 a)
             end).2 <> Some 200 ->
  (match x with
   | (d', inl e) => (d', k1 e)
   | (d', inr a) => (d', k2 a)
   end).1 = d.
Proof.
  intros Herr Hok. destruct x as [d' [e|a]]; cbn [fst snd].
  - intros _. by eapply Herr.
  - intros Hs. by destruct Hs.
Qed.

(** X12. No request writes unless it is answered 200: whenever a create,
    an update, a delete, a signup or a profile save answers with another
    status (400 or 500), the store is exactly what it was. *)
Theorem only_a_200_writes (toLowerCase trim : string -> string)
    (js_lt : value -> value -> bool)
    (bcrypt_hash : value -> Z -> string -> option string)
    (JSON_stringify : value -> string)
    now now' salt fault fault' id email (body : object) :
  (writes_only_on_200 (post_projects fault body) /\
   writes_only_on_200 (post_ideas now fault body) /\
   writes_only_on_200 (post_notes now fault body) /\
   writes_only_on_200 (post_career_goals now fault body) /\
   writes_only_on_200 (post_future_work now fault body) /\
   writes_only_on_200 (post_deadlines now fault body) /\
   writes_only_on_200 (post_events now fault body) /\
   writes_only_on_200 (post_calendar_events now fault body)) /\
  (writes_only_on_200 (put_projects fault id body) /\
   writes_only_on_200 (put_projects_description fault id body) /\
   writes_only_on_200 (put_ideas fault id body) /\
   writes_only_on_200 (put_notes fault id body) /\
   writes_only_on_200 (put_career_goals fault id body) /\
   writes_only_on_200 (put_future_work fault id body) /\
   writes_only_on_200 (put_deadlines fault id body) /\
   writes_only_on_200 (put_events now fault id body) /\
   writes_only_on_200 (put_calendar_events fault id body)) /\
  (writes_only_on_200 (delete_projects fault id) /\
   writes_only_on_200 (delete_ideas fault id) /\
   writes_only_on_200 (delete_notes fault id) /\
   writes_only_on_200 (delete_career_goals fault id) /\
   writes_only_on_200 (delete_future_work fault id) /\
   writes_only_on_200 (delete_deadlines fault id) /\
   writes_only_on_200 (delete_events fault id) /\
   writes_only_on_200 (delete_calendar_events fault id) /\
   writes_only_on_200 (delete_profile fault email)) /\
  (writes_only_on_200 (register toLowerCase trim js_lt bcrypt_hash salt fault body) /\
   writes_only_on_200 (signup toLowerCase trim js_lt bcrypt_hash salt fault body) /\
   writes_only_on_200 (post_profile JSON_stringify now now' fault fault' body)).
Proof.
  split; [|split; [|split]].
  - unfold post_projects, post_ideas, post_notes, post_career_goals,
      post_future_work, post_deadlines, post_events, post_calendar_events.
    cbv zeta.
    repeat match goal with |- _ /\ _ => split end; intros d;
      try (destruct (negb _ || negb _); [done|]);
      (apply run_writes_on_200; [apply db_insert_error|done]).
  - unfold put_projects, put_projects_description, put_ideas, put_notes,
      put_career_goals, put_future_work, put_deadlines, put_events,
      put_calendar_events.
    cbv zeta.
    repeat match goal with |- _ /\ _ => split end; intros d;
      (apply run_writes_on_200; [apply db_update_error|done]).
  - unfold delete_projects, delete_ideas, delete_notes, delete_career_goals,
      delete_future_work, delete_deadlines, delete_events,
      delete_calendar_events, delete_profile.
    repeat match goal with |- _ /\ _ => split end; intros d;
      (apply run_writes_on_200; [apply db_delete_error|done]).
  - assert (Hs : writes_only_on_200
                   (signup toLowerCase trim js_lt bcrypt_hash salt fault body)).
    { intros d. unfold signup. destruct (negb _ || negb _); [done|].
      destruct (js_lt _ _); [done|]. cbv zeta.
      destruct (bcrypt_hash _ _ _) as [h|]; [|done].
      destruct (lower_trim _ _ _) as [folded|]; [|done].
      destruct (db_insert fault Users _ _ d) as [d' [err|lastID]] eqn:E.
      - apply db_insert_error in E as ->. by destruct (is_unique_violation err).
      - intros Hst. by destruct Hst. }
    split; [exact Hs|]. split; [exact Hs|].
    intros d. unfold post_profile. destruct (negb _); [done|]. cbv zeta.
    destruct (db_get fault Profiles _ d) as [?|[?|]]; [done| |].
    + apply run_writes_on_200; [apply db_update_error|done].
    + apply run_writes_on_200; [apply db_insert_error|done].
Qed.

(** ** Profiles and project descriptions *)

Lemma is_undefined_of_sql x : is_undefined (of_sql x) = false.
Proof. by destruct x. Qed.

Lemma literal_lookup props k v :
  NoDup props.*1 -> (k, v) ∈ props -> is_undefined v = false ->
  prop (literal props) k = Some v.
Proof.
  intros Hnd Hin Hv. unfold literal, prop. apply elem_of_list_to_map_1.
  - eapply sublist_NoDup; [exact Hnd|]. apply fmap_sublist, sublist_filter.
  - by apply list_elem_of_filter.
Qed.

(** The row of the owner after a profile save. *)
Lemma post_profile_saved (JSON_stringify : value -> string) now now'
    (body : object) (d : database) :
  truthy (field body "userEmail") = true ->
  (length (profile_rows (field body "userEmail") d) <= 1)%nat ->
  exists r : row,
    profile_rows (field body "userEmail")
      (post_profile JSON_stringify now now' None None body d).1 = [r] /\
    holds_profile JSON_stringify body r.
Proof.
  intros Ht Hlen.
  destruct (profile_rows (field body "userEmail") d) as [|r0 l] eqn:Hrows.
  - assert (exists r : row,
      holds_profile JSON_stringify body r /\
      (post_profile JSON_stringify now now' None None body d).1 Profiles
      = {| rows := rows (d Profiles) ++ [r]; seq := next_id (d Profiles) |})
      as (r & Hr & Hd).
    { unfold post_profile. rewrite Ht. cbv zeta.
      unfold db_get. fold (profile_rows (field body "userEmail") d).
      rewrite Hrows. cbn [negb head].
      unfold db_insert, duplicate. cbn [unique_col].
      rewrite (cell_lookup _ "user_email"
                 (stored Profiles "user_email" (field body "userEmail")))
        by (by rewrite new_row_lookup).
      rewrite (existsb_filter_nil _ _ Hrows).
      eexists. cbn [fst]. rewrite set_table_same. split; [|reflexivity].
      split; [by rewrite new_row_lookup|]. split.
      - intros k c Hin. unfold profile_scalars in Hin.
        each_pair Hin; by rewrite new_row_lookup.
      - intros k Hin. unfold profile_lists in Hin.
        repeat (apply elem_of_cons in Hin as [->|Hin];
                [by rewrite new_row_lookup|]).
        by apply elem_of_nil in Hin. }
    exists r. split; [|done]. destruct Hr as (Hown & _).
    unfold profile_rows in *. rewrite Hd. cbn [rows].
    rewrite filter_app, Hrows, filter_cons_True; [done|].
    apply where_eq_self; [exact Hown|by apply stored_truthy].
  - destruct l; [|simpl in Hlen; lia].
    unfold post_profile. rewrite Ht. cbv zeta.
    unfold db_get. fold (profile_rows (field body "userEmail") d).
    rewrite Hrows. cbn [negb head]. rewrite fst_run.
    match goal with
    | |- context [db_update None Profiles ?s ?w d] => set (sets := s)
    end.
    assert (Hnd : NoDup sets.*1) by string_list_goal.
    assert (Hown : "user_email" ∉ sets.*1) by string_list_goal.
    exists (assign Profiles sets r0). unfold profile_rows in *. rewrite db_update_rows.
    rewrite filter_update by (intros; by apply where_eq_assign).
    rewrite Hrows. split; [done|].
    assert (Hr0 : r0 !! "user_email"
                  = Some (stored Profiles "user_email" (field body "userEmail"))).
    { apply where_eq_true.
      assert (Hin : r0 ∈ filter (fun r : row =>
                 where_eq "user_email"
                   (stored Profiles "user_email" (field body "userEmail")) r = true)
                (rows (d Profiles))) by (rewrite Hrows; apply list_elem_of_here).
      by apply list_elem_of_filter in Hin as [W _]. }
    split; [by rewrite assign_other|]. split.
    + intros k c Hin. unfold profile_scalars in Hin.
      each_pair Hin; (apply assign_set; [done|subst sets; in_list]).
    + intros k Hin. unfold profile_lists in Hin.
      repeat (apply elem_of_cons in Hin as [->|Hin];
              [match goal with
               | |- _ !! ?c = Some (SText ?x) =>
                   change (SText x) with (stored Profiles c (JStr x))
               end;
               apply assign_set; [done|subst sets; in_list]|]).
      by apply elem_of_nil in Hin.
Qed.

Lemma col_lookup (r : row) c x : r !! c = Some x -> col r c = of_sql x.
Proof. intros E. unfold col. by rewrite E. Qed.

(** X13. Profile save then read: after a save for owner [e], the read of
    [e] answers 200 with the saved profile.  Each scalar field comes back
    as it reads from its TEXT column (a string as that string, a number as
    its decimal text, a field left out as null), and each list field as the
    list that was sent, or the empty list when none was sent.  That
    [JSON.parse] gives back each list that [JSON.stringify] printed for the
    save, and that none was printed as the empty text, is the assumption on
    the library. *)
Theorem profile_save_then_read (JSON_stringify : value -> string)
    (JSON_parse : value -> option value) now now' (body : object)
    (d : database) e :
  field body "userEmail" = JStr e -> e <> "" ->
  (length (profile_rows (JStr e) d) <= 1)%nat ->
  (forall k, k ∈ profile_lists ->
     let sent := or_else (field body k) (JArr []) in
     JSON_stringify sent <> "" /\
     JSON_parse (JStr (JSON_stringify sent)) = Some sent) ->
  let read := get_profile JSON_parse None e
                (post_profile JSON_stringify now now' None None body d).1 in
  status_of read = Some 200 /\
  answer read "userEmail" = Some (JStr e) /\
  (forall k c, (k, c) ∈ profile_scalars ->
     stored_exactly Profiles c (field body k) ->
     answer read k = Some (reads_back Profiles c (field body k))) /\
  (forall k, k ∈ profile_lists ->
     answer read k = Some (or_else (field body k) (JArr []))).
Proof.
  intros He Hne Hlen Hjson read.
  assert (Ht : truthy (field body "userEmail") = true).
  { rewrite He. simpl. by destruct (String.eqb_spec e ""). }
  rewrite <- He in Hlen.
  destruct (post_profile_saved JSON_stringify now now' body d Ht Hlen)
    as (r & Hrows & Hown & Hsc & Hli).
  assert (Hparse : forall k, k ∈ profile_lists ->
            parse_list JSON_parse r k = inr (or_else (field body k) (JArr []))).
  { intros k Hk. unfold parse_list. rewrite (col_lookup _ _ _ (Hli k Hk)).
    cbn [of_sql truthy]. destruct (Hjson k Hk) as [Hs Hp].
    destruct (String.eqb_spec (JSON_stringify (or_else (field body k) (JArr []))) "");
      [done|]. cbn [negb]. by rewrite Hp. }
  assert (Hdef : forall k, is_undefined (or_else (field body k) (JArr [])) = false).
  { intros k. unfold or_else. destruct (truthy (field body k)) eqn:T; [|done].
    by destruct (field body k). }
  assert (E : read = Respond 200
    (literal [("userEmail", col r "user_email");
              ("fullName", col r "full_name");
              ("designation", col r "designation");
              ("department", col r "department");
              ("institution", col r "institution");
              ("officeAddress", col r "office_address");
              ("officialEmail", col r "official_email");
              ("alternateEmail", col r "alternate_email");
              ("phone", col r "phone");
              ("website", col r "website");
              ("degrees", or_else (field body "degrees") (JArr []));
              ("employment", or_else (field body "employment") (JArr []));
              ("researchKeywords", col r "research_keywords");
              ("researchDescription", col r "research_description");
              ("scholarLink", col r "scholar_link");
              ("courses", or_else (field body "courses") (JArr []));
              ("grants", or_else (field body "grants") (JArr []));
              ("professionalActivities", col r "professional_activities");
              ("awards", or_else (field body "awards") (JArr []));
              ("skills", col r "skills");
              ("outreachService", col r "outreach_service")])).
  { subst read. unfold get_profile, db_get.
    change (bindParam (JStr e)) with (stored Profiles "user_email" (JStr e)).
    rewrite <- He.
    fold (profile_rows (field body "userEmail")
            (post_profile JSON_stringify now now' None None body d).1).
    rewrite Hrows. cbn [head].
    rewrite !Hparse by (unfold profile_lists; in_list). done. }
  rewrite E. split; [done|]. unfold answer. cbn [body_of mbind option_bind].
  split; [|split].
  - rewrite (literal_lookup _ "userEmail" (col r "user_email"));
      [|string_list_goal|in_list|].
    + by rewrite (col_lookup _ _ _ Hown), He.
    + rewrite (col_lookup _ _ _ Hown). apply is_undefined_of_sql.
  - intros k c Hin _. pose proof (Hsc k c Hin) as Hc.
    rewrite (literal_lookup _ k (col r c)).
    + by rewrite (col_lookup _ _ _ Hc).
    + string_list_goal.
    + unfold profile_scalars in Hin. each_pair Hin; in_list.
    + rewrite (col_lookup _ _ _ Hc). apply is_undefined_of_sql.
  - intros k Hin. apply literal_lookup; [string_list_goal| |apply Hdef].
    unfold profile_lists in Hin.
    repeat (apply elem_of_cons in Hin as [->|Hin]; [in_list|]).
    by apply elem_of_nil in Hin.
Qed.

Lemma filter_after_delete (w : row -> bool) (l : list row) :
  filter (fun r => w r = true) (filter (fun r => w r = false) l) = [].
Proof.
  induction l as [|r l IH]; [done|]. rewrite filter_cons.
  destruct (w r) eqn:W.
  - by rewrite decide_False.
  - rewrite decide_True by done. rewrite filter_cons, W.
    by rewrite decide_False.
Qed.

Lemma filter_other_after_delete (w w' : row -> bool) (l : list row) :
  (forall r, w' r = true -> w r = false) ->
  filter (fun r => w' r = true) (filter (fun r => w r = false) l)
  = filter (fun r => w' r = true) l.
Proof.
  intros Hw. induction l as [|r l IH]; [done|]. rewrite !filter_cons.
  destruct (w r) eqn:W.
  - rewrite decide_False by done. destruct (w' r) eqn:W'.
    + apply Hw in W'. congruence.
    + by rewrite decide_False.
  - rewrite decide_True by done. rewrite filter_cons.
    destruct (decide (w' r = true)); by rewrite IH.
Qed.

(** X14. Profile delete then read: after [DELETE /profile/e] the read of
    [e] answers 200 with null; the delete reports how many rows the owner
    had; and the profile of any other owner is as it was. *)
Theorem profile_delete_then_read (JSON_parse : value -> option value)
    e (d : database) :
  let gone := delete_profile None e d in
  gone.2 = Respond 200
             (literal [("deleted",
                        JNum (Z.of_nat (length (profile_rows (JStr e) d))));
                       ("message", JStr "Profile deleted successfully")]) /\
  get_profile JSON_parse None e gone.1 = Respond 200 JNull /\
  forall other, other <> e ->
    profile_rows (JStr other) gone.1 = profile_rows (JStr other) d /\
    get_profile JSON_parse None other gone.1 = get_profile JSON_parse None other d.
Proof.
  unfold delete_profile, db_delete. cbn [fst snd]. split; [done|].
  assert (Hother : forall other, other <> e ->
    profile_rows (JStr other)
      (set_table Profiles
         {| rows := filter (fun r : row =>
                      where_eq "user_email" (bindParam (JStr e)) r = false)
                      (rows (d Profiles));
            seq := seq (d Profiles) |} d)
    = profile_rows (JStr other) d).
  { intros other Hne. unfold profile_rows. rewrite set_table_same. cbn [rows].
    apply filter_other_after_delete. intros r W%where_eq_true.
    apply (where_eq_other _ _ _ _ W).
    change (SText other <> SText e). congruence. }
  split.
  - unfold get_profile, db_get. rewrite set_table_same. cbn [rows].
    by rewrite filter_after_delete.
  - intros other Hne. split; [by apply Hother|].
    unfold get_profile, db_get.
    change (bindParam (JStr other))
      with (stored Profiles "user_email" (JStr other)).
    fold (profile_rows (JStr other) d).
    rewrite <- (Hother other Hne). done.
Qed.

Lemma filter_id_text (l : list row) id :
  filter (fun r : row => where_eq "id" (SInt id) r = true) l
  = filter (fun r : row => r !! "id" = Some (SInt id)) l.
Proof.
  apply list_filter_iff. intros r. split; [apply where_eq_true|].
  apply where_eq_id_true.
Qed.

(** X15. Description save then read: when a project has the id,
    [GET /projects/:id/description] after [PUT /projects/:id/description]
    answers with the project row in which each of the 28 description
    columns holds the field of the request as it reads back from a TEXT
    column (a string as that string, a number as its decimal text, null
    for a field left out), and name, owner, colleagues and progress are as
    they were.  When no project has the id, the read answers with the empty
    object. *)
Theorem description_save_then_read id (body : object) (d : database) :
  let read := get_projects_description None id
                (put_projects_description None id body d).1 in
  (forall r0 : row, found Projects id d = Some r0 ->
     status_of read = Some 200 /\
     (forall k c, (k, c) ∈ description_fields ->
        stored_exactly Projects c (field body k) ->
        answer read c = Some (reads_back Projects c (field body k))) /\
     (forall c, c ∈ ["id"; "name"; "owner_email"; "colleagues"; "progress"] ->
        answer read c = of_sql <$> r0 !! c)) /\
  (found Projects id d = None -> read = Respond 200 (JObj ∅)).
Proof.
  intros read. subst read.
  unfold get_projects_description, put_projects_description, db_get, found.
  cbv zeta. rewrite fst_run, db_update_rows.
  match goal with
  | |- context [assign Projects ?s] => set (sets := s)
  end.
  assert (Hnd : NoDup sets.*1) by string_list_goal.
  assert (Hid : "id" ∉ sets.*1) by string_list_goal.
  rewrite filter_update by (intros; by apply where_eq_assign).
  rewrite filter_id_text. split.
  - intros r0 Hr0. apply head_Some in Hr0 as (l & ->). cbn [fmap list_fmap head].
    split; [done|]. unfold answer. cbn [body_of mbind option_bind]. split.
    + intros k c Hin _. rewrite row_json_prop. unfold description_fields in Hin.
      each_pair Hin;
        (erewrite assign_set; [reflexivity|done|subst sets; in_list]).
    + intros c Hin. rewrite row_json_prop. f_equal. apply assign_other.
      repeat (apply elem_of_cons in Hin as [->|Hin]; [string_list_goal|]).
      by apply elem_of_nil in Hin.
  - intros Hnone. apply head_None in Hnone. by rewrite Hnone.
Qed.

(** ** Calendar events across the two sets of endpoints *)

Lemma event_json_plain (r : row) c alias :
  (c, alias) ∈ event_columns ->
  alias ∉ ["isAllDay"; "isOnline"; "repeatWeekly"] ->
  prop (event_json (select event_columns r)) alias = Some (of_sql (cell r c)).
Proof.
  intros Hin Hflag. unfold event_json, prop.
  assert (alias <> "repeatWeekly" /\ alias <> "isOnline" /\ alias <> "isAllDay")
    as (N1 & N2 & N3) by (repeat split; intros ->; apply Hflag; in_list).
  rewrite !lookup_insert_ne by done.
  rewrite lookup_fmap, select_lookup. unfold event_columns in Hin.
  each_pair Hin; try reflexivity; exfalso; apply Hflag; in_list.
Qed.

(** X16. The two sets of calendar endpoints work on one table: an event
    created through the legacy [POST /calendar_events] for owner [e] is
    listed by the canonical [GET /events/e], with its date and times under
    the canonical names, with the defaults of the columns the legacy create
    does not know (category "Work", reminder 15, recurrence "none", show-as
    "busy", priority "normal", not all-day, not online, no modified date),
    and with repeatWeekly the boolean that the stored repeat_weekly stands
    for: what the INTEGER column made of the value sent (the text "0" is
    stored as 0 and reads false).  Title, date and times read back as
    their TEXT columns hold them. *)
Theorem legacy_event_in_canonical_listing now (body : object) (d : database) e :
  field body "user_email" = JStr e ->
  exists (evs : list value) (ev : value),
    get_events None e (post_calendar_events now None body d).1
    = Respond 200 (JArr evs) /\
    ev ∈ evs /\
    prop ev "id" = Some (JNum (next_id (d CalendarEvents))) /\
    (stored_exactly CalendarEvents "title" (field body "title") ->
     prop ev "title"
     = Some (reads_back CalendarEvents "title" (field body "title"))) /\
    (stored_exactly CalendarEvents "event_date" (field body "event_date") ->
     prop ev "date"
     = Some (reads_back CalendarEvents "event_date" (field body "event_date"))) /\
    (stored_exactly CalendarEvents "start_time" (field body "start_time") ->
     prop ev "start"
     = Some (reads_back CalendarEvents "start_time" (field body "start_time"))) /\
    (stored_exactly CalendarEvents "end_time" (field body "end_time") ->
     prop ev "end"
     = Some (reads_back CalendarEvents "end_time" (field body "end_time"))) /\
    (stored_exactly CalendarEvents "repeat_weekly" (field body "repeat_weekly") ->
     prop ev "repeatWeekly"
     = Some (JBool (truthy (reads_back CalendarEvents "repeat_weekly"
                              (field body "repeat_weekly"))))) /\
    prop ev "isAllDay" = Some (JBool false) /\
    prop ev "isOnline" = Some (JBool false) /\
    prop ev "category" = Some (JStr "Work") /\
    prop ev "reminder" = Some (JNum 15) /\
    prop ev "recurrence" = Some (JStr "none") /\
    prop ev "showAs" = Some (JStr "busy") /\
    prop ev "priority" = Some (JStr "normal") /\
    prop ev "modifiedDate" = Some JNull.
Proof.
  intros He.
  destruct (get_events None e (post_calendar_events now None body d).1)
    as [s b|] eqn:Hget; [|discriminate].
  assert (s = 200 /\ exists evs, b = JArr evs) as (-> & evs & ->).
  { unfold get_events, db_all in Hget. injection Hget as <- <-. eauto. }
  unfold post_calendar_events in Hget. cbv zeta in Hget.
  rewrite fst_run, db_insert_plain in Hget by done. cbn [fst] in Hget.
  match type of Hget with
  | context [new_row CalendarEvents ?i ?cs ?ps] =>
      set (r := new_row CalendarEvents i cs ps) in *
  end.
  exists evs, (event_json (select event_columns r)).
  split; [done|]. split.
  { apply (get_events_elem _ _ _ _ Hget). exists r. rewrite set_table_same.
    split; [apply elem_of_app; right; apply list_elem_of_here|].
    split; [|done]. apply where_eq_self; [|done].
    subst r. by rewrite new_row_lookup, He. }
  destruct (event_json_flags r) as (F1 & F2 & F3). rewrite F1, F2, F3.
  rewrite (event_json_plain r "id" "id")
    by string_list_goal.
  rewrite (event_json_plain r "title" "title")
    by string_list_goal.
  rewrite (event_json_plain r "event_date" "date")
    by string_list_goal.
  rewrite (event_json_plain r "start_time" "start")
    by string_list_goal.
  rewrite (event_json_plain r "end_time" "end")
    by string_list_goal.
  rewrite (event_json_plain r "category" "category")
    by string_list_goal.
  rewrite (event_json_plain r "reminder" "reminder")
    by string_list_goal.
  rewrite (event_json_plain r "recurrence" "recurrence")
    by string_list_goal.
  rewrite (event_json_plain r "show_as" "showAs")
    by string_list_goal.
  rewrite (event_json_plain r "priority" "priority")
    by string_list_goal.
  rewrite (event_json_plain r "modified_date" "modifiedDate")
    by string_list_goal.
  subst r. unfold cell. rewrite !new_row_lookup.
  repeat match goal with |- _ /\ _ => split end; try intros _; reflexivity.
Qed.

Lemma get_events_after_update now id (body : object) (d : database) e (r0 : row) :
  r0 ∈ rows (d CalendarEvents) ->
  r0 !! "id" = Some (SInt id) -> r0 !! "user_email" = Some (SText e) ->
  exists (evs : list value) (r : row),
    get_events None e (put_events now None id body d).1 = Respond 200 (JArr evs) /\
    event_json (select event_columns r) ∈ evs /\
    r !! "id" = Some (SInt id) /\
    r !! "created_date" = r0 !! "created_date" /\
    r !! "modified_date" = Some (SText now) /\
    r !! "event_date" = Some (stored CalendarEvents "event_date" (field body "date")) /\
    r !! "start_time" = Some (stored CalendarEvents "start_time" (field body "start")) /\
    r !! "end_time" = Some (stored CalendarEvents "end_time" (field body "end")) /\
    r !! "title" = Some (stored CalendarEvents "title" (field body "title")) /\
    r !! "is_all_day" = Some (bit (field body "isAllDay")) /\
    r !! "is_online" = Some (bit (field body "isOnline")) /\
    r !! "repeat_weekly" = Some (bit (field body "repeatWeekly")).
Proof.
  intros Hin Hid Hown.
  destruct (get_events None e (put_events now None id body d).1)
    as [s b|] eqn:Hget; [|discriminate].
  assert (s = 200 /\ exists evs, b = JArr evs) as (-> & evs & ->).
  { unfold get_events, db_all in Hget. injection Hget as <- <-. eauto. }
  unfold put_events in Hget. cbv zeta in Hget. rewrite fst_run in Hget.
  match type of Hget with
  | context [db_update None CalendarEvents ?s ?w d] => set (sets := s) in *
  end.
  assert (Hnd : NoDup sets.*1) by string_list_goal.
  exists evs, (assign CalendarEvents sets r0). split; [done|]. split.
  { apply (get_events_elem _ _ _ _ Hget). exists (assign CalendarEvents sets r0).
    rewrite db_update_rows. split; [|split; [|done]].
    - apply list_elem_of_fmap. exists r0. split; [|done].
      by rewrite (where_eq_id_true r0 id Hid).
    - apply where_eq_self; [|done]. rewrite assign_other; [done|].
      string_list_goal. }
  split; [rewrite assign_other; [done|string_list_goal]|].
  split; [apply assign_other; string_list_goal|].
  change (SText now) with (stored CalendarEvents "modified_date" (JStr now)).
  change (bit (field body "isAllDay"))
    with (stored CalendarEvents "is_all_day" (flag (field body "isAllDay"))).
  change (bit (field body "isOnline"))
    with (stored CalendarEvents "is_online" (flag (field body "isOnline"))).
  change (bit (field body "repeatWeekly"))
    with (stored CalendarEvents "repeat_weekly" (flag (field body "repeatWeekly"))).
  repeat match goal with |- _ /\ _ => split end;
    (apply assign_set; [done|subst sets; in_list]).
Qed.

(** X17. Event update then list: after [PUT /events/:id] on an event of
    owner [e], [GET /events/e] lists the event with the new title, date
    and times, with each flag as the boolean the new value stands for
    (false for a flag left out), title, date and times as their TEXT
    columns hold them, with modifiedDate the time of the update
    and createdDate what it was. *)
Theorem event_update_then_list now id (body : object) (d : database) e (r0 : row) :
  r0 ∈ rows (d CalendarEvents) ->
  r0 !! "id" = Some (SInt id) -> r0 !! "user_email" = Some (SText e) ->
  exists (evs : list value) (ev : value),
    get_events None e (put_events now None id body d).1 = Respond 200 (JArr evs) /\
    ev ∈ evs /\
    prop ev "id" = Some (JNum id) /\
    (stored_exactly CalendarEvents "title" (field body "title") ->
     prop ev "title"
     = Some (reads_back CalendarEvents "title" (field body "title"))) /\
    (stored_exactly CalendarEvents "event_date" (field body "date") ->
     prop ev "date"
     = Some (reads_back CalendarEvents "event_date" (field body "date"))) /\
    (stored_exactly CalendarEvents "start_time" (field body "start") ->
     prop ev "start"
     = Some (reads_back CalendarEvents "start_time" (field body "start"))) /\
    (stored_exactly CalendarEvents "end_time" (field body "end") ->
     prop ev "end"
     = Some (reads_back CalendarEvents "end_time" (field body "end"))) /\
    prop ev "isAllDay" = Some (JBool (truthy (field body "isAllDay"))) /\
    prop ev "isOnline" = Some (JBool (truthy (field body "isOnline"))) /\
    prop ev "repeatWeekly" = Some (JBool (truthy (field body "repeatWeekly"))) /\
    prop ev "modifiedDate" = Some (JStr now) /\
    prop ev "createdDate" = Some (of_sql (cell r0 "created_date")).
Proof.
  intros Hin Hid Hown.
  destruct (get_events_after_update now id body d e r0 Hin Hid Hown)
    as (evs & r & Hget & Hev & H1 & H2 & H3 & H4 & H5 & H6 & H7 & H8 & H9 & H10).
  exists evs, (event_json (select event_columns r)).
  split; [done|]. split; [done|].
  destruct (event_json_flags r) as (F1 & F2 & F3). rewrite F1, F2, F3.
  rewrite (event_json_plain r "id" "id")
    by string_list_goal.
  rewrite (event_json_plain r "title" "title")
    by string_list_goal.
  rewrite (event_json_plain r "event_date" "date")
    by string_list_goal.
  rewrite (event_json_plain r "start_time" "start")
    by string_list_goal.
  rewrite (event_json_plain r "end_time" "end")
    by string_list_goal.
  rewrite (event_json_plain r "modified_date" "modifiedDate")
    by string_list_goal.
  rewrite (event_json_plain r "created_date" "createdDate")
    by string_list_goal.
  rewrite (cell_lookup _ _ _ H1), (cell_lookup _ _ _ H3), (cell_lookup _ _ _ H4),
    (cell_lookup _ _ _ H5), (cell_lookup _ _ _ H6), (cell_lookup _ _ _ H7),
    (cell_lookup _ _ _ H8), (cell_lookup _ _ _ H9), (cell_lookup _ _ _ H10).
  rewrite !bit_reads_back. unfold cell at 1. rewrite H2.
  repeat match goal with |- _ /\ _ => split end; try intros _; reflexivity.
Qed.

(** ** The PostgreSQL wrapper *)

Lemma has_question_app (s t : string) :
  has_question (s +:+ t) = has_question s || has_question t.
Proof. induction s as [|a s IH]; simpl; [done|]. by rewrite IH, orb_assoc. Qed.

Lemma digits_no_question (u : Decimal.uint) :
  has_question (NilEmpty.string_of_uint u) = false.
Proof. induction u; simpl; done. Qed.

Lemma dollar_no_question n : has_question (dollar n) = false.
Proof. unfold dollar. by rewrite has_question_app, digits_no_question. Qed.

Lemma placeholders_no_question n (q : string) :
  has_question (placeholders n q) = false.
Proof.
  revert n. induction q as [|a q IH]; intros n; simpl; [done|].
  destruct (Ascii.eqb a question_mark) eqn:E.
  - by rewrite has_question_app, dollar_no_question, IH.
  - simpl. by rewrite E, IH.
Qed.

Lemma placeholders_free n (q : string) :
  has_question q = false -> placeholders n q = q.
Proof.
  induction q as [|a q IH]; simpl; [done|].
  intros [E Hq]%orb_false_elim. rewrite E. by rewrite IH.
Qed.

Lemma placeholders_app n (p s : string) :
  has_question p = false -> placeholders n (p +:+ s) = p +:+ placeholders n s.
Proof.
  induction p as [|a p IH]; simpl; [done|].
  intros [E Hp]%orb_false_elim. rewrite E. by rewrite IH.
Qed.

Lemma placeholders_question n (s : string) :
  placeholders n ("?" +:+ s) = dollar n +:+ placeholders (S n) s.
Proof. reflexivity. Qed.

Lemma placeholders_joined n (parts : list string) :
  Forall (fun p => has_question p = false) parts ->
  placeholders n (joined parts) = numbered n parts.
Proof.
  intros Hparts. revert n. induction Hparts as [|p rest Hp Hrest IH]; intros n;
    [done|].
  destruct rest as [|p' rest]; [by apply placeholders_free|].
  change (joined (p :: p' :: rest)) with (p +:+ "?" +:+ joined (p' :: rest)).
  change (numbered n (p :: p' :: rest))
    with (p +:+ dollar n +:+ numbered (S n) (p' :: rest)).
  by rewrite placeholders_app, placeholders_question, IH.
Qed.

Lemma count_questions_joined (parts : list string) :
  Forall (fun p => has_question p = false) parts ->
  count_questions (joined parts) = pred (length parts).
Proof.
  assert (Happ : forall s t, count_questions (s +:+ t)
                             = (count_questions s + count_questions t)%nat).
  { intros s t. induction s as [|a s IH]; simpl; [done|]. rewrite IH. lia. }
  assert (Hfree : forall s, has_question s = false -> count_questions s = 0%nat).
  { induction s as [|a s IH]; simpl; [done|].
    intros [E Hs]%orb_false_elim. rewrite E, IH; done. }
  induction 1 as [|p rest Hp Hrest IH]; [done|].
  destruct rest as [|p' rest]; [by apply Hfree|].
  change (joined (p :: p' :: rest)) with (p +:+ "?" +:+ joined (p' :: rest)).
  rewrite !Happ, IH, (Hfree p Hp). simpl. lia.
Qed.

(** X18. The wrapper's rewriting of placeholders: in a statement made of
    pieces without [?] with a [?] between each two, the k-th [?] becomes
    [$k], counted from 1, and the pieces are left as they are; so a
    statement with n question marks gets the placeholders $1 ... $n, and no
    [?] is left, whatever the statement; a statement without [?] is not
    changed. *)
Theorem placeholders_are_numbered (parts : list string) :
  Forall (fun p => has_question p = false) parts ->
  pg_placeholders (joined parts) = numbered 1 parts /\
  count_questions (joined parts) = pred (length parts) /\
  (forall q, has_question (pg_placeholders q) = false) /\
  (forall q, has_question q = false -> pg_placeholders q = q).
Proof.
  intros Hparts. split; [by apply placeholders_joined|].
  split; [by apply count_questions_joined|]. split.
  - intros q. apply placeholders_no_question.
  - intros q. apply placeholders_free.
Qed.

Lemma get_profile_is_sqlite_get (JSON_parse : value -> option value)
    fault email (d : database) :
  get_profile JSON_parse fault email d
  = sqlite_get (select_profile fault email d) (profile_callback JSON_parse).
Proof.
  unfold get_profile, sqlite_get, select_profile, db_get, profile_callback.
  destruct fault; [done|].
  change (bindParam (JStr email)) with (stored Profiles "user_email" (JStr email)).
  fold (profile_rows (JStr email) d).
  by destruct (head (profile_rows (JStr email) d)).
Qed.

(** X19. The same read under the two engines.  [GET /profile/:email] on
    the sqlite3 driver is the callback called once.  Under the PostgreSQL
    wrapper it answers the same whenever that answers; and when the
    callback throws (the parse failure of a list column), the wrapper's
    [catch] calls the callback again with the exception as [err], so the
    request is answered 500 "Error fetching profile." and never left
    without a response. *)
Theorem profile_read_under_postgres (JSON_parse : value -> option value)
    fault email (d : database) :
  get_profile JSON_parse fault email d
  = sqlite_get (select_profile fault email d) (profile_callback JSON_parse) /\
  (forall s b, get_profile JSON_parse fault email d = Respond s b ->
     get_profile_pg JSON_parse fault email d = Respond s b) /\
  (forall e, get_profile JSON_parse fault email d = Uncaught e ->
     get_profile_pg JSON_parse fault email d
     = Respond 500 (error_body "Error fetching profile.")) /\
  status_of (get_profile_pg JSON_parse fault email d) <> None.
Proof.
  split; [apply get_profile_is_sqlite_get|].
  rewrite get_profile_is_sqlite_get. unfold get_profile_pg, pg_get, sqlite_get.
  destruct (select_profile fault email d) as [err|found]; [by repeat split|].
  destruct (profile_callback JSON_parse None (head found)) as [s b|e];
    repeat split; try done; congruence.
Qed.

(** ** The resume *)

(** X20. The resume route guards what the profile read does not: when a
    list column of the profile holds text that [JSON.parse] rejects, any of
    the five, also one the page does not show, the request is answered 500
    with [<h1>Error</h1>]; so it is when the engine fails, and when the
    five lists parse but building the page throws.  With no profile it is
    answered 404 with the not-found page.  When the five lists parse and
    the page is built, it is sent with 200; and 200 is sent only so. *)
Theorem resume_is_guarded (JSON_parse : value -> option value)
    (not_found_page : string) (resume_page : row -> value -> option string)
    email (d : database) :
  (forall err, generate_resume JSON_parse not_found_page resume_page (Some err) email d
     = Send 500 "<h1>Error</h1>") /\
  (profile_rows (JStr email) d = [] ->
   generate_resume JSON_parse not_found_page resume_page None email d
   = Send 404 not_found_page) /\
  (forall (r : row) c s,
     head (profile_rows (JStr email) d) = Some r ->
     c ∈ profile_lists -> r !! c = Some (SText s) -> s <> "" ->
     JSON_parse (JStr s) = None ->
     generate_resume JSON_parse not_found_page resume_page None email d
     = Send 500 "<h1>Error</h1>") /\
  (forall (r : row) degrees employment courses grants awards,
     head (profile_rows (JStr email) d) = Some r ->
     parse_list JSON_parse r "degrees" = inr degrees ->
     parse_list JSON_parse r "employment" = inr employment ->
     parse_list JSON_parse r "courses" = inr courses ->
     parse_list JSON_parse r "grants" = inr grants ->
     parse_list JSON_parse r "awards" = inr awards ->
     generate_resume JSON_parse not_found_page resume_page None email d
     = match resume_page r degrees with
       | Some html => Send 200 html
       | None => Send 500 "<h1>Error</h1>"
       end) /\
  (forall html,
     generate_resume JSON_parse not_found_page resume_page None email d
     = Send 200 html ->
     exists (r : row) (degrees : value),
       head (profile_rows (JStr email) d) = Some r /\
       parse_list JSON_parse r "degrees" = inr degrees /\
       resume_page r degrees = Some html).
Proof.
  unfold generate_resume, db_get.
  change (bindParam (JStr email)) with (stored Profiles "user_email" (JStr email)).
  fold (profile_rows (JStr email) d).
  split; [done|]. split; [by intros ->|]. split; [|split].
  - intros r c s Hrow Hc Hcell Hs Hp. rewrite Hrow.
    pose proof (parse_list_fails JSON_parse r c s Hcell Hs Hp) as Hfail.
    unfold profile_lists in Hc.
    destruct (parse_list JSON_parse r "degrees") eqn:E1; [done|].
    destruct (parse_list JSON_parse r "employment") eqn:E2; [done|].
    destruct (parse_list JSON_parse r "courses") eqn:E3; [done|].
    destruct (parse_list JSON_parse r "grants") eqn:E4; [done|].
    destruct (parse_list JSON_parse r "awards") eqn:E5; [done|].
    exfalso.
    repeat (apply elem_of_cons in Hc as [->|Hc]; [congruence|]).
    by apply elem_of_nil in Hc.
  - intros r degrees employment courses grants awards Hrow E1 E2 E3 E4 E5.
    by rewrite Hrow, E1, E2, E3, E4, E5.
  - intros html. destruct (head (profile_rows (JStr email) d)) as [r|];
      [|discriminate].
    destruct (parse_list JSON_parse r "degrees") as [|degrees] eqn:E1;
      [discriminate|].
    destruct (parse_list JSON_parse r "employment"); [discriminate|].
    destruct (parse_list JSON_parse r "courses"); [discriminate|].
    destruct (parse_list JSON_parse r "grants"); [discriminate|].
    destruct (parse_list JSON_parse r "awards"); [discriminate|].
    destruct (resume_page r degrees) as [h|] eqn:Hr; [|discriminate].
    intros [= <-]. by exists r, degrees.
Qed.

(** ** Repeating an update *)

Lemma assign_absorbs t sets1 sets2 (r : row) :
  sets1.*1 = sets2.*1 -> assign t sets2 (assign t sets1 r) = assign t sets2 r.
Proof.
  intros Hcols. unfold assign. apply map_eq. intros c. rewrite !lookup_union.
  destruct (list_to_map ((fun cv : string * value => (cv.1, stored t cv.1 cv.2))
                           <$> sets2) !! c) as [x|] eqn:E2;
    [by rewrite !union_Some_l|].
  apply not_elem_of_list_to_map_2 in E2. rewrite assign_columns, <- Hcols in E2.
  rewrite (not_elem_of_list_to_map_1 _ c) by (by rewrite assign_columns).
  by rewrite !(left_id_L None union).
Qed.

(** Two updates by id of the same columns, one after the other. *)
Lemma db_update_absorbed t sets1 sets2 id (k1 k2 : db_error -> outcome) :
  "id" ∉ sets1.*1 -> sets1.*1 = sets2.*1 ->
  absorbed_by
    (fun d =>
       match db_update None t sets1 (where_eq "id" (SInt id)) d with
       | (d', inl e) => (d', k1 e)
       | (d', inr changes) => (d', Respond 200 (literal [("updated", JNum changes)]))
       end)
    (fun d =>
       match db_update None t sets2 (where_eq "id" (SInt id)) d with
       | (d', inl e) => (d', k2 e)
       | (d', inr changes) => (d', Respond 200 (literal [("updated", JNum changes)]))
       end).
Proof.
  intros Hid Hcols d. unfold db_update. cbn [fst snd]. rewrite set_table_same.
  cbn [rows seq].
  assert (Hfilter :
    filter (fun r : row => where_eq "id" (SInt id) r = true)
      ((fun r : row => if where_eq "id" (SInt id) r then assign t sets1 r else r)
         <$> rows (d t))
    = assign t sets1 <$> filter (fun r : row => where_eq "id" (SInt id) r = true)
                           (rows (d t))).
  { apply filter_update. intros r. by apply where_eq_assign. }
  split.
  - by rewrite Hfilter, length_fmap.
  - intros t'. unfold set_table. case_decide; [|done]. f_equal.
    rewrite <- list_fmap_compose. apply list_fmap_ext. intros i r _. simpl.
    destruct (where_eq "id" (SInt id) r) eqn:W; [|by rewrite W].
    by rewrite where_eq_assign, W, assign_absorbs.
Qed.

Lemma db_update_repeatable t sets id (k1 : db_error -> outcome) :
  "id" ∉ sets.*1 ->
  repeatable (fun d =>
    match db_update None t sets (where_eq "id" (SInt id)) d with
    | (d', inl e) => (d', k1 e)
    | (d', inr changes) => (d', Respond 200 (literal [("updated", JNum changes)]))
    end).
Proof. intros Hid. by apply db_update_absorbed. Qed.

(** X21. An update by id can be repeated: the same request a second time
    gives the same response and leaves every table as the first one left
    it.  [PUT /events/:id] writes the time of the request: repeated at
    another time it gives the same response, and leaves every table as the
    later request alone would have left it. *)
Theorem update_is_repeatable now now' id (body : object) :
  repeatable (put_projects None id body) /\
  repeatable (put_projects_description None id body) /\
  repeatable (put_ideas None id body) /\
  repeatable (put_notes None id body) /\
  repeatable (put_career_goals None id body) /\
  repeatable (put_future_work None id body) /\
  repeatable (put_deadlines None id body) /\
  repeatable (put_calendar_events None id body) /\
  absorbed_by (put_events now None id body) (put_events now' None id body).
Proof.
  unfold put_projects, put_projects_description, put_ideas, put_notes,
    put_career_goals, put_future_work, put_deadlines, put_events,
    put_calendar_events.
  cbv zeta.
  repeat match goal with |- _ /\ _ => split end;
    first [ apply db_update_repeatable; string_list_goal
          | apply db_update_absorbed; [string_list_goal|reflexivity] ].
Qed.

(** ** The further theorems at work on the sample requests *)

Lemma absent_id_is_counted_zero_witness :
  no_effect "updated" empty_db (put_ideas None 7 rename_only empty_db) /\
  no_effect "deleted" empty_db (delete_ideas None 7 empty_db).
Proof.
  destruct (absent_id_is_counted_zero clock0 7 rename_only empty_db)
    as (_ & Hideas & _).
  apply Hideas. intros r Hr. by apply elem_of_nil in Hr.
Defined.

Lemma by_id_touches_at_most_one_witness :
  counts_one "updated" (put_projects None 1 rename_only db_brochure) /\
  counts_one "updated" (put_projects_description None 1 rename_only db_brochure) /\
  counts_one "deleted" (delete_projects None 1 db_brochure).
Proof.
  destruct (by_id_touches_at_most_one clock0 1 rename_only db_brochure)
    as (Hprojects & _).
  apply Hprojects. refine (bool_decide_unpack _ _). vm_compute. exact I.
Defined.


Lemma create_leaves_other_listings_witness :
  get_ideas None "bob@x.com" (post_ideas clock0 None ada_idea empty_db).1
  = get_ideas None "bob@x.com" empty_db.
Proof.
  destruct (create_leaves_other_listings clock0 None None ada_idea empty_db
              "bob@x.com") as (Hlegacy & _).
  apply Hlegacy.
  - reflexivity.
  - vm_compute. intros H. discriminate H.
Defined.

Lemma signup_then_login_witness :
  login lower_ascii trim_spaces tag_compare None ada_login_typed
    (signup lower_ascii trim_spaces lt_numbers tag_hash "salt" None ada_signup
       empty_db).1
  = Respond 200
      (literal [("success", JBool true);
                ("email", JStr (trim_spaces (lower_ascii " Ada@X.com")));
                ("message", JStr "Login successful!")]).
Proof.
  apply (signup_then_login lower_ascii trim_spaces lt_numbers tag_hash tag_compare
           "salt" ada_signup ada_login_typed empty_db " Ada@X.com" "ADA@x.com "
           "salt$lovelace").
  - reflexivity.
  - reflexivity.
  - reflexivity.
  - reflexivity.
  - reflexivity.
  - reflexivity.
  - reflexivity.
  - reflexivity.
  - reflexivity.
  - reflexivity.
  - reflexivity.
Defined.

Lemma signup_twice_is_refused_witness :
  signup lower_ascii trim_spaces lt_numbers tag_hash "salt" None ada_signup db_ada
  = (db_ada, Respond 400 (failure "User already exists.")) /\
  register lower_ascii trim_spaces lt_numbers tag_hash "salt" None ada_signup db_ada
  = (db_ada, Respond 400 (failure "User already exists.")).
Proof.
  apply (signup_twice_is_refused lower_ascii trim_spaces lt_numbers tag_hash
           "salt" ada_signup db_ada " Ada@X.com" "salt$lovelace" ada_account).
  - reflexivity.
  - reflexivity.
  - reflexivity.
  - reflexivity.
  - reflexivity.
  - reflexivity.
Defined.

Lemma profile_save_then_read_witness :
  let read := get_profile parse_names None "ada@x.com"
                (post_profile print_names clock0 clock0 None None
                   ada_profile_degrees empty_db).1 in
  status_of read = Some 200 /\
  answer read "fullName"
  = Some (reads_back Profiles "full_name" (field ada_profile_degrees "fullName")) /\
  answer read "phone"
  = Some (reads_back Profiles "phone" (field ada_profile_degrees "phone")) /\
  reads_back Profiles "phone" (field ada_profile_degrees "phone") = JStr "5550100" /\
  answer read "degrees" = Some (JArr [JStr "BSc"; JStr "PhD"]).
Proof.
  destruct (profile_save_then_read print_names parse_names clock0 clock0
              ada_profile_degrees empty_db "ada@x.com")
    as (Hstatus & _ & Hscalar & Hlist).
  - reflexivity.
  - discriminate.
  - vm_compute. lia.
  - intros k Hk. unfold profile_lists in Hk.
    repeat (apply elem_of_cons in Hk as [->|Hk]; [by vm_compute|]).
    by apply elem_of_nil in Hk.
  - split; [exact Hstatus|]. split; [|split; [|split]].
    + apply (Hscalar "fullName" "full_name"); [in_list|reflexivity].
    + apply (Hscalar "phone" "phone"); [in_list|reflexivity].
    + reflexivity.
    + apply (Hlist "degrees"). in_list.
Defined.

Lemma description_save_then_read_witness :
  let read := get_projects_description None 1
                (put_projects_description None 1 brochure_description db_brochure).1 in
  status_of read = Some 200 /\
  answer read "project_title"
  = Some (reads_back Projects "project_title"
            (field brochure_description "projectTitle")) /\
  answer read "your_phone"
  = Some (reads_back Projects "your_phone" (field brochure_description "yourPhone")) /\
  reads_back Projects "project_title" (field brochure_description "projectTitle")
  = JStr "Launch brochure" /\
  reads_back Projects "your_phone" (field brochure_description "yourPhone")
  = JStr "5550100" /\
  answer read "name" = of_sql <$> brochure_row !! "name".
Proof.
  destruct (description_save_then_read 1 brochure_description db_brochure)
    as (Hfound & _).
  destruct (Hfound brochure_row) as (Hstatus & Hfields & Hkept); [reflexivity|].
  split; [exact Hstatus|]. split; [|split; [|split; [|split]]].
  - apply (Hfields "projectTitle" "project_title"); [in_list|reflexivity].
  - apply (Hfields "yourPhone" "your_phone"); [in_list|reflexivity].
  - reflexivity.
  - reflexivity.
  - apply Hkept. in_list.
Defined.

Lemma legacy_event_in_canonical_listing_witness :
  exists (evs : list value) (ev : value),
    get_events None "a@x.com"
      (post_calendar_events clock0 None legacy_event_text_flag empty_db).1
    = Respond 200 (JArr evs) /\
    ev ∈ evs /\
    prop ev "title"
    = Some (reads_back CalendarEvents "title" (field legacy_event_text_flag "title")) /\
    prop ev "repeatWeekly"
    = Some (JBool (truthy (reads_back CalendarEvents "repeat_weekly"
                             (field legacy_event_text_flag "repeat_weekly")))) /\
    reads_back CalendarEvents "repeat_weekly"
      (field legacy_event_text_flag "repeat_weekly") = JNum 0 /\
    prop ev "category" = Some (JStr "Work").
Proof.
  destruct (legacy_event_in_canonical_listing clock0 legacy_event_text_flag
              empty_db "a@x.com")
    as (evs & ev & Hget & Hin & _ & Htitle & _ & _ & _ & Hweekly & _ & _ & Hcat & _).
  - reflexivity.
  - exists evs, ev. split; [exact Hget|]. split; [exact Hin|].
    split; [apply Htitle; reflexivity|]. split; [apply Hweekly; reflexivity|].
    split; [reflexivity|exact Hcat].
Defined.

Lemma event_update_then_list_witness :
  exists (evs : list value) (ev : value),
    get_events None "a@x.com" (put_events clock1 None 1 move_standup db_one_event).1
    = Respond 200 (JArr evs) /\
    ev ∈ evs /\
    prop ev "id" = Some (JNum 1) /\
    prop ev "title"
    = Some (reads_back CalendarEvents "title" (field move_standup "title")) /\
    reads_back CalendarEvents "title" (field move_standup "title") = JStr "7" /\
    prop ev "isOnline" = Some (JBool (truthy (field move_standup "isOnline"))) /\
    prop ev "modifiedDate" = Some (JStr clock1).
Proof.
  destruct (event_update_then_list clock1 1 move_standup db_one_event "a@x.com"
              standup_row)
    as (evs & ev & Hget & Hin & Hid & Htitle & _ & _ & _ & _ & Honline & _ & Hmod & _).
  - apply list_elem_of_here.
  - by vm_compute.
  - by vm_compute.
  - exists evs, ev. split; [exact Hget|]. split; [exact Hin|].
    split; [exact Hid|]. split; [apply Htitle; reflexivity|].
    split; [reflexivity|]. split; [exact Honline|exact Hmod].
Defined.

Lemma placeholders_are_numbered_witness :
  pg_placeholders "INSERT INTO users (email, password) VALUES (?, ?)"
  = "INSERT INTO users (email, password) VALUES ($1, $2)" /\
  count_questions "INSERT INTO users (email, password) VALUES (?, ?)" = 2%nat.
Proof.
  destruct (placeholders_are_numbered insert_user_parts) as (Hq & Hn & _).
  - repeat constructor.
  - split; [exact Hq|exact Hn].
Defined.

Lemma resume_is_guarded_witness :
  generate_resume parse_empty_list plain_not_found plain_resume None "ada@x.com"
    db_bad_degrees
  = Send 500 "<h1>Error</h1>" /\
  generate_resume parse_empty_list plain_not_found plain_resume None "bob@x.com"
    db_bad_degrees
  = Send 404 plain_not_found.
Proof.
  split.
  - destruct (resume_is_guarded parse_empty_list plain_not_found plain_resume
                "ada@x.com" db_bad_degrees) as (_ & _ & Hbad & _).
    apply (Hbad bad_degrees_row "degrees" "{not json").
    + reflexivity.
    + apply list_elem_of_here.
    + reflexivity.
    + discriminate.
    + reflexivity.
  - destruct (resume_is_guarded parse_empty_list plain_not_found plain_resume
                "bob@x.com" db_bad_degrees) as (_ & Hnone & _).
    apply Hnone. reflexivity.
Defined.

End Server.
